(** * IKE inventory counting: count lifecycle, variance engine, sales sync

    A shallow embedding of [backend/app/api/count.py],
    [backend/app/services/sales_sync.py] and the SQLAlchemy models they
    use ([backend/app/models/inventory_count.py], [product.py], [user.py]).

    Conventions of the embedding.
    - A table with a primary key that the code looks rows up by
      ([Query.get]) is a finite map from the key to the row; a table that
      is only scanned or appended to is a list of rows in storage order.
    - Python [int] is [Z]; a nullable column is an [option].
    - [str] is [string], one character per code point: text is modelled
      up to code point 255 (Latin-1), where [str.lower] and [str.strip]
      are the functions of [Py] and [str.upper] is so but for two
      letters whose capitals lie beyond that range.
    - A naive [datetime] is a calendar day and a time of day, compared
      lexicographically as Python does.
    - [datetime.utcnow()], [get_jwt_identity()] and [uuid.uuid4()] are
      inputs of the operation that calls them.
    - A view either returns a value or fails: an error response ([Err])
      issued before any write leaves the database untouched. *)

From Stdlib Require Import ZArith Lia Ascii String.
From stdpp Require Import base option list sorting gmap strings pretty.

Local Open Scope Z_scope.

(** ** Python built-ins used by the views *)

Module Py.

(** [str.lower] on the code points below 256: the capitals are A to Z
    and, in the upper half, U+00C0 to U+00DE without the sign U+00D7;
    each has its small letter 32 places further on. *)
Definition lower_char (c : ascii) : ascii :=
  let n := Ascii.N_of_ascii c in
  if (((65 <=? n) && (n <=? 90))
      || ((192 <=? n) && (n <=? 222) && negb (n =? 215)))%N
  then Ascii.ascii_of_N (n + 32) else c.

Fixpoint lower (s : string) : string :=
  match s with
  | EmptyString => EmptyString
  | String c s' => String (lower_char c) (lower s')
  end.

(** The characters [str.strip()] removes: tab, LF, VT, FF, CR, the four
    separators FS GS RS US, space, and in the upper half NEL (U+0085)
    and the no-break space (U+00A0). *)
Definition is_space (c : ascii) : bool :=
  let n := Ascii.N_of_ascii c in
  (((9 <=? n) && (n <=? 13)) || ((28 <=? n) && (n <=? 32))
   || (n =? 133) || (n =? 160))%N.

Fixpoint lstrip (s : string) : string :=
  match s with
  | EmptyString => EmptyString
  | String c s' => if is_space c then lstrip s' else s
  end.

Definition strip (s : string) : string :=
  String.rev (lstrip (String.rev (lstrip s))).

(** [str.upper] on the code points below 256: a to z and U+00E0 to
    U+00FE without the sign U+00F7 move 32 places back, and the sharp s
    (U+00DF) becomes "SS".  The capitals of U+00FF and of the micro sign
    U+00B5 are U+0178 and U+039C, which a [string] cannot hold: the two
    are left as they are. *)
Definition upper_char (c : ascii) : string :=
  let n := Ascii.N_of_ascii c in
  if (n =? 223)%N then "SS"
  else if (((97 <=? n) && (n <=? 122))
           || ((224 <=? n) && (n <=? 254) && negb (n =? 247)))%N
  then String (Ascii.ascii_of_N (n - 32)) EmptyString
  else String c EmptyString.

Fixpoint upper (s : string) : string :=
  match s with
  | EmptyString => EmptyString
  | String c s' => upper_char c +:+ upper s'
  end.

(** Truthiness of a [str]. *)
Definition truthy (s : string) : bool :=
  match s with EmptyString => false | _ => true end.

(** Truthiness of an optional [str]: [None] and [""] are falsy. *)
Definition otruthy (o : option string) : bool :=
  match o with Some s => truthy s | None => false end.

(** [s or None] *)
Definition or_none (s : string) : option string :=
  if truthy s then Some s else None.

(** [str(payload.get(key, dflt)).strip()] on a string-valued field *)
Definition get_stripped (o : option string) (dflt : string) : string :=
  strip (default dflt o).

(** [sum(...)] over integers *)
Definition sum (l : list Z) : Z := foldr Z.add 0 l.

(** A dict comprehension [{k: v for (k, v) in rows}]: a later row
    overwrites an earlier one with the same key. *)
Definition dict_of {V} (rows : list (string * V)) : gmap string V :=
  foldl (λ m r, <[r.1 := r.2]> m) ∅ rows.

(** [list.sort(key=..., reverse=...)] and [sorted] are stable: elements
    the order does not separate keep their relative position.  A stable
    sort has one possible result, computed here by insertion. [leb a b]
    says that [a] may stay in front of [b]. *)
Section stable_sort.
Context {A : Type} (leb : A → A → bool).

Fixpoint insert_sorted (x : A) (l : list A) : list A :=
  match l with
  | [] => [x]
  | y :: l' => if leb x y then x :: l else y :: insert_sorted x l'
  end.

Definition stable_sort (l : list A) : list A := foldr insert_sorted [] l.
End stable_sort.

End Py.

(** ** Naive datetimes *)

Record datetime := DateTime { dt_date : Z; dt_time : Z }.

Global Instance datetime_eq_dec : EqDecision datetime.
Proof. solve_decision. Defined.

Module DT.
Definition ltb (a b : datetime) : bool :=
  (dt_date a <? dt_date b) || ((dt_date a =? dt_date b) && (dt_time a <? dt_time b)).
Definition leb (a b : datetime) : bool := negb (ltb b a).

(** [datetime.combine(d, t or datetime.min.time())] *)
Definition combine (d : Z) (t : option Z) : datetime :=
  DateTime d (default 0 t).

(** [min(xs)]: keeps the first least element; [None] stands for the
    [ValueError] Python raises on an empty sequence. *)
Definition min (l : list datetime) : option datetime :=
  match l with
  | [] => None
  | x :: l' => Some (foldl (λ best y, if ltb y best then y else best) x l')
  end.

(** [max(xs)], likewise. *)
Definition max (l : list datetime) : option datetime :=
  match l with
  | [] => None
  | x :: l' => Some (foldl (λ best y, if ltb best y then y else best) x l')
  end.
End DT.

(** ** Tables ([models/]) *)

Inductive session_status :=
  SDraft | SInProgress | SSubmitted | SReconciled | SClosed.
Inductive pass_status := PInProgress | PSubmitted | PVoided.

Global Instance session_status_eq_dec : EqDecision session_status.
Proof. solve_decision. Defined.
Global Instance pass_status_eq_dec : EqDecision pass_status.
Proof. solve_decision. Defined.

Record inventory_location := {
  loc_store_id : Z;
  loc_code : string;
  loc_name : string;
  loc_description : option string;
  loc_is_active : bool;
  loc_sort_order : Z
}.

Record count_session := {
  cs_store_id : Z;
  cs_created_by_user_id : Z;
  cs_status : session_status;
  cs_expected_snapshot_at : option datetime;
  cs_notes : option string
}.

Record count_pass := {
  cp_session_id : string;
  cp_location_id : Z;
  cp_category : option string;
  cp_subcategory : option string;
  cp_started_at : datetime;
  cp_submitted_at : option datetime;
  cp_started_by_user_id : Z;
  cp_submitted_by_user_id : option Z;
  cp_status : pass_status;
  cp_device_id : option string;
  cp_scan_mode : string
}.

Record count_line := {
  cl_count_pass_id : string;
  cl_product_id : Z;
  cl_sku : string;
  cl_barcode : option string;
  cl_package_id : option string;
  cl_counted_qty : Z;
  cl_unit : string;
  cl_captured_at : datetime;
  cl_captured_by_user_id : Z;
  cl_confidence : string;
  cl_notes : option string
}.

Record movement := {
  mv_store_id : Z;
  mv_product_id : Z;
  mv_sku : string;
  mv_movement_type : string;
  mv_qty_delta : Z;
  mv_occurred_at : datetime;
  mv_source : string;
  mv_source_ref : option string
}.

Record product := {
  p_id : Z;
  p_sku : string;
  p_cova_sku : option string;
  p_name : string;
  p_brand : option string;
  p_category : option string;
  p_subcategory : option string
}.

Record inventory_item := {
  ii_store_id : Z;
  ii_product_id : Z;
  ii_current_quantity : option Z
}.

(** Modelled from the spec: the [cova_sales] table is filled by an external
    bridge and is not declared in the repository.  A row carries the
    columns the sync selects and reads (the external sales feed:
    transaction id, line number, external store id, date, time, SKU,
    quantity); time, SKU and quantity may be NULL. *)
Record cova_sale := {
  sale_transaction_id : string;
  sale_line_number : Z;
  sale_cova_store_id : string;
  sale_transaction_date : Z;
  sale_transaction_time : option Z;
  sale_product_sku : option string;
  sale_quantity : option Z
}.

Global Instance count_line_eq_dec : EqDecision count_line.
Proof. solve_decision. Defined.
Global Instance count_pass_eq_dec : EqDecision count_pass.
Proof. solve_decision. Defined.
Global Instance movement_eq_dec : EqDecision movement.
Proof. solve_decision. Defined.

(** The database.  Of [Store] only the primary key is read. *)
Record db := {
  stores : gset Z;
  locations : gmap Z inventory_location;
  sessions : gmap string count_session;
  passes : gmap string count_pass;
  lines : gmap string count_line;
  movements : list movement;
  products : list product;
  inventory_items : list inventory_item;
  cova_sales : list cova_sale
}.

Definition set_locations (d : db) (x : gmap Z inventory_location) : db :=
  {| stores := stores d; locations := x; sessions := sessions d;
     passes := passes d; lines := lines d; movements := movements d;
     products := products d; inventory_items := inventory_items d;
     cova_sales := cova_sales d |}.
Definition set_sessions (d : db) (x : gmap string count_session) : db :=
  {| stores := stores d; locations := locations d; sessions := x;
     passes := passes d; lines := lines d; movements := movements d;
     products := products d; inventory_items := inventory_items d;
     cova_sales := cova_sales d |}.
Definition set_passes (d : db) (x : gmap string count_pass) : db :=
  {| stores := stores d; locations := locations d; sessions := sessions d;
     passes := x; lines := lines d; movements := movements d;
     products := products d; inventory_items := inventory_items d;
     cova_sales := cova_sales d |}.
Definition set_lines (d : db) (x : gmap string count_line) : db :=
  {| stores := stores d; locations := locations d; sessions := sessions d;
     passes := passes d; lines := x; movements := movements d;
     products := products d; inventory_items := inventory_items d;
     cova_sales := cova_sales d |}.
Definition set_movements (d : db) (x : list movement) : db :=
  {| stores := stores d; locations := locations d; sessions := sessions d;
     passes := passes d; lines := lines d; movements := x;
     products := products d; inventory_items := inventory_items d;
     cova_sales := cova_sales d |}.

(** ** Responses *)

(** The error kinds of the API.  [ServerError] is an exception that
    escapes the view (HTTP 500). *)
Inductive error :=
  | NotFound (what : string)
  | InvalidState (msg : string)
  | ValidationError (msg : string)
  | ScopeMismatch (field expected got product_name : string)
  | Conflict (msg : string)
  | ServerError (exn : string).

Inductive result (A : Type) :=
  | Ok (a : A)
  | Err (e : error).
Arguments Ok {A} a.
Arguments Err {A} e.

(** ** Sessions ([count.py], SESSIONS) *)

Definition session_status_name (s : session_status) : string :=
  match s with
  | SDraft => "draft" | SInProgress => "in_progress" | SSubmitted => "submitted"
  | SReconciled => "reconciled" | SClosed => "closed"
  end.

Definition pass_status_name (s : pass_status) : string :=
  match s with
  | PInProgress => "in_progress" | PSubmitted => "submitted" | PVoided => "voided"
  end.

Record create_location_payload := {
  clp_store_id : option Z;
  clp_code : option string;
  clp_name : option string;
  clp_description : option string
}.

(** The key an autoincrement column gives the next row. *)
Definition next_location_id (d : db) : Z :=
  1 + map_fold (λ k _ acc, Z.max k acc) 0 (locations d).

Definition create_location (d : db) (payload : create_location_payload)
  : result (db * (Z * inventory_location)) :=
  let store_id := clp_store_id payload in
  let code := Py.upper (Py.get_stripped (clp_code payload) "") in
  let name := Py.get_stripped (clp_name payload) "" in
  let description := Py.or_none (Py.get_stripped (clp_description payload) "") in
  match store_id with
  | Some sid =>
    if negb (bool_decide (sid ≠ 0) && Py.truthy code && Py.truthy name)
    then Err (ValidationError "store_id, code, and name required")
    else
      match filter (λ r, loc_store_id r.2 = sid ∧ loc_code r.2 = code)
                   (map_to_list (locations d)) with
      | _ :: _ => Err (Conflict ("Location '" +:+ code +:+ "' already exists"))
      | [] =>
        let location := {| loc_store_id := sid; loc_code := code; loc_name := name;
                           loc_description := description; loc_is_active := true;
                           loc_sort_order := 0 |} in
        let id := next_location_id d in
        Ok (set_locations d (<[id := location]> (locations d)), (id, location))
      end
  | None => Err (ValidationError "store_id, code, and name required")
  end.

Record create_session_payload := {
  csp_store_id : option Z;
  csp_notes : option string
}.

Definition create_session (d : db) (user_id : Z) (now : datetime) (new_id : string)
    (payload : create_session_payload) : result (db * (string * count_session)) :=
  let notes := Py.or_none (Py.get_stripped (csp_notes payload) "") in
  match csp_store_id payload with
  | None => Err (ValidationError "store_id required")
  | Some store_id =>
    if decide (store_id = 0) then Err (ValidationError "store_id required")
    else if decide (store_id ∉ stores d) then Err (NotFound "Store not found")
    else
      let session := {| cs_store_id := store_id; cs_created_by_user_id := user_id;
                        cs_status := SDraft; cs_expected_snapshot_at := Some now;
                        cs_notes := notes |} in
      match sessions d !! new_id with
      | Some _ => Err (ServerError "IntegrityError")
      | None => Ok (set_sessions d (<[new_id := session]> (sessions d)), (new_id, session))
      end
  end.

Definition with_session_status (s : count_session) (st : session_status) : count_session :=
  {| cs_store_id := cs_store_id s; cs_created_by_user_id := cs_created_by_user_id s;
     cs_status := st; cs_expected_snapshot_at := cs_expected_snapshot_at s;
     cs_notes := cs_notes s |}.

Definition start_session (d : db) (session_id : string)
  : result (db * count_session) :=
  match sessions d !! session_id with
  | None => Err (NotFound "Session not found")
  | Some session =>
    if decide (cs_status session ≠ SDraft)
    then Err (InvalidState ("Cannot start session in '" +:+
                            session_status_name (cs_status session) +:+ "' status"))
    else
      let session' := with_session_status session SInProgress in
      Ok (set_sessions d (<[session_id := session']> (sessions d)), session')
  end.

(** [InventoryCountPass.query.filter_by(session_id=..., status=...)] *)
Definition passes_by (d : db) (session_id : string) (st : pass_status)
  : list (string * count_pass) :=
  filter (λ r, cp_session_id r.2 = session_id ∧ cp_status r.2 = st)
         (map_to_list (passes d)).

Definition submit_session (d : db) (session_id : string)
  : result (db * count_session) :=
  match sessions d !! session_id with
  | None => Err (NotFound "Session not found")
  | Some session =>
    if decide (cs_status session ≠ SInProgress)
    then Err (InvalidState ("Cannot submit session in '" +:+
                            session_status_name (cs_status session) +:+ "' status"))
    else
      let open_passes := length (passes_by d session_id PInProgress) in
      if decide (0 < open_passes)%nat
      then Err (InvalidState (pretty open_passes +:+ " passes still in progress"))
      else
        let session' := with_session_status session SSubmitted in
        Ok (set_sessions d (<[session_id := session']> (sessions d)), session')
  end.

(** ** Passes ([count.py], PASSES) *)

Record create_pass_payload := {
  cpp_location_id : option Z;
  cpp_category : option string;
  cpp_subcategory : option string;
  cpp_device_id : option string;
  cpp_scan_mode : option string
}.

Definition create_pass (d : db) (user_id : Z) (now : datetime) (new_id : string)
    (session_id : string) (payload : create_pass_payload)
  : result (db * (string * count_pass)) :=
  match sessions d !! session_id with
  | None => Err (NotFound "Session not found")
  | Some session =>
    if decide (cs_status session ≠ SDraft ∧ cs_status session ≠ SInProgress)
    then Err (InvalidState ("Cannot add passes to '" +:+
                            session_status_name (cs_status session) +:+ "' session"))
    else
      match cpp_location_id payload with
      | None => Err (ValidationError "location_id required")
      | Some location_id =>
        if decide (location_id = 0) then Err (ValidationError "location_id required")
        else
          match locations d !! location_id with
          | None => Err (ValidationError "Invalid location")
          | Some location =>
            if decide (loc_store_id location ≠ cs_store_id session)
            then Err (ValidationError "Invalid location")
            else
              (* Auto-start session if still draft *)
              let session' :=
                if decide (cs_status session = SDraft)
                then with_session_status session SInProgress else session in
              let count_pass :=
                {| cp_session_id := session_id;
                   cp_location_id := location_id;
                   cp_category := Py.or_none (Py.get_stripped (cpp_category payload) "");
                   cp_subcategory := Py.or_none (Py.get_stripped (cpp_subcategory payload) "");
                   cp_started_at := now;
                   cp_submitted_at := None;
                   cp_started_by_user_id := user_id;
                   cp_submitted_by_user_id := None;
                   cp_status := PInProgress;
                   cp_device_id := Py.or_none (Py.get_stripped (cpp_device_id payload) "");
                   cp_scan_mode := Py.get_stripped (cpp_scan_mode payload) "scanner" |} in
              match passes d !! new_id with
              | Some _ => Err (ServerError "IntegrityError")
              | None =>
                Ok (set_passes (set_sessions d (<[session_id := session']> (sessions d)))
                               (<[new_id := count_pass]> (passes d)),
                    (new_id, count_pass))
              end
          end
      end
  end.

Definition with_pass_status (p : count_pass) (st : pass_status)
    (submitted_at : option datetime) (submitted_by : option Z) : count_pass :=
  {| cp_session_id := cp_session_id p; cp_location_id := cp_location_id p;
     cp_category := cp_category p; cp_subcategory := cp_subcategory p;
     cp_started_at := cp_started_at p; cp_submitted_at := submitted_at;
     cp_started_by_user_id := cp_started_by_user_id p;
     cp_submitted_by_user_id := submitted_by;
     cp_status := st; cp_device_id := cp_device_id p;
     cp_scan_mode := cp_scan_mode p |}.

Definition submit_pass (d : db) (user_id : Z) (now : datetime) (pass_id : string)
  : result (db * count_pass) :=
  match passes d !! pass_id with
  | None => Err (NotFound "Pass not found")
  | Some count_pass =>
    if decide (cp_status count_pass ≠ PInProgress)
    then Err (InvalidState ("Cannot submit pass in '" +:+
                            pass_status_name (cp_status count_pass) +:+ "' status"))
    else
      let count_pass' := with_pass_status count_pass PSubmitted (Some now) (Some user_id) in
      Ok (set_passes d (<[pass_id := count_pass']> (passes d)), count_pass')
  end.

Definition void_pass (d : db) (pass_id : string) : result (db * count_pass) :=
  match passes d !! pass_id with
  | None => Err (NotFound "Pass not found")
  | Some count_pass =>
    if decide (cp_status count_pass = PVoided)
    then Err (InvalidState "Pass already voided")
    else
      let count_pass' :=
        with_pass_status count_pass PVoided (cp_submitted_at count_pass)
                         (cp_submitted_by_user_id count_pass) in
      Ok (set_passes d (<[pass_id := count_pass']> (passes d)), count_pass')
  end.

(** ** Lines ([count.py], LINES) *)

(** The JSON body of [POST /passes/<id>/lines], with well-typed values: a
    key that is absent is [None]. *)
Record add_line_payload := {
  al_barcode : option string;
  al_counted_qty : option Z;
  al_package_id : option string;
  al_confidence : option string;
  al_notes : option string
}.

Record add_line_response := {
  alr_line_id : string;
  alr_line : count_line;
  alr_incremented : bool;
  alr_previous_qty : option Z;
  alr_product : option product
}.

(** [Product.query.filter((Product.sku == code) | (Product.cova_sku == code)).first()] *)
Definition find_product (d : db) (code : string) : option product :=
  head (filter (λ p, p_sku p = code ∨ p_cova_sku p = Some code) (products d)).

(** [InventoryCountLine.query.filter_by(count_pass_id=..., sku=...).first()] *)
Definition find_line (d : db) (pass_id sku : string) : option (string * count_line) :=
  head (filter (λ r, cl_count_pass_id r.2 = pass_id ∧ cl_sku r.2 = sku)
               (map_to_list (lines d))).

(** The guard [if scope and actual: if actual.lower() != scope.lower()]:
    the pair (expected, got) when it rejects. *)
Definition scope_conflict (scope actual : option string) : option (string * string) :=
  match scope, actual with
  | Some s, Some a =>
    if Py.truthy s && Py.truthy a && bool_decide (Py.lower a ≠ Py.lower s)
    then Some (s, a) else None
  | _, _ => None
  end.

(** The increment branch: [counted_qty += qty], fresh capture stamp,
    notes overwritten only by truthy notes. *)
Definition increment_line (l : count_line) (qty : Z) (now : datetime)
    (user_id : Z) (notes : option string) : count_line :=
  {| cl_count_pass_id := cl_count_pass_id l;
     cl_product_id := cl_product_id l;
     cl_sku := cl_sku l;
     cl_barcode := cl_barcode l;
     cl_package_id := cl_package_id l;
     cl_counted_qty := cl_counted_qty l + qty;
     cl_unit := cl_unit l;
     cl_captured_at := now;
     cl_captured_by_user_id := user_id;
     cl_confidence := cl_confidence l;
     cl_notes := if Py.otruthy notes then notes else cl_notes l |}.

(** The fields of the request after the defaults and [strip]. *)
Definition request_barcode (payload : add_line_payload) : string :=
  Py.get_stripped (al_barcode payload) "".
Definition request_qty (payload : add_line_payload) : Z :=
  default 1 (al_counted_qty payload).
Definition request_notes (payload : add_line_payload) : option string :=
  Py.or_none (Py.get_stripped (al_notes payload) "").

(** The creation branch: the line built from the product and the request. *)
Definition created_line (pass_id : string) (product : product)
    (payload : add_line_payload) (now : datetime) (user_id : Z) : count_line :=
  {| cl_count_pass_id := pass_id;
     cl_product_id := p_id product;
     cl_sku := p_sku product;
     cl_barcode := Some (request_barcode payload);
     cl_package_id := Py.or_none (Py.get_stripped (al_package_id payload) "");
     cl_counted_qty := request_qty payload;
     cl_unit := "each";
     cl_captured_at := now;
     cl_captured_by_user_id := user_id;
     cl_confidence := Py.get_stripped (al_confidence payload) "scanned";
     cl_notes := request_notes payload |}.

Definition add_line (d : db) (user_id : Z) (now : datetime) (new_id : string)
    (pass_id : string) (payload : add_line_payload)
  : result (db * add_line_response) :=
  match passes d !! pass_id with
  | None => Err (NotFound "Pass not found")
  | Some count_pass =>
    if decide (cp_status count_pass ≠ PInProgress)
    then Err (InvalidState ("Cannot add lines to '" +:+
                            pass_status_name (cp_status count_pass) +:+ "' pass"))
    else
      let barcode := request_barcode payload in
      if negb (Py.truthy barcode) then Err (ValidationError "barcode required")
      else
        match find_product d barcode with
        | None => Err (NotFound "Product not found")
        | Some product =>
          match scope_conflict (cp_category count_pass) (p_category product) with
          | Some (expected, got) =>
            Err (ScopeMismatch "category" expected got (p_name product))
          | None =>
            match scope_conflict (cp_subcategory count_pass) (p_subcategory product) with
            | Some (expected, got) =>
              Err (ScopeMismatch "subcategory" expected got (p_name product))
            | None =>
              let counted_qty := request_qty payload in
              let notes := request_notes payload in
              (* Check for existing line with same SKU in this pass *)
              match find_line d pass_id (p_sku product) with
              | Some (line_id, existing_line) =>
                (* Increment existing quantity *)
                let line := increment_line existing_line counted_qty now user_id notes in
                Ok (set_lines d (<[line_id := line]> (lines d)),
                    {| alr_line_id := line_id; alr_line := line;
                       alr_incremented := true;
                       alr_previous_qty := Some (cl_counted_qty line - counted_qty);
                       alr_product := None |})
              | None =>
                (* Create new line *)
                let line := created_line pass_id product payload now user_id in
                match lines d !! new_id with
                | Some _ => Err (ServerError "IntegrityError")
                | None =>
                  Ok (set_lines d (<[new_id := line]> (lines d)),
                      {| alr_line_id := new_id; alr_line := line;
                         alr_incremented := false;
                         alr_previous_qty := None;
                         alr_product := Some product |})
                end
              end
            end
          end
        end
  end.

(** The JSON body of [PUT /lines/<id>]: a key that is absent is [None]. *)
Record update_line_payload := {
  ul_counted_qty : option Z;
  ul_notes : option string
}.

Definition correct_line (l : count_line) (payload : update_line_payload)
    (now : datetime) (user_id : Z) : count_line :=
  {| cl_count_pass_id := cl_count_pass_id l;
     cl_product_id := cl_product_id l;
     cl_sku := cl_sku l;
     cl_barcode := cl_barcode l;
     cl_package_id := cl_package_id l;
     cl_counted_qty := default (cl_counted_qty l) (ul_counted_qty payload);
     cl_unit := cl_unit l;
     cl_captured_at := now;
     cl_captured_by_user_id := user_id;
     cl_confidence := "corrected";
     cl_notes := match ul_notes payload with
                 | Some n => Py.or_none (Py.strip n)
                 | None => cl_notes l
                 end |}.

(** [line.count_pass.status]: the relationship is [None] when the parent
    row is missing, and reading [.status] of it raises. *)
Definition owning_pass_status (d : db) (l : count_line) : result pass_status :=
  match passes d !! cl_count_pass_id l with
  | Some p => Ok (cp_status p)
  | None => Err (ServerError "AttributeError")
  end.

Definition update_line (d : db) (user_id : Z) (now : datetime) (line_id : string)
    (payload : update_line_payload) : result (db * count_line) :=
  match lines d !! line_id with
  | None => Err (NotFound "Line not found")
  | Some line =>
    match owning_pass_status d line with
    | Err e => Err e
    | Ok st =>
      if decide (st ≠ PInProgress)
      then Err (InvalidState "Cannot edit lines on submitted pass")
      else
        let line' := correct_line line payload now user_id in
        Ok (set_lines d (<[line_id := line']> (lines d)), line')
    end
  end.

Definition delete_line (d : db) (line_id : string) : result (db * bool) :=
  match lines d !! line_id with
  | None => Err (NotFound "Line not found")
  | Some line =>
    match owning_pass_status d line with
    | Err e => Err e
    | Ok st =>
      if decide (st ≠ PInProgress)
      then Err (InvalidState "Cannot delete lines from submitted pass")
      else Ok (set_lines d (delete line_id (lines d)), true)
    end
  end.

(** ** Variance ([count.py], VARIANCE / RECONCILIATION) *)

Record variance_item := {
  vi_sku : string;
  vi_product_name : option string;
  vi_brand : option string;
  vi_category : option string;
  vi_subcategory : option string;
  vi_counted_qty : Z;
  vi_baseline_qty : Z;
  vi_movement_delta : Z;
  vi_expected_qty : Z;
  vi_variance : Z
}.

Record variance_report := {
  vr_session_id : string;
  vr_store_id : Z;
  vr_status : session_status;
  vr_total_skus : nat;
  vr_total_variance : Z;
  vr_items : list variance_item
}.

(** [SELECT key, SUM(val) ... GROUP BY key]: one row per distinct key. *)
Definition group_sum (rows : list (string * Z)) : list (string * Z) :=
  (λ k, (k, Py.sum (snd <$> filter (λ r, r.1 = k) rows)))
    <$> remove_dups (fst <$> rows).

(** The rows [(sku, counted_qty)] of the lines joined with their pass,
    kept when the pass belongs to the session and is submitted. *)
Definition counted_row (d : db) (session_id : string) (r : string * count_line)
  : option (string * Z) :=
  match passes d !! cl_count_pass_id r.2 with
  | Some p =>
    if bool_decide (cp_session_id p = session_id ∧ cp_status p = PSubmitted)
    then Some (cl_sku r.2, cl_counted_qty r.2) else None
  | None => None
  end.

Definition counted_rows (d : db) (session_id : string) : list (string * Z) :=
  omap (counted_row d session_id) (map_to_list (lines d)).

(** The rows [(Product.sku, InventoryItem.current_quantity)] of products
    joined with the inventory items of the store. *)
Definition baseline_rows (d : db) (store_id : Z) : list (string * option Z) :=
  p ← products d;
  i ← filter (λ i, ii_product_id i = p_id p ∧ ii_store_id i = store_id)
             (inventory_items d);
  [(p_sku p, ii_current_quantity i)].

(** The movements of the store inside the inclusive window. *)
Definition movements_in_window (d : db) (store_id : Z) (earliest latest : datetime)
  : list movement :=
  filter (λ m, mv_store_id m = store_id
               ∧ DT.leb earliest (mv_occurred_at m) = true
               ∧ DT.leb (mv_occurred_at m) latest = true)
         (movements d).

(** [movement_deltas]: empty without submitted passes; [max] of an empty
    generator raises [ValueError]. *)
Definition movement_deltas (d : db) (session_id : string) (store_id : Z)
  : result (gmap string Z) :=
  let passes := (passes_by d session_id PSubmitted).*2 in
  match passes with
  | [] => Ok ∅
  | _ :: _ =>
    match DT.min (cp_started_at <$> passes) with
    | None => Err (ServerError "ValueError")
    | Some earliest =>
      match DT.max (omap cp_submitted_at passes) with
      | None => Err (ServerError "ValueError")
      | Some latest =>
        Ok (Py.dict_of
              (group_sum ((λ m, (mv_sku m, mv_qty_delta m))
                            <$> movements_in_window d store_id earliest latest)))
      end
    end
  end.

Definition abs_variance_geb (a b : variance_item) : bool :=
  Z.abs (vi_variance b) <=? Z.abs (vi_variance a).

Definition variance_row (counted_by_sku baseline_by_sku deltas : gmap string Z)
    (product_info : gmap string product) (sku : string) : variance_item :=
  let counted := default 0 (counted_by_sku !! sku) in
  let baseline := default 0 (baseline_by_sku !! sku) in
  let movement := default 0 (deltas !! sku) in
  let expected := baseline + movement in
  let variance := counted - expected in
  let product := product_info !! sku in
  {| vi_sku := sku;
     vi_product_name := p_name <$> product;
     vi_brand := product ≫= p_brand;
     vi_category := product ≫= p_category;
     vi_subcategory := product ≫= p_subcategory;
     vi_counted_qty := counted;
     vi_baseline_qty := baseline;
     vi_movement_delta := movement;
     vi_expected_qty := expected;
     vi_variance := variance |}.

(** [counted_by_sku] and [baseline_by_sku] of [get_variance]. *)
Definition counted_by_sku (d : db) (session_id : string) : gmap string Z :=
  Py.dict_of (group_sum (counted_rows d session_id)).

Definition baseline_by_sku (d : db) (store_id : Z) : gmap string Z :=
  Py.dict_of ((λ r, (r.1, default 0 r.2)) <$> baseline_rows d store_id).

(** [product_info]: the catalog entries of the SKUs of the report. *)
Definition product_info_of (d : db) (all_skus : gset string) : gmap string product :=
  Py.dict_of ((λ p, (p_sku p, p)) <$> filter (λ p, p_sku p ∈ all_skus) (products d)).

(** The loop over [sorted(all_skus)] and the final [results.sort]. *)
Definition variance_results (d : db) (counted baseline deltas : gmap string Z)
    (non_zero_only : bool) : list variance_item :=
  let all_skus : gset string := dom counted ∪ dom baseline in
  let product_info := product_info_of d all_skus in
  let results :=
    filter (λ r, ¬ (non_zero_only = true ∧ vi_variance r = 0))
           (variance_row counted baseline deltas product_info
              <$> Py.stable_sort String.leb (elements all_skus)) in
  Py.stable_sort abs_variance_geb results.

Definition get_variance (d : db) (session_id : string) (non_zero_only : bool)
  : result variance_report :=
  match sessions d !! session_id with
  | None => Err (NotFound "Session not found")
  | Some session =>
    let counted := counted_by_sku d session_id in
    let baseline := baseline_by_sku d (cs_store_id session) in
    match movement_deltas d session_id (cs_store_id session) with
    | Err e => Err e
    | Ok deltas =>
      let results := variance_results d counted baseline deltas non_zero_only in
      Ok {| vr_session_id := session_id;
            vr_store_id := cs_store_id session;
            vr_status := cs_status session;
            vr_total_skus := length results;
            vr_total_variance := Py.sum ((λ r, Z.abs (vi_variance r)) <$> results);
            vr_items := results |}
    end
  end.

(** ** Sales sync ([services/sales_sync.py]) *)

Record sync_stats := {
  st_sales_found : nat;
  st_movements_created : nat;
  st_movements_skipped : nat;
  st_products_not_found : list string;
  st_errors : list string;
  st_movements_deleted : option nat
}.

(** Map Cova store IDs to IKE store IDs, in the order the dict lists them. *)
Definition STORE_ID_MAP : list (string * Z) :=
  [("kingsway", 1); ("Kingsway", 1); ("1", 1);
   ("fraser", 2); ("Fraser", 2); ("2", 2)].

Definition get_cova_store_ids (ike_store_id : Z) : list string :=
  let cova_ids := (filter (λ r, r.2 = ike_store_id) STORE_ID_MAP).*1 in
  match cova_ids with
  | [] => [pretty ike_store_id]
  | _ :: _ => cova_ids
  end.

(** [ORDER BY transaction_date, transaction_time], NULL times first. *)
Definition sale_order_leb (a b : cova_sale) : bool :=
  (sale_transaction_date a <? sale_transaction_date b)
  || ((sale_transaction_date a =? sale_transaction_date b)
      && match sale_transaction_time a, sale_transaction_time b with
         | None, _ => true
         | Some _, None => false
         | Some x, Some y => x <=? y
         end).

(** The [cova_sales] query of the sync. *)
Definition sales_query (d : db) (from_date to_date : Z) (cova_store_ids : list string)
  : list cova_sale :=
  Py.stable_sort sale_order_leb
    (filter (λ s, from_date ≤ sale_transaction_date s ≤ to_date
                  ∧ sale_cova_store_id s ∈ cova_store_ids)
            (cova_sales d)).

Definition source_ref_of (sale : cova_sale) : string :=
  sale_transaction_id sale +:+ ":" +:+ pretty (sale_line_number sale).

(** [_sale_to_movement]: [Ok None] when the sale has no SKU or the SKU
    has no product; [abs(None)] raises [TypeError]. *)
Definition sale_to_movement (d : db) (sale : cova_sale) (store_id : Z)
  : result (option movement) :=
  match sale_product_sku sale with
  | None => Ok None
  | Some sku =>
    if negb (Py.truthy sku) then Ok None
    else
      match find_product d sku with
      | None => Ok None
      | Some product =>
        let occurred_at :=
          DT.combine (sale_transaction_date sale) (sale_transaction_time sale) in
        match sale_quantity sale with
        | None => Err (ServerError "TypeError")
        | Some quantity =>
          Ok (Some {| mv_store_id := store_id;
                      mv_product_id := p_id product;
                      mv_sku := sku;
                      mv_movement_type := "sale";
                      mv_qty_delta := - Z.abs quantity;
                      mv_occurred_at := occurred_at;
                      mv_source := "cova_sync";
                      mv_source_ref := Some (source_ref_of sale) |})
        end
      end
  end.

(** [InventoryMovement.query.filter_by(store_id=, sku=, source_ref=).first()].
    The session autoflushes, so the query sees the movements added
    earlier in the same run. *)
Definition find_movement (ms : list movement) (store_id : Z) (sku : string)
    (source_ref : option string) : option movement :=
  head (filter (λ m, mv_store_id m = store_id ∧ mv_sku m = sku
                     ∧ mv_source_ref m = source_ref) ms).

(** The rows the forced re-sync deletes. *)
Definition resync_deletes (store_id from_date to_date : Z) (m : movement) : Prop :=
  mv_store_id m = store_id
  ∧ from_date ≤ dt_date (mv_occurred_at m) ≤ to_date
  ∧ mv_source m = "cova_sync".

Global Instance resync_deletes_dec s f t m : Decision (resync_deletes s f t m).
Proof. unfold resync_deletes. apply _. Defined.

Definition error_text (e : error) : string :=
  match e with
  | NotFound s | InvalidState s | ValidationError s | Conflict s | ServerError s => s
  | ScopeMismatch f _ _ _ => f
  end.

(** The updates of [stats] inside the loop. *)
Definition stats_error (stats : sync_stats) (e : error) : sync_stats :=
  {| st_sales_found := st_sales_found stats;
     st_movements_created := st_movements_created stats;
     st_movements_skipped := st_movements_skipped stats;
     st_products_not_found := st_products_not_found stats;
     st_errors := st_errors stats ++ [error_text e];
     st_movements_deleted := st_movements_deleted stats |}.

Definition stats_skipped (stats : sync_stats) (not_found : list string) : sync_stats :=
  {| st_sales_found := st_sales_found stats;
     st_movements_created := st_movements_created stats;
     st_movements_skipped := S (st_movements_skipped stats);
     st_products_not_found := not_found;
     st_errors := st_errors stats;
     st_movements_deleted := st_movements_deleted stats |}.

Definition stats_created (stats : sync_stats) : sync_stats :=
  {| st_sales_found := st_sales_found stats;
     st_movements_created := S (st_movements_created stats);
     st_movements_skipped := st_movements_skipped stats;
     st_products_not_found := st_products_not_found stats;
     st_errors := st_errors stats;
     st_movements_deleted := st_movements_deleted stats |}.

(** One iteration of [for sale in sales]. *)
Definition sync_step (d : db) (store_id : Z) (force_resync : bool)
    (acc : list movement * sync_stats) (sale : cova_sale)
  : list movement * sync_stats :=
  let ms := acc.1 in
  let stats := acc.2 in
  match sale_to_movement d sale store_id with
  | Err e => (ms, stats_error stats e)
  | Ok (Some movement) =>
    (* Check if already exists *)
    let existing :=
      find_movement ms store_id (mv_sku movement) (mv_source_ref movement) in
    if bool_decide (is_Some existing) && negb force_resync
    then (ms, stats_skipped stats (st_products_not_found stats))
    else (ms ++ [movement], stats_created stats)
  | Ok None =>
    (* Product not found in catalog *)
    let not_found :=
      match sale_product_sku sale with
      | Some sku =>
        if Py.truthy sku && bool_decide (sku ∉ st_products_not_found stats)
        then st_products_not_found stats ++ [sku]
        else st_products_not_found stats
      | None => st_products_not_found stats
      end in
    (ms, stats_skipped stats not_found)
  end.

(** [sync_sales_to_movements]; [today] is [date.today()]. *)
Definition sync_sales_to_movements (d : db) (today : Z) (store_id : Z)
    (from_date to_date : option Z) (force_resync : bool) : db * sync_stats :=
  let from_date := default (today - 1) from_date in
  let to_date := default today to_date in
  let cova_store_ids := get_cova_store_ids store_id in
  let sales := sales_query d from_date to_date cova_store_ids in
  let kept :=
    if force_resync
    then filter (λ m, ¬ resync_deletes store_id from_date to_date m) (movements d)
    else movements d in
  let stats :=
    {| st_sales_found := length sales;
       st_movements_created := 0;
       st_movements_skipped := 0;
       st_products_not_found := [];
       st_errors := [];
       st_movements_deleted :=
         if force_resync
         then Some (length (filter (resync_deletes store_id from_date to_date)
                                   (movements d)))
         else None |} in
  let out := foldl (sync_step d store_id force_resync) (kept, stats) sales in
  (set_movements d out.1, out.2).

(** ** The API as a transition system *)

Inductive request :=
  | CreateLocation (payload : create_location_payload)
  | CreateSession (user_id : Z) (now : datetime) (new_id : string)
                  (payload : create_session_payload)
  | StartSession (session_id : string)
  | SubmitSession (session_id : string)
  | CreatePass (user_id : Z) (now : datetime) (new_id : string)
               (session_id : string) (payload : create_pass_payload)
  | SubmitPass (user_id : Z) (now : datetime) (pass_id : string)
  | VoidPass (pass_id : string)
  | AddLine (user_id : Z) (now : datetime) (new_id : string)
            (pass_id : string) (payload : add_line_payload)
  | UpdateLine (user_id : Z) (now : datetime) (line_id : string)
               (payload : update_line_payload)
  | DeleteLine (line_id : string)
  | SyncSales (today store_id : Z) (from_date to_date : option Z) (force : bool).

Definition committed {A} (d : db) (r : result (db * A)) : db :=
  match r with Ok (d', _) => d' | Err _ => d end.

(** The database after a request: a failed request commits nothing. *)
Definition handle (d : db) (r : request) : db :=
  match r with
  | CreateLocation p => committed d (create_location d p)
  | CreateSession u n i p => committed d (create_session d u n i p)
  | StartSession s => committed d (start_session d s)
  | SubmitSession s => committed d (submit_session d s)
  | CreatePass u n i s p => committed d (create_pass d u n i s p)
  | SubmitPass u n p => committed d (submit_pass d u n p)
  | VoidPass p => committed d (void_pass d p)
  | AddLine u n i p pl => committed d (add_line d u n i p pl)
  | UpdateLine u n l pl => committed d (update_line d u n l pl)
  | DeleteLine l => committed d (delete_line d l)
  | SyncSales t s f e force => (sync_sales_to_movements d t s f e force).1
  end.

Definition empty_db : db :=
  {| stores := ∅; locations := ∅; sessions := ∅; passes := ∅; lines := ∅;
     movements := []; products := []; inventory_items := []; cova_sales := [] |}.

(** ** Read views and serializers ([count.py], [sales_sync.py]) *)

(** The relationships [session.passes] and [count_pass.lines]. *)
Definition session_passes (d : db) (session_id : string)
  : list (string * count_pass) :=
  filter (λ r, cp_session_id r.2 = session_id) (map_to_list (passes d)).

Definition pass_lines (d : db) (pass_id : string) : list (string * count_line) :=
  filter (λ r, cl_count_pass_id r.2 = pass_id) (map_to_list (lines d)).

(** The computed fields of [_serialize_pass] and [_serialize_session]. *)
Record pass_summary := {
  ps_id : string;
  ps_pass : count_pass;
  ps_line_count : nat;
  ps_total_counted : Z
}.

Record session_summary := {
  ss_id : string;
  ss_session : count_session;
  ss_pass_count : nat;
  ss_submitted_pass_count : nat
}.

Definition serialize_pass (d : db) (pass_id : string) (p : count_pass) : pass_summary :=
  {| ps_id := pass_id;
     ps_pass := p;
     ps_line_count := length (pass_lines d pass_id);
     ps_total_counted := Py.sum ((λ r, cl_counted_qty r.2) <$> pass_lines d pass_id) |}.

Definition serialize_session (d : db) (session_id : string) (s : count_session)
  : session_summary :=
  {| ss_id := session_id;
     ss_session := s;
     ss_pass_count := length (session_passes d session_id);
     ss_submitted_pass_count :=
       length (filter (λ r, cp_status r.2 = PSubmitted) (session_passes d session_id)) |}.

Definition get_session (d : db) (session_id : string) : result session_summary :=
  match sessions d !! session_id with
  | None => Err (NotFound "Session not found")
  | Some session => Ok (serialize_session d session_id session)
  end.

Definition get_pass (d : db) (pass_id : string) : result pass_summary :=
  match passes d !! pass_id with
  | None => Err (NotFound "Pass not found")
  | Some count_pass => Ok (serialize_pass d pass_id count_pass)
  end.


(** [GET /sessions/<id>/passes]: [ORDER BY started_at DESC]. *)
Definition list_passes (d : db) (session_id : string) : list (string * count_pass) :=
  Py.stable_sort (λ a b, DT.leb (cp_started_at b.2) (cp_started_at a.2))
    (session_passes d session_id).

(** [GET /passes/<id>/lines]: [ORDER BY captured_at DESC]. *)
Definition list_lines (d : db) (pass_id : string) : list (string * count_line) :=
  Py.stable_sort (λ a b, DT.leb (cl_captured_at b.2) (cl_captured_at a.2))
    (pass_lines d pass_id).

(** [SalesSyncService.get_sync_status]; [today] is [date.today()]. *)
Record sync_status := {
  sst_store_id : Z;
  sst_latest_movement_at : option datetime;
  sst_today_movement_count : nat;
  sst_synced : bool
}.

Definition get_sync_status (d : db) (today : Z) (store_id : Z) : sync_status :=
  let latest :=
    head (Py.stable_sort (λ a b, DT.leb (mv_occurred_at b) (mv_occurred_at a))
            (filter (λ m, mv_store_id m = store_id ∧ mv_source m = "cova_sync")
                    (movements d))) in
  let today_count :=
    length (filter (λ m, mv_store_id m = store_id ∧ mv_source m = "cova_sync"
                         ∧ dt_date (mv_occurred_at m) = today)
                   (movements d)) in
  {| sst_store_id := store_id;
     sst_latest_movement_at := mv_occurred_at <$> latest;
     sst_today_movement_count := today_count;
     sst_synced := bool_decide (is_Some latest) |}.

(** ** Vocabulary of the specification *)

(** At most one line per (pass, SKU). *)
Definition line_unique (d : db) : Prop :=
  ∀ id1 id2 l1 l2,
    lines d !! id1 = Some l1 → lines d !! id2 = Some l2 →
    cl_count_pass_id l1 = cl_count_pass_id l2 → cl_sku l1 = cl_sku l2 →
    id1 = id2.

(** The states the API can reach from [d0]. *)
Inductive reachable (d0 : db) : db → Prop :=
  | reachable_start : reachable d0 d0
  | reachable_step d r : reachable d0 d → reachable d0 (handle d r).

(** The line belongs to a submitted pass of the session. *)
Definition in_submitted_pass (d : db) (session_id : string) (l : count_line) : Prop :=
  ∃ p, passes d !! cl_count_pass_id l = Some p
       ∧ cp_session_id p = session_id ∧ cp_status p = PSubmitted.

Global Instance in_submitted_pass_dec d sid l : Decision (in_submitted_pass d sid l).
Proof.
  unfold in_submitted_pass.
  destruct (passes d !! cl_count_pass_id l) as [p|] eqn:Hp.
  - destruct (decide (cp_session_id p = sid ∧ cp_status p = PSubmitted)) as [H|H].
    + left. by exists p.
    + right. intros (p' & Hp' & H'). by simplify_eq.
  - right. intros (p' & Hp' & _). discriminate.
Defined.

(** The lines counted for a SKU: those of the session's submitted passes. *)
Definition submitted_lines (d : db) (session_id sku : string) : list count_line :=
  filter (λ l, cl_sku l = sku ∧ in_submitted_pass d session_id l)
         (map_to_list (lines d)).*2.

(** The snapshot quantity of a SKU at a store: that of the last joined
    inventory row carrying the SKU, 0 for a NULL quantity or no row. *)
Definition snapshot_quantity (d : db) (store_id : Z) (sku : string) : Z :=
  default 0 (last (filter (λ r, r.1 = sku) (baseline_rows d store_id)) ≫= snd).

(** The submitted passes of a session. *)
Definition submitted_pass (d : db) (session_id : string) (p : count_pass) : Prop :=
  ∃ pass_id, passes d !! pass_id = Some p
             ∧ cp_session_id p = session_id ∧ cp_status p = PSubmitted.

Definition dt_le (a b : datetime) : Prop := DT.leb a b = true.

Global Instance dt_le_dec a b : Decision (dt_le a b).
Proof. unfold dt_le. apply _. Defined.

(** [earliest] is the least [started_at] and [latest] the greatest
    non-null [submitted_at] over the submitted passes of the session. *)
Definition session_window (d : db) (session_id : string)
    (earliest latest : datetime) : Prop :=
  (∃ p, submitted_pass d session_id p ∧ cp_started_at p = earliest)
  ∧ (∀ p, submitted_pass d session_id p → dt_le earliest (cp_started_at p))
  ∧ (∃ p, submitted_pass d session_id p ∧ cp_submitted_at p = Some latest)
  ∧ (∀ p t, submitted_pass d session_id p → cp_submitted_at p = Some t → dt_le t latest).

(** The net movement of a SKU at a store inside an inclusive window. *)
Definition window_movements (d : db) (store_id : Z) (sku : string)
    (earliest latest : datetime) : list movement :=
  filter (λ m, mv_sku m = sku ∧ mv_store_id m = store_id
               ∧ dt_le earliest (mv_occurred_at m)
               ∧ dt_le (mv_occurred_at m) latest)
         (movements d).

Definition window_delta (d : db) (store_id : Z) (sku : string)
    (earliest latest : datetime) : Z :=
  Py.sum (mv_qty_delta <$> window_movements d store_id sku earliest latest).

(** Strict code-point order on SKUs. *)
Definition sku_lt (a b : string) : Prop := String.leb a b = true ∧ a ≠ b.

Global Instance sku_lt_dec a b : Decision (sku_lt a b).
Proof. unfold sku_lt. apply _. Defined.

(** The order of a report: larger absolute variance first, equal absolute
    variances by ascending SKU. *)
Definition report_order (a b : variance_item) : Prop :=
  Z.abs (vi_variance b) < Z.abs (vi_variance a)
  ∨ (Z.abs (vi_variance a) = Z.abs (vi_variance b) ∧ sku_lt (vi_sku a) (vi_sku b)).

(** The dedup key of a movement and the candidates of a batch of sales. *)
Definition movement_key (m : movement) : Z * string * option string :=
  (mv_store_id m, mv_sku m, mv_source_ref m).

Definition candidates (d : db) (store_id : Z) (sales : list cova_sale) : list movement :=
  omap (λ s, match sale_to_movement d s store_id with
             | Ok (Some m) => Some m
             | _ => None
             end) sales.

(** The store has an inventory row for a product carrying the SKU. *)
Definition has_inventory_row (d : db) (store_id : Z) (sku : string) : Prop :=
  ∃ p i, p ∈ products d ∧ i ∈ inventory_items d
         ∧ ii_product_id i = p_id p ∧ ii_store_id i = store_id ∧ p_sku p = sku.

(** The session has a counted line for the SKU in a submitted pass. *)
Definition has_submitted_line (d : db) (session_id sku : string) : Prop :=
  ∃ l, l ∈ submitted_lines d session_id sku.

(** Two texts are equal when case is ignored: they have the same length
    and at each place the same character, or a capital letter (A to Z,
    U+00C0 to U+00DE without the sign U+00D7) in one and its small
    letter, 32 places further on, in the other. *)
Definition capital_letter (c : ascii) : Prop :=
  let n := Ascii.N_of_ascii c in
  (65 ≤ n ≤ 90)%N ∨ ((192 ≤ n ≤ 222)%N ∧ n ≠ 215%N).

Definition same_letter (a b : ascii) : Prop :=
  a = b
  ∨ (capital_letter a ∧ Ascii.N_of_ascii b = (Ascii.N_of_ascii a + 32)%N)
  ∨ (capital_letter b ∧ Ascii.N_of_ascii a = (Ascii.N_of_ascii b + 32)%N).

Fixpoint equal_ignoring_case (s t : string) : Prop :=
  match s, t with
  | EmptyString, EmptyString => True
  | String a s', String b t' => same_letter a b ∧ equal_ignoring_case s' t'
  | _, _ => False
  end.

(** The scope of a pass and the attribute of a product are both present
    (not NULL, not empty) and differ when case is ignored. *)
Definition scope_differs (scope actual : option string) (s a : string) : Prop :=
  scope = Some s ∧ actual = Some a ∧ s ≠ "" ∧ a ≠ ""
  ∧ ¬ equal_ignoring_case a s.

(** The scope admits the attribute: one of the two is absent (NULL or
    empty), or they are equal when case is ignored. *)
Definition scope_admits (scope actual : option string) : Prop :=
  match scope, actual with
  | Some s, Some a => s = "" ∨ a = "" ∨ equal_ignoring_case a s
  | _, _ => True
  end.

(** *** Invariants of the stored data *)

(** A submitted pass carries its [submitted_at]. *)
Definition passes_stamped (d : db) : Prop :=
  ∀ id p, passes d !! id = Some p → cp_status p = PSubmitted →
          is_Some (cp_submitted_at p).

(** A pass that is still open belongs to a session that is in progress. *)
Definition open_passes_in_open_sessions (d : db) : Prop :=
  ∀ id p, passes d !! id = Some p → cp_status p = PInProgress →
          ∃ s, sessions d !! cp_session_id p = Some s ∧ cs_status s = SInProgress.

(** Every line has its pass, and every pass its session. *)
Definition lines_have_pass (d : db) : Prop :=
  ∀ id l, lines d !! id = Some l → is_Some (passes d !! cl_count_pass_id l).

Definition passes_have_session (d : db) : Prop :=
  ∀ id p, passes d !! id = Some p → is_Some (sessions d !! cp_session_id p).

(** At most one location per (store, code). *)
Definition location_code_unique (d : db) : Prop :=
  ∀ id1 id2 l1 l2,
    locations d !! id1 = Some l1 → locations d !! id2 = Some l2 →
    loc_store_id l1 = loc_store_id l2 → loc_code l1 = loc_code l2 →
    id1 = id2.

(** The place of a status in draft, in_progress, submitted, reconciled,
    closed. *)
Definition session_rank (s : session_status) : nat :=
  match s with
  | SDraft => 0 | SInProgress => 1 | SSubmitted => 2
  | SReconciled => 3 | SClosed => 4
  end.

(** The transitions of a pass that the views perform. *)
Definition pass_step (a b : pass_status) : Prop :=
  a = b
  ∨ (a = PInProgress ∧ b = PSubmitted)
  ∨ (a = PInProgress ∧ b = PVoided)
  ∨ (a = PSubmitted ∧ b = PVoided).

(** The three requests that write lines. *)
Definition line_request (r : request) : Prop :=
  match r with
  | AddLine _ _ _ _ _ | UpdateLine _ _ _ _ | DeleteLine _ => True
  | _ => False
  end.

(** ** Sample data

    One store with three catalog entries, a session with two submitted
    passes whose windows do not touch, an open pass and a voided pass,
    and a ledger with one sale between the two submitted windows. *)

Module Sample.
Definition flower : product :=
  {| p_id := 1; p_sku := "A"; p_cova_sku := Some "CA"; p_name := "Alpha";
     p_brand := Some "Acme"; p_category := Some "Flower";
     p_subcategory := Some "Dried Flower" |}.
Definition edible : product :=
  {| p_id := 2; p_sku := "B"; p_cova_sku := None; p_name := "Beta";
     p_brand := None; p_category := Some "Edibles"; p_subcategory := None |}.
Definition gummy : product :=
  {| p_id := 3; p_sku := "G"; p_cova_sku := None; p_name := "Gamma";
     p_brand := None; p_category := None; p_subcategory := Some "Gummies" |}.

Definition kush : product :=
  {| p_id := 4; p_sku := "K"; p_cova_sku := None; p_name := "Kappa";
     p_brand := None; p_category := Some "FLOWER";
     p_subcategory := Some "dried flower" |}.

Definition session : count_session :=
  {| cs_store_id := 1; cs_created_by_user_id := 7; cs_status := SInProgress;
     cs_expected_snapshot_at := Some (DateTime 99 0); cs_notes := None |}.

Definition mk_pass (started : datetime) (submitted : option datetime)
    (st : pass_status) : count_pass :=
  {| cp_session_id := "s1"; cp_location_id := 1;
     cp_category := Some "Flower"; cp_subcategory := Some "Dried Flower";
     cp_started_at := started; cp_submitted_at := submitted;
     cp_started_by_user_id := 7; cp_submitted_by_user_id := None;
     cp_status := st; cp_device_id := None; cp_scan_mode := "scanner" |}.

Definition mk_line (pass_id : string) (qty : Z) : count_line :=
  {| cl_count_pass_id := pass_id; cl_product_id := 1; cl_sku := "A";
     cl_barcode := Some "A"; cl_package_id := None; cl_counted_qty := qty;
     cl_unit := "each"; cl_captured_at := DateTime 100 10;
     cl_captured_by_user_id := 7; cl_confidence := "scanned";
     cl_notes := None |}.

Definition mk_movement (store_id qty : Z) (at_ : datetime) : movement :=
  {| mv_store_id := store_id; mv_product_id := 1; mv_sku := "A";
     mv_movement_type := "sale"; mv_qty_delta := qty; mv_occurred_at := at_;
     mv_source := "manual"; mv_source_ref := None |}.

Definition mk_sale (txn : string) (line : Z) (sku : string) (qty : Z) : cova_sale :=
  {| sale_transaction_id := txn; sale_line_number := line;
     sale_cova_store_id := "kingsway"; sale_transaction_date := 100;
     sale_transaction_time := Some 30; sale_product_sku := Some sku;
     sale_quantity := Some qty |}.

Definition data : db :=
  {| stores := {[ 1 ]};
     locations := ∅;
     sessions := {[ "s1" := session ]};
     passes := list_to_map
       [("p1", mk_pass (DateTime 100 0) (Some (DateTime 100 50)) PSubmitted);
        ("p2", mk_pass (DateTime 100 200) (Some (DateTime 100 300)) PSubmitted);
        ("p3", mk_pass (DateTime 100 400) None PInProgress);
        ("p4", mk_pass (DateTime 100 500) None PVoided)];
     lines := list_to_map
       [("l1", mk_line "p1" 5); ("l2", mk_line "p2" 3);
        ("l3", mk_line "p3" 100); ("l4", mk_line "p4" 1000)];
     movements :=
       [mk_movement 1 (-3) (DateTime 100 120);
        mk_movement 1 (-7) (DateTime 99 0);
        mk_movement 2 (-9) (DateTime 100 120)];
     products := [flower; edible; gummy; kush];
     inventory_items :=
       [{| ii_store_id := 1; ii_product_id := 1; ii_current_quantity := Some 10 |};
        {| ii_store_id := 1; ii_product_id := 2; ii_current_quantity := Some 0 |}];
     cova_sales := [mk_sale "T1" 1 "A" 2; mk_sale "T1" 2 "CA" 1] |}.

Definition now : datetime := DateTime 100 450.

Definition scan (barcode : string) (qty : option Z) (notes : option string)
  : add_line_payload :=
  {| al_barcode := Some barcode; al_counted_qty := qty;
     al_package_id := Some "LOT-9"; al_confidence := Some "typed";
     al_notes := notes |}.

(** The same store before any line was recorded. *)
Definition unscanned : db := set_lines data ∅.

(** The same store when the sales feed lists one sale line twice. *)
Definition duplicated : db :=
  {| stores := stores data; locations := locations data;
     sessions := sessions data; passes := passes data; lines := lines data;
     movements := movements data; products := products data;
     inventory_items := inventory_items data;
     cova_sales := [mk_sale "T1" 1 "A" 2; mk_sale "T1" 1 "A" 2] |}.

(** The same store after the open pass was submitted and pass "p1"
    voided, and after the session was submitted as well. *)
Definition later : db :=
  handle (handle data (SubmitPass 8 now "p3")) (VoidPass "p1").

Definition closed : db := handle later (SubmitSession "s1").

(** The store before any count: catalog, inventory and ledger only. *)
Definition bare : db := set_lines (set_passes (set_sessions data ∅) ∅) ∅.

Definition shelf : create_location_payload :=
  {| clp_store_id := Some 1; clp_code := Some " shelf-a ";
     clp_name := Some "Shelf A"; clp_description := None |}.

(** A first count on it: a shelf, a session, a pass scoped to flower and
    one scan. *)
Definition opened : db :=
  handle
    (handle
       (handle
          (handle bare (CreateLocation shelf))
          (CreateSession 7 now "s9" {| csp_store_id := Some 1; csp_notes := None |}))
       (CreatePass 7 now "p9" "s9"
          {| cpp_location_id := Some 1; cpp_category := Some "flower";
             cpp_subcategory := None; cpp_device_id := None;
             cpp_scan_mode := None |}))
    (AddLine 7 now "n9" "p9" (scan "A" (Some 2) None)).

(** The same store when its only submitted pass has no [submitted_at]. *)
Definition unstamped : db :=
  set_passes data {[ "p1" := mk_pass (DateTime 100 0) None PSubmitted ]}.

Definition empty_report : variance_report :=
  {| vr_session_id := ""; vr_store_id := 0; vr_status := SDraft;
     vr_total_skus := 0; vr_total_variance := 0; vr_items := [] |}.

Definition report : variance_report :=
  Eval vm_compute in
    match get_variance data "s1" false with
    | Ok r => r
    | Err _ => empty_report
    end.

Definition item_A : variance_item :=
  {| vi_sku := "A"; vi_product_name := Some "Alpha"; vi_brand := Some "Acme";
     vi_category := Some "Flower"; vi_subcategory := Some "Dried Flower";
     vi_counted_qty := 8; vi_baseline_qty := 10; vi_movement_delta := -3;
     vi_expected_qty := 7; vi_variance := 1 |}.

Definition item_B : variance_item :=
  {| vi_sku := "B"; vi_product_name := Some "Beta"; vi_brand := None;
     vi_category := Some "Edibles"; vi_subcategory := None;
     vi_counted_qty := 0; vi_baseline_qty := 0; vi_movement_delta := 0;
     vi_expected_qty := 0; vi_variance := 0 |}.
End Sample.

(** Every session belongs to a store that exists, and every pass counts a
    location of the store of its session. *)
Definition sessions_have_store (d : db) : Prop :=
  ∀ id s, sessions d !! id = Some s → cs_store_id s ∈ stores d.

Definition passes_in_store (d : db) : Prop :=
  ∀ id p, passes d !! id = Some p →
    ∃ s location,
      sessions d !! cp_session_id p = Some s
      ∧ locations d !! cp_location_id p = Some location
      ∧ loc_store_id location = cs_store_id s.

(** Every line names a product of the catalog by id and SKU, and that
    product is inside the category and subcategory scope of the pass. *)
Definition lines_in_scope (d : db) : Prop :=
  ∀ id l p, lines d !! id = Some l → passes d !! cl_count_pass_id l = Some p →
    ∃ prod, prod ∈ products d
            ∧ p_id prod = cl_product_id l ∧ p_sku prod = cl_sku l
            ∧ scope_conflict (cp_category p) (p_category prod) = None
            ∧ scope_conflict (cp_subcategory p) (p_subcategory prod) = None.



(** The outcome of a stable sort: [a] precedes [b] in the output when
    the order puts [a] first and, where the order does not separate the
    two, [a] came first in the input ([before]). *)
Definition sorted_stably {A} (leb : A → A → bool) (before : relation A)
  : relation A :=
  λ a b, leb a b = true ∧ (leb b a = true → before a b).

(** ** Lemmas on the Python built-ins *)

Section dict_of.
Context {V : Type}.
Implicit Types (rows : list (string * V)) (k : string).

Lemma dict_of_snoc rows r :
  Py.dict_of (rows ++ [r]) = <[r.1 := r.2]> (Py.dict_of rows).
Proof. unfold Py.dict_of. by rewrite foldl_snoc. Qed.

Lemma dict_of_lookup rows k :
  Py.dict_of rows !! k = snd <$> last (filter (λ r, r.1 = k) rows).
Proof.
  induction rows as [|r rows IH] using rev_ind; [done|].
  rewrite dict_of_snoc, filter_app, lookup_insert.
  rewrite filter_cons, filter_nil.
  destruct (decide (r.1 = k)) as [Heq|Hne].
  - by rewrite last_snoc.
  - by rewrite app_nil_r.
Qed.

Lemma dict_of_dom rows k : k ∈ dom (Py.dict_of rows) ↔ k ∈ rows.*1.
Proof.
  rewrite elem_of_dom, dict_of_lookup, list_elem_of_fmap.
  split.
  - intros [v Hv]. apply fmap_Some in Hv as (r & Hr & _).
    apply last_Some_elem_of, list_elem_of_filter in Hr as [<- Hr]. eauto.
  - intros (r & -> & Hr).
    destruct (last (filter (λ r', r'.1 = r.1) rows)) as [r'|] eqn:Hl; [by eexists|].
    apply last_None in Hl.
    assert (r ∈ filter (λ r', r'.1 = r.1) rows) as Hin
      by (by apply list_elem_of_filter).
    rewrite Hl in Hin. by apply elem_of_nil in Hin.
Qed.
End dict_of.

Lemma sum_app l1 l2 : Py.sum (l1 ++ l2) = Py.sum l1 + Py.sum l2.
Proof. unfold Py.sum. induction l1 as [|x l1 IH]; simpl; lia. Qed.

Lemma filter_key_fmap_NoDup {V} (f : string → V) (keys : list string) k :
  NoDup keys →
  filter (λ r : string * V, r.1 = k) ((λ k', (k', f k')) <$> keys)
  = if decide (k ∈ keys) then [(k, f k)] else [].
Proof.
  induction 1 as [|k' keys Hnotin Hnd IH]; [done|].
  rewrite fmap_cons, filter_cons. simpl. rewrite IH.
  destruct (decide (k' = k)) as [->|Hne].
  - rewrite decide_False by done. rewrite decide_True by left. done.
  - destruct (decide (k ∈ keys)).
    + rewrite decide_True by (by right). done.
    + rewrite decide_False; [done|]. by intros [?|?]%elem_of_cons.
Qed.

(** Looking a key up in a grouped sum, with [.get(key, 0)]. *)
Lemma group_sum_get rows k :
  default 0 (Py.dict_of (group_sum rows) !! k)
  = Py.sum (snd <$> filter (λ r, r.1 = k) rows).
Proof.
  rewrite dict_of_lookup. unfold group_sum.
  rewrite (filter_key_fmap_NoDup
             (λ k', Py.sum (snd <$> filter (λ r, r.1 = k') rows)))
    by apply NoDup_remove_dups.
  destruct (decide (k ∈ remove_dups rows.*1)) as [Hin|Hnotin]; [done|].
  simpl. rewrite elem_of_remove_dups in Hnotin.
  destruct (filter (λ r, r.1 = k) rows) as [|r ?] eqn:Hf; [done|].
  exfalso. apply Hnotin.
  assert (r ∈ filter (λ r, r.1 = k) rows) as Hr by (rewrite Hf; left).
  apply list_elem_of_filter in Hr as [<- Hr]. by apply list_elem_of_fmap_2.
Qed.

Lemma group_sum_keys rows k : k ∈ (group_sum rows).*1 ↔ k ∈ rows.*1.
Proof.
  unfold group_sum. rewrite <- list_fmap_compose.
  rewrite (list_fmap_ext _ id (remove_dups rows.*1) ) by done.
  by rewrite list_fmap_id, elem_of_remove_dups.
Qed.

(** *** The stable sort *)

Section stable_sort_facts.
Context {A : Type} (leb : A → A → bool).

Lemma insert_sorted_perm x l : Py.insert_sorted leb x l ≡ₚ x :: l.
Proof.
  induction l as [|y l IH]; simpl; [done|].
  destruct (leb x y); [done|]. rewrite IH. apply Permutation_swap.
Qed.

Lemma stable_sort_perm l : Py.stable_sort leb l ≡ₚ l.
Proof.
  induction l as [|x l IH]; simpl; [done|].
  rewrite insert_sorted_perm. by rewrite IH.
Qed.

Lemma stable_sort_elem_of l x : x ∈ Py.stable_sort leb l ↔ x ∈ l.
Proof. by rewrite stable_sort_perm. Qed.

Hypothesis leb_total : ∀ a b, leb a b = false → leb b a = true.
Hypothesis leb_trans : ∀ a b c, leb a b = true → leb b c = true → leb a c = true.

Lemma insert_sorted_stably (before : relation A) x l :
  StronglySorted (sorted_stably leb before) l →
  Forall (before x) l →
  StronglySorted (sorted_stably leb before) (Py.insert_sorted leb x l).
Proof.
  induction 1 as [|y l Hl IH Hy]; intros Hx; simpl.
  - repeat constructor.
  - apply Forall_cons in Hx as [Hxy Hxl].
    destruct (leb x y) eqn:Hleb.
    + constructor; [by constructor|].
      constructor; [by split|].
      rewrite Forall_forall in Hy, Hxl |- *. intros z Hz.
      split; [|auto]. destruct (Hy z Hz) as [Hyz _]. eauto.
    + constructor; [auto|].
      rewrite Forall_forall in Hy |- *. intros z Hz.
      rewrite insert_sorted_perm in Hz.
      apply elem_of_cons in Hz as [->|Hz]; [|auto].
      split; [auto|]. congruence.
Qed.

Lemma stable_sort_stably (before : relation A) l :
  StronglySorted before l →
  StronglySorted (sorted_stably leb before) (Py.stable_sort leb l).
Proof.
  induction 1 as [|x l Hl IH Hx]; simpl; [constructor|].
  apply insert_sorted_stably; [done|].
  rewrite Forall_forall in Hx |- *. intros z Hz.
  apply Hx. by apply stable_sort_elem_of.
Qed.
End stable_sort_facts.

Lemma StronglySorted_filter {A} (R : relation A) (P : A → Prop)
    `{∀ x, Decision (P x)} l :
  StronglySorted R l → StronglySorted R (filter P l).
Proof.
  induction 1 as [|x l Hl IH Hx]; [constructor|].
  rewrite filter_cons. destruct (decide (P x)); [|done].
  constructor; [done|].
  rewrite Forall_forall in Hx |- *. intros z [_ Hz]%list_elem_of_filter. auto.
Qed.

Lemma StronglySorted_mono {A} (R1 R2 : relation A) l :
  (∀ a b, R1 a b → R2 a b) → StronglySorted R1 l → StronglySorted R2 l.
Proof.
  intros HR. induction 1 as [|x l Hl IH Hx]; constructor; [done|].
  eapply Forall_impl; [done|]. auto.
Qed.

Lemma StronglySorted_ne_NoDup {A} (l : list A) :
  NoDup l → StronglySorted (≠) l.
Proof.
  induction 1 as [|x l Hx Hl IH]; constructor; [done|].
  rewrite Forall_forall. intros y Hy ->. done.
Qed.

Lemma string_leb_total a b : String.leb a b = false → String.leb b a = true.
Proof. destruct (String.leb_total a b); congruence. Qed.

Lemma string_leb_trans a b c :
  String.leb a b = true → String.leb b c = true → String.leb a c = true.
Proof.
  intros H1 H2. apply Is_true_true.
  apply Is_true_true in H1, H2.
  exact (transitivity (R := String.le) H1 H2).
Qed.

(** [sorted(set_of_skus)] is strictly ascending. *)
Lemma sorted_skus_strict (skus : gset string) :
  StronglySorted sku_lt (Py.stable_sort String.leb (elements skus)).
Proof.
  eapply StronglySorted_mono;
    [|apply (stable_sort_stably String.leb string_leb_total string_leb_trans (≠)),
        StronglySorted_ne_NoDup, NoDup_elements].
  intros a b [Hab Hba]. split; [done|].
  intros ->. by apply Hba.
Qed.

Lemma abs_variance_geb_total a b :
  abs_variance_geb a b = false → abs_variance_geb b a = true.
Proof. unfold abs_variance_geb. lia. Qed.

Lemma abs_variance_geb_trans a b c :
  abs_variance_geb a b = true → abs_variance_geb b c = true →
  abs_variance_geb a c = true.
Proof. unfold abs_variance_geb. lia. Qed.

(** *** Datetimes *)

Lemma dt_ltb_spec a b :
  DT.ltb a b = true ↔
  dt_date a < dt_date b ∨ (dt_date a = dt_date b ∧ dt_time a < dt_time b).
Proof. unfold DT.ltb. lia. Qed.

Lemma dt_le_spec a b :
  dt_le a b ↔
  dt_date a < dt_date b ∨ (dt_date a = dt_date b ∧ dt_time a ≤ dt_time b).
Proof. unfold dt_le, DT.leb, DT.ltb. lia. Qed.

Lemma dt_le_refl a : dt_le a a.
Proof. apply dt_le_spec. lia. Qed.

Lemma dt_le_trans a b c : dt_le a b → dt_le b c → dt_le a c.
Proof. rewrite !dt_le_spec. lia. Qed.

Lemma dt_min_spec l m :
  DT.min l = Some m → m ∈ l ∧ ∀ x, x ∈ l → dt_le m x.
Proof.
  destruct l as [|x0 l]; [done|]. simpl. intros [= <-].
  revert x0. induction l as [|y l IH]; intros x0; simpl.
  - split; [left|]. intros x ->%list_elem_of_singleton. apply dt_le_refl.
  - destruct (IH (if DT.ltb y x0 then y else x0)) as [Hin Hle].
    split.
    + apply elem_of_cons in Hin as [->|Hin].
      * destruct (DT.ltb y x0); [right; left|left].
      * by do 2 right.
    + intros x Hx.
      assert (dt_le (if DT.ltb y x0 then y else x0) x0
              ∧ dt_le (if DT.ltb y x0 then y else x0) y) as [H0 Hy].
      { destruct (DT.ltb y x0) eqn:Hlt; rewrite !dt_le_spec.
        - apply dt_ltb_spec in Hlt. lia.
        - assert (¬ (DT.ltb y x0 = true)) as Hn by congruence.
          rewrite dt_ltb_spec in Hn. lia. }
      apply elem_of_cons in Hx as [->|[->|Hx]%elem_of_cons].
      * eapply dt_le_trans; [apply Hle; left|done].
      * eapply dt_le_trans; [apply Hle; left|done].
      * apply Hle. by right.
Qed.

Lemma dt_max_spec l m :
  DT.max l = Some m → m ∈ l ∧ ∀ x, x ∈ l → dt_le x m.
Proof.
  destruct l as [|x0 l]; [done|]. simpl. intros [= <-].
  revert x0. induction l as [|y l IH]; intros x0; simpl.
  - split; [left|]. intros x ->%list_elem_of_singleton. apply dt_le_refl.
  - destruct (IH (if DT.ltb x0 y then y else x0)) as [Hin Hle].
    split.
    + apply elem_of_cons in Hin as [->|Hin].
      * destruct (DT.ltb x0 y); [right; left|left].
      * by do 2 right.
    + intros x Hx.
      assert (dt_le x0 (if DT.ltb x0 y then y else x0)
              ∧ dt_le y (if DT.ltb x0 y then y else x0)) as [H0 Hy].
      { destruct (DT.ltb x0 y) eqn:Hlt; rewrite !dt_le_spec.
        - apply dt_ltb_spec in Hlt. lia.
        - assert (¬ (DT.ltb x0 y = true)) as Hn by congruence.
          rewrite dt_ltb_spec in Hn. lia. }
      apply elem_of_cons in Hx as [->|[->|Hx]%elem_of_cons].
      * eapply dt_le_trans; [done|apply Hle; left].
      * eapply dt_le_trans; [done|apply Hle; left].
      * apply Hle. by right.
Qed.

(** ** The variance engine *)

Lemma counted_rows_filter d sid sku (L : list (string * count_line)) :
  snd <$> filter (λ r : string * Z, r.1 = sku) (omap (counted_row d sid) L)
  = cl_counted_qty <$>
      filter (λ l, cl_sku l = sku ∧ in_submitted_pass d sid l) L.*2.
Proof.
  induction L as [|[id l] L IH]; [done|].
  rewrite fmap_cons, filter_cons. csimpl. unfold counted_row at 1. simpl.
  destruct (passes d !! cl_count_pass_id l) as [p|] eqn:Hp.
  - case_bool_decide as Hm.
    + rewrite filter_cons. simpl.
      assert (in_submitted_pass d sid l) as Hin by (by exists p).
      destruct (decide (cl_sku l = sku)).
      * rewrite decide_True by done. rewrite !fmap_cons. simpl. by rewrite IH.
      * rewrite decide_False by (by intros [? _]). done.
    + rewrite decide_False; [done|].
      intros [_ (p' & Hp' & ?)]. simplify_eq. done.
  - rewrite decide_False; [done|].
    intros [_ (p' & Hp' & ?)]. simplify_eq.
Qed.

(** [counted_by_sku.get(sku, 0)] is the sum over the submitted lines. *)
Lemma counted_by_sku_get d sid sku :
  default 0 (counted_by_sku d sid !! sku)
  = Py.sum (cl_counted_qty <$> submitted_lines d sid sku).
Proof.
  unfold counted_by_sku. rewrite group_sum_get.
  unfold counted_rows, submitted_lines. by rewrite counted_rows_filter.
Qed.

Lemma counted_by_sku_dom d sid sku :
  sku ∈ dom (counted_by_sku d sid) ↔ has_submitted_line d sid sku.
Proof.
  unfold counted_by_sku, has_submitted_line.
  rewrite dict_of_dom, group_sum_keys, list_elem_of_fmap.
  unfold submitted_lines.
  pose proof (counted_rows_filter d sid sku (map_to_list (lines d))) as Heq.
  fold (counted_rows d sid) in Heq.
  split.
  - intros (r & Hk & Hr).
    assert (r ∈ filter (λ r : string * Z, r.1 = sku) (counted_rows d sid)) as Hin
      by (by apply list_elem_of_filter).
    destruct (filter (λ l, cl_sku l = sku ∧ in_submitted_pass d sid l)
                     (map_to_list (lines d)).*2) as [|l ?].
    + apply fmap_nil_inv in Heq. rewrite Heq in Hin.
      by apply elem_of_nil in Hin.
    + exists l. left.
  - intros [l Hl].
    destruct (filter (λ r : string * Z, r.1 = sku) (counted_rows d sid))
      as [|r ?] eqn:Hf.
    + symmetry in Heq. apply fmap_nil_inv in Heq.
      rewrite Heq in Hl. by apply elem_of_nil in Hl.
    + assert (r ∈ filter (λ r : string * Z, r.1 = sku) (counted_rows d sid)) as Hr
        by (rewrite Hf; left).
      apply list_elem_of_filter in Hr as [Hk Hr]. by exists r.
Qed.

(** [baseline_by_sku.get(sku, 0)] is the snapshot quantity. *)
Lemma baseline_by_sku_get d store_id sku :
  default 0 (baseline_by_sku d store_id !! sku) = snapshot_quantity d store_id sku.
Proof.
  unfold baseline_by_sku, snapshot_quantity. rewrite dict_of_lookup.
  induction (baseline_rows d store_id) as [|r rows IH] using rev_ind; [done|].
  rewrite fmap_app, !filter_app. simpl. rewrite !filter_cons, !filter_nil. simpl.
  destruct (decide (r.1 = sku)).
  - rewrite !last_snoc. simpl. by destruct (r.2).
  - by rewrite !app_nil_r.
Qed.

Lemma baseline_rows_keys d store_id sku :
  sku ∈ (baseline_rows d store_id).*1 ↔ has_inventory_row d store_id sku.
Proof.
  unfold baseline_rows, has_inventory_row. rewrite list_elem_of_fmap. split.
  - intros (r & -> & Hr).
    apply list_elem_of_bind in Hr as (p & Hr & Hp).
    apply list_elem_of_bind in Hr as (i & Hr & Hi).
    apply list_elem_of_singleton in Hr as ->.
    apply list_elem_of_filter in Hi as [[? ?] Hi]. by exists p, i.
  - intros (p & i & Hp & Hi & ? & ? & <-).
    exists (p_sku p, ii_current_quantity i). split; [done|].
    apply list_elem_of_bind. exists p. split; [|done].
    apply list_elem_of_bind. exists i. split; [left|].
    by apply list_elem_of_filter.
Qed.

Lemma baseline_by_sku_dom d store_id sku :
  sku ∈ dom (baseline_by_sku d store_id) ↔ has_inventory_row d store_id sku.
Proof.
  unfold baseline_by_sku.
  rewrite dict_of_dom, <- list_fmap_compose, <- baseline_rows_keys.
  by rewrite (list_fmap_ext (fst ∘ (λ r : string * option Z, (r.1, default 0 r.2))) fst).
Qed.

(** Every reported item is a row of the loop, for a SKU of the union. *)
Lemma variance_results_elem_of d counted baseline deltas nz item :
  item ∈ variance_results d counted baseline deltas nz ↔
  item = variance_row counted baseline deltas
           (product_info_of d (dom counted ∪ dom baseline)) (vi_sku item)
  ∧ vi_sku item ∈ dom counted ∪ dom baseline
  ∧ ¬ (nz = true ∧ vi_variance item = 0).
Proof.
  unfold variance_results.
  rewrite stable_sort_elem_of, list_elem_of_filter, list_elem_of_fmap.
  split.
  - intros (Hnz & sku & -> & Hsku).
    apply stable_sort_elem_of, elem_of_elements in Hsku. done.
  - intros (Hitem & Hsku & Hnz). split; [done|].
    exists (vi_sku item). split; [done|].
    by apply stable_sort_elem_of, elem_of_elements.
Qed.

Lemma get_variance_Ok d sid nz report :
  get_variance d sid nz = Ok report →
  ∃ session deltas,
    sessions d !! sid = Some session
    ∧ movement_deltas d sid (cs_store_id session) = Ok deltas
    ∧ vr_items report
      = variance_results d (counted_by_sku d sid)
          (baseline_by_sku d (cs_store_id session)) deltas nz.
Proof.
  unfold get_variance. intros H.
  destruct (sessions d !! sid) as [session|]; [|done].
  destruct (movement_deltas d sid (cs_store_id session)) as [deltas|] eqn:Hd; [|done].
  injection H as <-. by exists session, deltas.
Qed.

Lemma passes_by_elem_of d sid st p :
  p ∈ (passes_by d sid st).*2 ↔
  ∃ pass_id, passes d !! pass_id = Some p ∧ cp_session_id p = sid ∧ cp_status p = st.
Proof.
  unfold passes_by. rewrite list_elem_of_fmap. split.
  - intros ([id p'] & -> & Hin).
    apply list_elem_of_filter in Hin as [[? ?] Hin].
    apply elem_of_map_to_list in Hin. by exists id.
  - intros (id & Hp & ? & ?). exists (id, p). split; [done|].
    apply list_elem_of_filter. split; [done|]. by apply elem_of_map_to_list.
Qed.

Lemma submitted_pass_elem_of d sid p :
  p ∈ (passes_by d sid PSubmitted).*2 ↔ submitted_pass d sid p.
Proof. apply passes_by_elem_of. Qed.

Lemma window_rows_filter store_id sku earliest latest (ms : list movement) :
  snd <$> filter (λ r : string * Z, r.1 = sku)
            ((λ m, (mv_sku m, mv_qty_delta m)) <$>
               filter (λ m, mv_store_id m = store_id
                            ∧ DT.leb earliest (mv_occurred_at m) = true
                            ∧ DT.leb (mv_occurred_at m) latest = true) ms)
  = mv_qty_delta <$>
      filter (λ m, mv_sku m = sku ∧ mv_store_id m = store_id
                   ∧ dt_le earliest (mv_occurred_at m)
                   ∧ dt_le (mv_occurred_at m) latest) ms.
Proof.
  induction ms as [|m ms IH]; [done|].
  rewrite !(filter_cons _ m). unfold dt_le in *.
  destruct (decide (mv_store_id m = store_id
                    ∧ DT.leb earliest (mv_occurred_at m) = true
                    ∧ DT.leb (mv_occurred_at m) latest = true)) as [Hw|Hw].
  - rewrite fmap_cons, filter_cons. simpl.
    destruct (decide (mv_sku m = sku)).
    + rewrite decide_True by done. rewrite !fmap_cons. simpl. by rewrite IH.
    + rewrite decide_False by (by intros [? _]). done.
  - rewrite decide_False by (by intros [_ ?]). done.
Qed.

(** With a submitted pass that carries a [submitted_at], the deltas are
    those of the single window of the session. *)
Lemma movement_deltas_window d sid store_id :
  (∃ p t, submitted_pass d sid p ∧ cp_submitted_at p = Some t) →
  ∃ deltas earliest latest,
    movement_deltas d sid store_id = Ok deltas
    ∧ session_window d sid earliest latest
    ∧ ∀ sku, default 0 (deltas !! sku) = window_delta d store_id sku earliest latest.
Proof.
  intros (p0 & t0 & Hp0 & Ht0).
  apply submitted_pass_elem_of in Hp0.
  unfold movement_deltas.
  destruct ((passes_by d sid PSubmitted).*2) as [|p1 ps] eqn:HL.
  { by apply elem_of_nil in Hp0. }
  rewrite <- HL in *. clear p1 ps HL.
  set (L := (passes_by d sid PSubmitted).*2) in *.
  destruct (DT.min (cp_started_at <$> L)) as [earliest|] eqn:Hmin.
  2:{ destruct L; [by apply elem_of_nil in Hp0|done]. }
  destruct (DT.max (omap cp_submitted_at L)) as [latest|] eqn:Hmax.
  2:{ assert (t0 ∈ omap cp_submitted_at L) as Hin
        by (apply list_elem_of_omap; eauto).
      destruct (omap cp_submitted_at L); [by apply elem_of_nil in Hin|done]. }
  exists (Py.dict_of
            (group_sum ((λ m, (mv_sku m, mv_qty_delta m))
                          <$> movements_in_window d store_id earliest latest))),
    earliest, latest.
  split.
  { destruct L; [by apply elem_of_nil in Hp0|done]. }
  apply dt_min_spec in Hmin as [Hmin_in Hmin_le].
  apply dt_max_spec in Hmax as [Hmax_in Hmax_le].
  split.
  - unfold session_window. repeat split.
    + apply list_elem_of_fmap in Hmin_in as (p & -> & Hp).
      exists p. split; [|done]. by apply submitted_pass_elem_of.
    + intros p Hp. apply Hmin_le, list_elem_of_fmap_2.
      by apply submitted_pass_elem_of.
    + apply list_elem_of_omap in Hmax_in as (p & Hp & Ht).
      exists p. split; [|done]. by apply submitted_pass_elem_of.
    + intros p t Hp Ht. apply Hmax_le, list_elem_of_omap.
      exists p. split; [|done]. by apply submitted_pass_elem_of.
  - intros sku. rewrite group_sum_get. unfold movements_in_window, window_delta.
    by rewrite window_rows_filter.
Qed.

(** Without any submitted pass there is no movement lookup. *)
Lemma movement_deltas_no_pass d sid store_id :
  (∀ p, ¬ submitted_pass d sid p) → movement_deltas d sid store_id = Ok ∅.
Proof.
  intros Hno. unfold movement_deltas.
  destruct ((passes_by d sid PSubmitted).*2) as [|p ps] eqn:HL; [done|].
  exfalso. apply (Hno p), submitted_pass_elem_of. rewrite HL. left.
Qed.


(** ** Claims on the variance engine *)

Lemma variance_row_fields counted baseline deltas pinfo sku :
  let item := variance_row counted baseline deltas pinfo sku in
  vi_sku item = sku
  ∧ vi_counted_qty item = default 0 (counted !! sku)
  ∧ vi_baseline_qty item = default 0 (baseline !! sku)
  ∧ vi_movement_delta item = default 0 (deltas !! sku)
  ∧ vi_expected_qty item = vi_baseline_qty item + vi_movement_delta item
  ∧ vi_variance item = vi_counted_qty item - vi_expected_qty item.
Proof. done. Qed.

(** What [get_variance] returns, item by item. *)
Lemma get_variance_item d sid nz report item :
  get_variance d sid nz = Ok report →
  item ∈ vr_items report →
  ∃ session deltas,
    sessions d !! sid = Some session
    ∧ movement_deltas d sid (cs_store_id session) = Ok deltas
    ∧ vi_sku item ∈ dom (counted_by_sku d sid) ∪ dom (baseline_by_sku d (cs_store_id session))
    ∧ ¬ (nz = true ∧ vi_variance item = 0)
    ∧ vi_counted_qty item = default 0 (counted_by_sku d sid !! vi_sku item)
    ∧ vi_baseline_qty item
      = default 0 (baseline_by_sku d (cs_store_id session) !! vi_sku item)
    ∧ vi_movement_delta item = default 0 (deltas !! vi_sku item)
    ∧ vi_expected_qty item = vi_baseline_qty item + vi_movement_delta item
    ∧ vi_variance item = vi_counted_qty item - vi_expected_qty item.
Proof.
  intros (session & deltas & Hs & Hd & Hitems)%get_variance_Ok Hin.
  rewrite Hitems in Hin.
  apply variance_results_elem_of in Hin as (Hitem & Hsku & Hnz).
  exists session, deltas. repeat (split; [done|]).
  rewrite Hitem. apply variance_row_fields.
Qed.

(** When the inventory rows of the store for the SKU agree on the
    quantity, that quantity is the snapshot. *)
Lemma snapshot_quantity_agree d store_id sku q :
  has_inventory_row d store_id sku →
  (∀ p i, p ∈ products d → i ∈ inventory_items d →
          ii_product_id i = p_id p → ii_store_id i = store_id → p_sku p = sku →
          ii_current_quantity i = q) →
  snapshot_quantity d store_id sku = default 0 q.
Proof.
  intros Hrow Hq. unfold snapshot_quantity.
  destruct (last (filter (λ r, r.1 = sku) (baseline_rows d store_id)))
    as [r|] eqn:Hlast.
  - apply last_Some_elem_of, list_elem_of_filter in Hlast as [Hk Hr].
    unfold baseline_rows in Hr.
    apply list_elem_of_bind in Hr as (p & Hr & Hp).
    apply list_elem_of_bind in Hr as (i & Hr & Hi).
    apply list_elem_of_singleton in Hr as ->.
    apply list_elem_of_filter in Hi as [[? ?] Hi]. simpl in *.
    by rewrite (Hq p i).
  - apply last_None in Hlast. apply baseline_rows_keys in Hrow.
    apply list_elem_of_fmap in Hrow as (r & -> & Hr).
    assert (r ∈ filter (λ r', r'.1 = r.1) (baseline_rows d store_id)) as Hin
      by (by apply list_elem_of_filter).
    rewrite Hlast in Hin. by apply elem_of_nil in Hin.
Qed.

(** C1: every item of a variance report has [counted] equal to the sum of
    [counted_qty] over the lines of the session's submitted passes for its
    SKU (lines of passes in any other status are left out), [baseline]
    equal to the store's inventory snapshot quantity for the SKU (0 when
    the store has no inventory row for it, the quantity of its rows when
    they agree), [expected = baseline + movement_delta] and [variance =
    counted - expected], over the integers. *)
Theorem C1_variance_item_correct d sid nz report item :
  get_variance d sid nz = Ok report →
  item ∈ vr_items report →
  ∃ session,
    sessions d !! sid = Some session
    ∧ vi_counted_qty item
      = Py.sum (cl_counted_qty <$> submitted_lines d sid (vi_sku item))
    ∧ (∀ l p, l ∈ submitted_lines d sid (vi_sku item) →
              passes d !! cl_count_pass_id l = Some p →
              cp_session_id p = sid ∧ cp_status p = PSubmitted)
    ∧ vi_baseline_qty item = snapshot_quantity d (cs_store_id session) (vi_sku item)
    ∧ (¬ has_inventory_row d (cs_store_id session) (vi_sku item) →
       vi_baseline_qty item = 0)
    ∧ (∀ q, has_inventory_row d (cs_store_id session) (vi_sku item) →
            (∀ p i, p ∈ products d → i ∈ inventory_items d →
                    ii_product_id i = p_id p →
                    ii_store_id i = cs_store_id session →
                    p_sku p = vi_sku item → ii_current_quantity i = q) →
            vi_baseline_qty item = default 0 q)
    ∧ vi_expected_qty item = vi_baseline_qty item + vi_movement_delta item
    ∧ vi_variance item = vi_counted_qty item - vi_expected_qty item.
Proof.
  intros Hget Hin.
  destruct (get_variance_item _ _ _ _ _ Hget Hin)
    as (session & deltas & Hs & _ & _ & _ & Hc & Hb & _ & He & Hv).
  exists session. split; [done|].
  split; [by rewrite Hc, counted_by_sku_get|].
  split.
  { intros l p [[_ (p' & Hp' & ?)] _]%list_elem_of_filter Hp. by simplify_eq. }
  split; [by rewrite Hb, baseline_by_sku_get|].
  split.
  { intros Hno. rewrite Hb.
    destruct (baseline_by_sku d (cs_store_id session) !! vi_sku item) eqn:Hl; [|done].
    exfalso. apply Hno, baseline_by_sku_dom, elem_of_dom. by eexists. }
  split; [|done].
  intros q Hrow Hq. rewrite Hb, baseline_by_sku_get.
  by apply snapshot_quantity_agree.
Qed.

(** C1 on the sample store: item "A" counts 5 + 3 from the two submitted
    passes, against a baseline of 10 and one sale of 3. *)
Lemma C1_witness :
  ∃ session,
    sessions Sample.data !! "s1" = Some session
    ∧ vi_counted_qty Sample.item_A
      = Py.sum (cl_counted_qty <$> submitted_lines Sample.data "s1" "A")
    ∧ (∀ l p, l ∈ submitted_lines Sample.data "s1" "A" →
              passes Sample.data !! cl_count_pass_id l = Some p →
              cp_session_id p = "s1" ∧ cp_status p = PSubmitted)
    ∧ vi_baseline_qty Sample.item_A = snapshot_quantity Sample.data (cs_store_id session) "A"
    ∧ (¬ has_inventory_row Sample.data (cs_store_id session) "A" →
       vi_baseline_qty Sample.item_A = 0)
    ∧ (∀ q, has_inventory_row Sample.data (cs_store_id session) "A" →
            (∀ p i, p ∈ products Sample.data → i ∈ inventory_items Sample.data →
                    ii_product_id i = p_id p →
                    ii_store_id i = cs_store_id session →
                    p_sku p = "A" → ii_current_quantity i = q) →
            vi_baseline_qty Sample.item_A = default 0 q)
    ∧ vi_expected_qty Sample.item_A = 10 + -3
    ∧ vi_variance Sample.item_A = 8 - 7.
Proof.
  apply (C1_variance_item_correct Sample.data "s1" false Sample.report Sample.item_A).
  - vm_compute. reflexivity.
  - vm_compute. left.
Defined.

(** The delta of a SKU splits at any movement of the ledger. *)
Lemma window_delta_split d store_id sku earliest latest l1 m l2 :
  movements d = l1 ++ m :: l2 →
  window_delta d store_id sku earliest latest
  = (if decide (mv_sku m = sku ∧ mv_store_id m = store_id
                ∧ dt_le earliest (mv_occurred_at m)
                ∧ dt_le (mv_occurred_at m) latest)
     then mv_qty_delta m else 0)
    + window_delta (set_movements d (l1 ++ l2)) store_id sku earliest latest.
Proof.
  intros Hm. unfold window_delta, window_movements. simpl. rewrite Hm.
  rewrite !filter_app, filter_cons.
  case_decide; rewrite !fmap_app, ?fmap_cons, !sum_app; simpl; lia.
Qed.

(** C2: when some submitted pass of the session carries a [submitted_at],
    the report is produced and the movement delta of every SKU is the sum
    of [qty_delta] over the movements of the session's store that occurred
    inside the one inclusive window from the least [started_at] to the
    greatest [submitted_at] of the submitted passes: so it is for every
    item of the report, and without the non-zero filter every SKU with a
    counted line or an inventory row has its item.  A movement of the
    store inside that window adds its [qty_delta] to the delta reported
    for its SKU wherever it falls relative to the windows of the
    individual passes: the reported delta is that quantity plus the delta
    of the ledger without the movement. *)
Theorem C2_movement_window d sid nz session :
  sessions d !! sid = Some session →
  (∃ p t, submitted_pass d sid p ∧ cp_submitted_at p = Some t) →
  ∃ report earliest latest,
    get_variance d sid nz = Ok report
    ∧ session_window d sid earliest latest
    ∧ (∀ item, item ∈ vr_items report →
         vi_movement_delta item
         = window_delta d (cs_store_id session) (vi_sku item) earliest latest)
    ∧ (nz = false →
       ∀ sku, has_submitted_line d sid sku
              ∨ has_inventory_row d (cs_store_id session) sku →
         ∃ item, item ∈ vr_items report ∧ vi_sku item = sku
                 ∧ vi_movement_delta item
                   = window_delta d (cs_store_id session) sku earliest latest)
    ∧ (∀ l1 m l2 item,
         movements d = l1 ++ m :: l2 →
         mv_store_id m = cs_store_id session →
         dt_le earliest (mv_occurred_at m) → dt_le (mv_occurred_at m) latest →
         item ∈ vr_items report → vi_sku item = mv_sku m →
         vi_movement_delta item
         = mv_qty_delta m
           + window_delta (set_movements d (l1 ++ l2)) (cs_store_id session)
               (mv_sku m) earliest latest).
Proof.
  intros Hs Hp.
  destruct (movement_deltas_window d sid (cs_store_id session) Hp)
    as (deltas & earliest & latest & Hd & Hw & Hdelta).
  destruct (get_variance d sid nz) as [report|e] eqn:Hget.
  2:{ unfold get_variance in Hget. rewrite Hs, Hd in Hget. done. }
  exists report, earliest, latest.
  assert (∀ item, item ∈ vr_items report →
            vi_movement_delta item
            = window_delta d (cs_store_id session) (vi_sku item) earliest latest)
    as Hitem.
  { intros item Hin.
    destruct (get_variance_item _ _ _ _ _ Hget Hin)
      as (session' & deltas' & Hs' & Hd' & _ & _ & _ & _ & Hm & _).
    rewrite Hs in Hs'. injection Hs' as <-.
    rewrite Hd in Hd'. injection Hd' as <-.
    by rewrite Hm, Hdelta. }
  split; [done|]. split; [done|]. split; [done|]. split.
  - intros -> sku Hsku.
    destruct (get_variance_Ok _ _ _ _ Hget) as (session' & deltas' & Hs' & _ & Hitems).
    rewrite Hs in Hs'. injection Hs' as <-.
    assert (variance_row (counted_by_sku d sid)
              (baseline_by_sku d (cs_store_id session)) deltas'
              (product_info_of d (dom (counted_by_sku d sid)
                                  ∪ dom (baseline_by_sku d (cs_store_id session))))
              sku ∈ vr_items report) as Hin.
    { rewrite Hitems. apply variance_results_elem_of.
      split; [reflexivity|]. split; [|by intros [? _]].
      simpl. apply elem_of_union.
      destruct Hsku as [Hc|Hb].
      - left. by apply counted_by_sku_dom.
      - right. by apply baseline_by_sku_dom. }
    eexists. split; [exact Hin|]. split; [reflexivity|].
    by rewrite (Hitem _ Hin).
  - intros l1 m l2 item Hm Hstore He Hl Hin Hsku.
    rewrite (Hitem item Hin), Hsku.
    rewrite (window_delta_split d _ _ _ _ l1 m l2 Hm).
    by rewrite decide_True.
Qed.

(** C2 on the sample store: the passes "p1" and "p2" were submitted at
    100:50 and 100:300, and the sale of 3 units of "A" at 100:120 falls
    between them. *)
Lemma C2_witness :
  ∃ report earliest latest,
    get_variance Sample.data "s1" false = Ok report
    ∧ session_window Sample.data "s1" earliest latest
    ∧ (∀ item, item ∈ vr_items report →
         vi_movement_delta item = window_delta Sample.data 1 (vi_sku item) earliest latest)
    ∧ (false = false →
       ∀ sku, has_submitted_line Sample.data "s1" sku
              ∨ has_inventory_row Sample.data 1 sku →
         ∃ item, item ∈ vr_items report ∧ vi_sku item = sku
                 ∧ vi_movement_delta item
                   = window_delta Sample.data 1 sku earliest latest)
    ∧ (∀ l1 m l2 item,
         movements Sample.data = l1 ++ m :: l2 →
         mv_store_id m = 1 →
         dt_le earliest (mv_occurred_at m) → dt_le (mv_occurred_at m) latest →
         item ∈ vr_items report → vi_sku item = mv_sku m →
         vi_movement_delta item
         = mv_qty_delta m
           + window_delta (set_movements Sample.data (l1 ++ l2)) 1
               (mv_sku m) earliest latest).
Proof.
  apply (C2_movement_window Sample.data "s1" false Sample.session).
  - vm_compute. reflexivity.
  - exists (Sample.mk_pass (DateTime 100 0) (Some (DateTime 100 50)) PSubmitted),
      (DateTime 100 50).
    split; [|reflexivity]. exists "p1". vm_compute. auto.
Defined.

(** The window of the sample session spans the gap between its two
    submitted passes, and the sale made in the gap is in the report. *)
Example window_union_sample :
  session_window Sample.data "s1" (DateTime 100 0) (DateTime 100 300)
  ∧ Sample.mk_movement 1 (-3) (DateTime 100 120)
    ∈ window_movements Sample.data 1 "A" (DateTime 100 0) (DateTime 100 300)
  ∧ get_variance Sample.data "s1" false = Ok Sample.report
  ∧ Sample.item_A ∈ vr_items Sample.report.
Proof.
  split.
  - assert (submitted_pass Sample.data "s1"
              (Sample.mk_pass (DateTime 100 0) (Some (DateTime 100 50)) PSubmitted))
      as Ha by (exists "p1"; vm_compute; auto).
    assert (submitted_pass Sample.data "s1"
              (Sample.mk_pass (DateTime 100 200) (Some (DateTime 100 300)) PSubmitted))
      as Hb by (exists "p2"; vm_compute; auto).
    repeat split.
    + eexists. split; [exact Ha|reflexivity].
    + intros p (id & Hp & _ & Hst).
      apply (elem_of_list_to_map_2 (M := gmap string)) in Hp.
      repeat (apply elem_of_cons in Hp as [Hp|Hp];
              [injection Hp as -> ->; first [discriminate Hst|vm_compute; reflexivity]|]).
      by apply elem_of_nil in Hp.
    + eexists. split; [exact Hb|reflexivity].
    + intros p t (id & Hp & _ & Hst) Ht.
      apply (elem_of_list_to_map_2 (M := gmap string)) in Hp.
      repeat (apply elem_of_cons in Hp as [Hp|Hp];
              [injection Hp as -> ->;
               first [discriminate Hst|injection Ht as <-; vm_compute; reflexivity]|]).
      by apply elem_of_nil in Hp.
  - split; [vm_compute; left|]. split; [vm_compute; reflexivity|]. vm_compute. left.
Qed.



(** C6, as stated, fails: product "B" has an inventory row with quantity
    0 at the store, no counted line and no movement, and the report of
    the sample session (without the non-zero filter) lists it. *)
Lemma C6_counterexample :
  get_variance Sample.data "s1" false = Ok Sample.report
  ∧ Sample.item_B ∈ vr_items Sample.report
  ∧ vi_counted_qty Sample.item_B = 0
  ∧ vi_baseline_qty Sample.item_B = 0
  ∧ vi_movement_delta Sample.item_B = 0.
Proof.
  split; [vm_compute; reflexivity|].
  split; [vm_compute; right; left|]. done.
Qed.

(** C6, amended: the SKUs of a report are those with a counted line in a
    submitted pass of the session or an inventory row at the store; a SKU
    with neither never appears, whatever its movements, and without the
    non-zero filter every SKU with one of the two appears, also when all
    its quantities are zero.  With [non_zero_only] no item has
    [counted = baseline + movement_delta]. *)
Theorem C6_report_skus d sid nz report :
  get_variance d sid nz = Ok report →
  ∃ session,
    sessions d !! sid = Some session
    ∧ (∀ item, item ∈ vr_items report →
         has_submitted_line d sid (vi_sku item)
         ∨ has_inventory_row d (cs_store_id session) (vi_sku item))
    ∧ (nz = false →
       ∀ sku, has_submitted_line d sid sku
              ∨ has_inventory_row d (cs_store_id session) sku →
              ∃ item, item ∈ vr_items report ∧ vi_sku item = sku)
    ∧ (nz = true →
       ∀ item, item ∈ vr_items report →
               vi_counted_qty item ≠ vi_baseline_qty item + vi_movement_delta item).
Proof.
  intros Hget.
  destruct (get_variance_Ok _ _ _ _ Hget) as (session & deltas & Hs & Hd & Hitems).
  exists session. split; [done|]. split; [|split].
  - intros item Hin.
    destruct (get_variance_item _ _ _ _ _ Hget Hin)
      as (session' & _ & Hs' & _ & Hsku & _).
    rewrite Hs in Hs'. injection Hs' as <-.
    apply elem_of_union in Hsku as [Hc|Hb].
    + left. by apply counted_by_sku_dom.
    + right. by apply baseline_by_sku_dom.
  - intros -> sku Hsku.
    eexists (variance_row _ _ _ _ sku). split; [|reflexivity].
    rewrite Hitems. apply variance_results_elem_of.
    split; [reflexivity|]. split; [|by intros [? _]].
    simpl. apply elem_of_union.
    destruct Hsku as [Hc|Hb].
    + left. by apply counted_by_sku_dom.
    + right. by apply baseline_by_sku_dom.
  - intros -> item Hin.
    destruct (get_variance_item _ _ _ _ _ Hget Hin)
      as (_ & _ & _ & _ & _ & Hnz & _ & _ & _ & He & Hv).
    intros Heq. apply Hnz. split; [done|]. lia.
Qed.

(** C6 on the report of the sample session. *)
Lemma C6_witness :
  ∃ session,
    sessions Sample.data !! "s1" = Some session
    ∧ (∀ item, item ∈ vr_items Sample.report →
         has_submitted_line Sample.data "s1" (vi_sku item)
         ∨ has_inventory_row Sample.data (cs_store_id session) (vi_sku item))
    ∧ (false = false →
       ∀ sku, has_submitted_line Sample.data "s1" sku
              ∨ has_inventory_row Sample.data (cs_store_id session) sku →
              ∃ item, item ∈ vr_items Sample.report ∧ vi_sku item = sku)
    ∧ (false = true →
       ∀ item, item ∈ vr_items Sample.report →
               vi_counted_qty item ≠ vi_baseline_qty item + vi_movement_delta item).
Proof.
  apply (C6_report_skus Sample.data "s1" false Sample.report).
  vm_compute. reflexivity.
Defined.

(** The order of a report. *)
Lemma variance_results_sorted d counted baseline deltas nz :
  StronglySorted report_order (variance_results d counted baseline deltas nz).
Proof.
  unfold variance_results.
  eapply StronglySorted_mono;
    [|apply (stable_sort_stably abs_variance_geb abs_variance_geb_total
               abs_variance_geb_trans (λ a b, sku_lt (vi_sku a) (vi_sku b)))].
  - intros a b [Hab Hba]. unfold report_order, abs_variance_geb in *.
    destruct (decide (Z.abs (vi_variance a) = Z.abs (vi_variance b))) as [Heq|Hne].
    + right. split; [done|]. apply Hba. lia.
    + left. lia.
  - apply StronglySorted_filter.
    apply (StronglySorted_fmap _ sku_lt); [done|].
    apply sorted_skus_strict.
Qed.

(** C9: the items of a variance report are in descending order of
    absolute variance, and items of equal absolute variance are in
    ascending order of SKU; the order is therefore fixed by the inputs. *)
Theorem C9_report_sorted d sid nz report :
  get_variance d sid nz = Ok report →
  StronglySorted report_order (vr_items report)
  ∧ StronglySorted (λ a b, Z.abs (vi_variance b) ≤ Z.abs (vi_variance a))
                   (vr_items report)
  ∧ (∀ i j a b, vr_items report !! i = Some a → vr_items report !! j = Some b →
       (i < j)%nat → Z.abs (vi_variance a) = Z.abs (vi_variance b) →
       sku_lt (vi_sku a) (vi_sku b)).
Proof.
  intros (session & deltas & _ & _ & ->)%get_variance_Ok.
  pose proof (variance_results_sorted d (counted_by_sku d sid)
                (baseline_by_sku d (cs_store_id session)) deltas nz) as Hs.
  split; [done|]. split.
  - eapply StronglySorted_mono; [|done].
    intros a b [?|[? _]]; lia.
  - intros i j a b Hi Hj Hij Heq.
    set (l := variance_results _ _ _ _ _) in *.
    assert (report_order a b) as [Hlt|[_ ?]]; [|lia|done].
    clearbody l. revert i j Hi Hj Hij.
    induction Hs as [|x l Hl IH Hx]; intros i j Hi Hj Hij.
    + by rewrite lookup_nil in Hi.
    + destruct i as [|i], j as [|j]; try lia; simpl in *.
      * injection Hi as ->. rewrite Forall_forall in Hx.
        apply Hx. by eapply list_elem_of_lookup_2.
      * apply (IH i j); [done|done|lia].
Qed.

(** C9 on the report of the sample session. *)
Lemma C9_witness :
  StronglySorted report_order (vr_items Sample.report)
  ∧ StronglySorted (λ a b, Z.abs (vi_variance b) ≤ Z.abs (vi_variance a))
                   (vr_items Sample.report)
  ∧ (∀ i j a b, vr_items Sample.report !! i = Some a →
       vr_items Sample.report !! j = Some b →
       (i < j)%nat → Z.abs (vi_variance a) = Z.abs (vi_variance b) →
       sku_lt (vi_sku a) (vi_sku b)).
Proof.
  apply (C9_report_sorted Sample.data "s1" false Sample.report).
  vm_compute. reflexivity.
Defined.

(** ** The line ledger *)

Lemma find_line_Some d pid sku id l :
  find_line d pid sku = Some (id, l) →
  lines d !! id = Some l ∧ cl_count_pass_id l = pid ∧ cl_sku l = sku.
Proof.
  unfold find_line. intros Hh%head_Some_elem_of.
  apply list_elem_of_filter in Hh as [[? ?] Hh].
  by apply elem_of_map_to_list in Hh.
Qed.

Lemma find_line_None d pid sku id l :
  find_line d pid sku = None → lines d !! id = Some l →
  ¬ (cl_count_pass_id l = pid ∧ cl_sku l = sku).
Proof.
  unfold find_line. intros Hh%head_None Hl Hm.
  apply elem_of_map_to_list in Hl.
  assert ((id, l) ∈ filter (λ r : string * count_line,
                              cl_count_pass_id r.2 = pid ∧ cl_sku r.2 = sku)
                           (map_to_list (lines d))) as Hin
    by (by apply list_elem_of_filter).
  rewrite Hh in Hin. by apply elem_of_nil in Hin.
Qed.

Lemma find_line_is_Some d pid sku id l :
  lines d !! id = Some l → cl_count_pass_id l = pid → cl_sku l = sku →
  is_Some (find_line d pid sku).
Proof.
  intros Hl Hp Hs. destruct (find_line d pid sku) eqn:Hf; [by eexists|].
  by destruct (find_line_None _ _ _ _ _ Hf Hl).
Qed.

(** Under the invariant the query finds the one line of the pass and SKU. *)
Lemma find_line_unique d id l :
  line_unique d → lines d !! id = Some l →
  find_line d (cl_count_pass_id l) (cl_sku l) = Some (id, l).
Proof.
  intros Hu Hl.
  destruct (find_line_is_Some d _ _ id l Hl eq_refl eq_refl) as [[id' l'] Hf].
  destruct (find_line_Some _ _ _ _ _ Hf) as (Hl' & Hp & Hs).
  assert (id' = id) as -> by (eapply Hu; eauto).
  rewrite Hf. congruence.
Qed.

(** The two ways [add_line] succeeds. *)
Lemma add_line_Ok d user_id now new_id pass_id payload d' r :
  add_line d user_id now new_id pass_id payload = Ok (d', r) →
  ∃ count_pass product,
    passes d !! pass_id = Some count_pass
    ∧ cp_status count_pass = PInProgress
    ∧ Py.truthy (request_barcode payload) = true
    ∧ find_product d (request_barcode payload) = Some product
    ∧ scope_conflict (cp_category count_pass) (p_category product) = None
    ∧ scope_conflict (cp_subcategory count_pass) (p_subcategory product) = None
    ∧ ((∃ line_id existing_line,
          find_line d pass_id (p_sku product) = Some (line_id, existing_line)
          ∧ d' = set_lines d
                   (<[line_id := increment_line existing_line (request_qty payload)
                                   now user_id (request_notes payload)]> (lines d))
          ∧ r = {| alr_line_id := line_id;
                   alr_line := increment_line existing_line (request_qty payload)
                                 now user_id (request_notes payload);
                   alr_incremented := true;
                   alr_previous_qty := Some (cl_counted_qty existing_line);
                   alr_product := None |})
       ∨ (find_line d pass_id (p_sku product) = None
          ∧ lines d !! new_id = None
          ∧ d' = set_lines d
                   (<[new_id := created_line pass_id product payload now user_id]>
                      (lines d))
          ∧ r = {| alr_line_id := new_id;
                   alr_line := created_line pass_id product payload now user_id;
                   alr_incremented := false;
                   alr_previous_qty := None;
                   alr_product := Some product |})).
Proof.
  unfold add_line. intros H.
  destruct (passes d !! pass_id) as [count_pass|]; [|done].
  destruct (decide (cp_status count_pass ≠ PInProgress)) as [|Hst]; [done|].
  apply dec_stable in Hst.
  destruct (Py.truthy (request_barcode payload)) eqn:Hb; [|done]. simpl in H.
  destruct (find_product d (request_barcode payload)) as [product|] eqn:Hprod; [|done].
  destruct (scope_conflict (cp_category count_pass) (p_category product))
    as [[? ?]|] eqn:Hc; [done|].
  destruct (scope_conflict (cp_subcategory count_pass) (p_subcategory product))
    as [[? ?]|] eqn:Hsc; [done|].
  exists count_pass, product. repeat (split; [done|]).
  destruct (find_line d pass_id (p_sku product)) as [[line_id existing_line]|] eqn:Hf.
  - left. exists line_id, existing_line. injection H as <- <-.
    split; [done|]. split; [done|]. f_equal. simpl. f_equal. lia.
  - right. destruct (lines d !! new_id) eqn:Hn; [done|].
    injection H as <- <-. done.
Qed.

(** *** The invariant *)

(** A ledger without lines satisfies the invariant. *)
Lemma line_unique_no_lines d : lines d = ∅ → line_unique d.
Proof. intros Hl id1 id2 l1 l2 H1. by rewrite Hl, lookup_empty in H1. Qed.

(** Rewriting a line without touching its pass and SKU keeps the invariant. *)
Lemma line_unique_update d id l l' :
  line_unique d → lines d !! id = Some l →
  cl_count_pass_id l' = cl_count_pass_id l → cl_sku l' = cl_sku l →
  line_unique (set_lines d (<[id := l']> (lines d))).
Proof.
  intros Hu Hl Hp Hs id1 id2 l1 l2. simpl.
  rewrite !lookup_insert.
  destruct (decide (id = id1)) as [E1|N1], (decide (id = id2)) as [E2|N2];
    intros H1 H2; simplify_eq; try done.
  - rewrite Hp, Hs. intros. by eapply Hu.
  - rewrite Hp, Hs. intros. by eapply Hu.
  - by apply Hu.
Qed.

Lemma line_unique_insert_new d id l :
  line_unique d →
  find_line d (cl_count_pass_id l) (cl_sku l) = None →
  line_unique (set_lines d (<[id := l]> (lines d))).
Proof.
  intros Hu Hf id1 id2 l1 l2. simpl.
  rewrite !lookup_insert.
  destruct (decide (id = id1)) as [E1|N1], (decide (id = id2)) as [E2|N2];
    intros H1 H2 Hp Hs; simplify_eq; try done.
  - by destruct (find_line_None _ _ _ _ _ Hf H2).
  - by destruct (find_line_None _ _ _ _ _ Hf H1).
  - by eapply Hu.
Qed.

Lemma line_unique_delete d id :
  line_unique d → line_unique (set_lines d (delete id (lines d))).
Proof.
  intros Hu id1 id2 l1 l2. simpl.
  intros [_ H1]%lookup_delete_Some [_ H2]%lookup_delete_Some. by apply Hu.
Qed.

Lemma line_unique_same_lines d d' :
  lines d' = lines d → line_unique d → line_unique d'.
Proof. unfold line_unique. by intros ->. Qed.

Lemma add_line_unique d u n i p pl :
  line_unique d → line_unique (committed d (add_line d u n i p pl)).
Proof.
  intros Hu. destruct (add_line d u n i p pl) as [[d' r]|] eqn:H; [|done].
  apply add_line_Ok in H
    as (cp & prod & _ & _ & _ & _ & _ & _ &
        [(lid & l & Hf & -> & _)|(Hf & _ & -> & _)]); simpl.
  - apply find_line_Some in Hf as (Hl & _ & _).
    by eapply line_unique_update.
  - by apply line_unique_insert_new.
Qed.

Lemma update_line_unique d u n id pl :
  line_unique d → line_unique (committed d (update_line d u n id pl)).
Proof.
  intros Hu. unfold update_line.
  destruct (lines d !! id) as [l|] eqn:Hl; [|done].
  destruct (owning_pass_status d l) as [st|]; [|done].
  destruct (decide (st ≠ PInProgress)); [done|]. simpl.
  by eapply line_unique_update.
Qed.

Lemma delete_line_unique d id :
  line_unique d → line_unique (committed d (delete_line d id)).
Proof.
  intros Hu. unfold delete_line.
  destruct (lines d !! id) as [l|] eqn:Hl; [|done].
  destruct (owning_pass_status d l) as [st|]; [|done].
  destruct (decide (st ≠ PInProgress)); [done|]. simpl.
  by apply line_unique_delete.
Qed.

(** No request other than the three line operations writes a line. *)
Lemma handle_lines d r :
  (∀ u n i p pl, r ≠ AddLine u n i p pl) →
  (∀ u n l pl, r ≠ UpdateLine u n l pl) →
  (∀ l, r ≠ DeleteLine l) →
  lines (handle d r) = lines d.
Proof.
  intros Ha Hu Hd.
  destruct r; simpl;
    try (exfalso; by eapply Ha); try (exfalso; by eapply Hu);
    try (exfalso; by eapply Hd); try done.
  - unfold create_location.
    destruct (clp_store_id payload); [|done].
    destruct (negb _); [done|]. by destruct (filter _ _).
  - unfold create_session.
    destruct (csp_store_id payload); [|done].
    repeat (case_decide; [done|]). by destruct (sessions d !! new_id).
  - unfold start_session.
    destruct (sessions d !! session_id); [|done]. by case_decide.
  - unfold submit_session.
    destruct (sessions d !! session_id); [|done].
    case_decide; [done|]. by case_decide.
  - unfold create_pass.
    destruct (sessions d !! session_id); [|done].
    case_decide; [done|].
    destruct (cpp_location_id payload); [|done].
    case_decide; [done|].
    destruct (locations d !! _); [|done].
    case_decide; [done|]. by destruct (passes d !! new_id).
  - unfold submit_pass.
    destruct (passes d !! pass_id); [|done]. by case_decide.
  - unfold void_pass.
    destruct (passes d !! pass_id); [|done]. by case_decide.
Qed.

Lemma handle_line_unique d r : line_unique d → line_unique (handle d r).
Proof.
  intros Hu.
  destruct r;
    try (apply (line_unique_same_lines d); [by apply handle_lines|done]).
  - by apply add_line_unique.
  - by apply update_line_unique.
  - by apply delete_line_unique.
Qed.

Lemma reachable_line_unique d0 d :
  line_unique d0 → reachable d0 d → line_unique d.
Proof. intros H0. induction 1; [done|]. by apply handle_line_unique. Qed.

(** *** Recording a SKU that already has a line *)

Lemma add_line_increments d user_id now new_id pass_id payload count_pass product
    line_id existing_line :
  line_unique d →
  passes d !! pass_id = Some count_pass →
  cp_status count_pass = PInProgress →
  Py.truthy (request_barcode payload) = true →
  find_product d (request_barcode payload) = Some product →
  scope_conflict (cp_category count_pass) (p_category product) = None →
  scope_conflict (cp_subcategory count_pass) (p_subcategory product) = None →
  lines d !! line_id = Some existing_line →
  cl_count_pass_id existing_line = pass_id →
  cl_sku existing_line = p_sku product →
  let line := increment_line existing_line (request_qty payload) now user_id
                (request_notes payload) in
  add_line d user_id now new_id pass_id payload
  = Ok (set_lines d (<[line_id := line]> (lines d)),
        {| alr_line_id := line_id; alr_line := line; alr_incremented := true;
           alr_previous_qty := Some (cl_counted_qty existing_line);
           alr_product := None |}).
Proof.
  intros Hu Hp Hst Hb Hprod Hc Hsc Hl Hpass Hsku line.
  pose proof (find_line_unique d line_id existing_line Hu Hl) as Hf.
  rewrite Hpass, Hsku in Hf.
  unfold add_line. rewrite Hp.
  rewrite decide_False by (by rewrite Hst; intros ?).
  rewrite Hb. simpl. rewrite Hprod, Hc, Hsc, Hf.
  do 3 f_equal. simpl. f_equal. lia.
Qed.

(** A scan that created a line, followed by a scan that resolves to the
    same SKU in the same pass. *)
Lemma add_line_then_same_sku d u1 n1 i1 u2 n2 i2 pass_id pl1 pl2 d1 r1 d2 r2 :
  add_line d u1 n1 i1 pass_id pl1 = Ok (d1, r1) →
  alr_incremented r1 = false →
  add_line d1 u2 n2 i2 pass_id pl2 = Ok (d2, r2) →
  cl_sku (alr_line r2) = cl_sku (alr_line r1) →
  alr_incremented r2 = true
  ∧ alr_line_id r2 = alr_line_id r1
  ∧ alr_previous_qty r2 = Some (request_qty pl1)
  ∧ cl_counted_qty (alr_line r2) = request_qty pl1 + request_qty pl2
  ∧ cl_barcode (alr_line r2) = Some (request_barcode pl1)
  ∧ lines d2 !! alr_line_id r1 = Some (alr_line r2)
  ∧ (∀ id l, lines d2 !! id = Some l → cl_count_pass_id l = pass_id →
       cl_sku l = cl_sku (alr_line r1) → id = alr_line_id r1).
Proof.
  intros H1 Hnew H2 Hsku.
  apply add_line_Ok in H1
    as (cp1 & prod1 & _ & _ & _ & _ & _ & _ &
        [(? & ? & _ & _ & ->)|(Hf1 & Hfresh & -> & ->)]); [done|].
  apply add_line_Ok in H2
    as (cp2 & prod2 & _ & _ & _ & _ & _ & _ &
        [(lid & l & Hf2 & -> & ->)|(Hf2 & _ & -> & ->)]); simpl in *.
  - apply find_line_Some in Hf2 as (Hl & Hp & Hs). simpl in Hl.
    assert (lid = i1) as ->.
    { destruct (decide (lid = i1)) as [|Hne]; [done|].
      rewrite lookup_insert_ne in Hl by done.
      destruct (find_line_None _ _ _ _ _ Hf1 Hl). split; congruence. }
    rewrite lookup_insert_eq in Hl. injection Hl as <-. simpl.
    repeat (split; [done|]). split; [by rewrite lookup_insert_eq|].
    intros id l Hl Hpl Hsl.
    destruct (decide (id = i1)) as [|Hne]; [done|].
    rewrite !lookup_insert_ne in Hl by done.
    by destruct (find_line_None _ _ _ _ _ Hf1 Hl).
  - exfalso.
    eapply (find_line_None _ _ _ i1 (created_line pass_id prod1 pl1 n1 u1) Hf2).
    + simpl. by rewrite lookup_insert_eq.
    + simpl. split; [done|]. congruence.
Qed.

(** The checks of [add_line] read the pass and the catalog only. *)
Lemma add_line_again d u1 n1 i1 u2 n2 i2 pass_id pl1 pl2 d1 r1 :
  add_line d u1 n1 i1 pass_id pl1 = Ok (d1, r1) →
  alr_incremented r1 = false →
  request_barcode pl2 = request_barcode pl1 →
  ∃ d2 r2, add_line d1 u2 n2 i2 pass_id pl2 = Ok (d2, r2)
           ∧ cl_sku (alr_line r2) = cl_sku (alr_line r1).
Proof.
  intros H1 Hnew Hb.
  apply add_line_Ok in H1
    as (cp & prod & Hp & Hst & Htr & Hprod & Hc & Hsc &
        [(? & ? & _ & _ & ->)|(Hf1 & Hfresh & -> & ->)]); [done|].
  set (d1 := set_lines d _).
  assert (find_product d1 (request_barcode pl1) = Some prod) as Hprod1 by done.
  unfold add_line. change (passes d1) with (passes d). rewrite Hp.
  rewrite decide_False by (by rewrite Hst; intros ?).
  rewrite Hb, Htr. simpl. rewrite Hprod1, Hc, Hsc.
  destruct (find_line d1 pass_id (p_sku prod)) as [[lid l]|] eqn:Hf.
  - eexists _, _. split; [done|]. simpl.
    by apply find_line_Some in Hf as (_ & _ & ?).
  - exfalso.
    eapply (find_line_None d1 _ _ i1 (created_line pass_id prod pl1 n1 u1) Hf).
    + subst d1. simpl. by rewrite lookup_insert_eq.
    + done.
Qed.

(** C3: starting from a database that has at most one line per pass and
    SKU, every request keeps it so, in one step and along any run.  A
    scan in an open pass that resolves to a product whose SKU has a line
    there succeeds, replaces that line by itself with [qty] (1 when the
    request gives none) added to [counted_qty], creates no line, and
    reports [incremented = true] and the quantity before the increment.
    Scanning a barcode twice, the first scan creating the line, leaves one
    line for the SKU in the pass, whose [counted_qty] is the sum. *)
Theorem C3_one_line_per_sku d :
  line_unique d →
  (∀ r, line_unique (handle d r))
  ∧ (∀ d', reachable d d' → line_unique d')
  ∧ (∀ user_id now new_id pass_id payload count_pass product line_id existing_line,
       passes d !! pass_id = Some count_pass →
       cp_status count_pass = PInProgress →
       Py.truthy (request_barcode payload) = true →
       find_product d (request_barcode payload) = Some product →
       scope_conflict (cp_category count_pass) (p_category product) = None →
       scope_conflict (cp_subcategory count_pass) (p_subcategory product) = None →
       lines d !! line_id = Some existing_line →
       cl_count_pass_id existing_line = pass_id →
       cl_sku existing_line = p_sku product →
       ∃ d' r,
         add_line d user_id now new_id pass_id payload = Ok (d', r)
         ∧ alr_incremented r = true
         ∧ alr_line_id r = line_id
         ∧ alr_previous_qty r = Some (cl_counted_qty existing_line)
         ∧ cl_counted_qty (alr_line r)
           = cl_counted_qty existing_line + default 1 (al_counted_qty payload)
         ∧ lines d' = <[line_id := alr_line r]> (lines d)
         ∧ dom (lines d') = dom (lines d))
  ∧ (∀ u1 n1 i1 u2 n2 i2 pass_id pl1 pl2 d1 r1,
       add_line d u1 n1 i1 pass_id pl1 = Ok (d1, r1) →
       alr_incremented r1 = false →
       request_barcode pl2 = request_barcode pl1 →
       ∃ d2 r2,
         add_line d1 u2 n2 i2 pass_id pl2 = Ok (d2, r2)
         ∧ alr_incremented r2 = true
         ∧ alr_previous_qty r2 = Some (default 1 (al_counted_qty pl1))
         ∧ lines d2 !! alr_line_id r1 = Some (alr_line r2)
         ∧ cl_counted_qty (alr_line r2)
           = default 1 (al_counted_qty pl1) + default 1 (al_counted_qty pl2)
         ∧ (∀ id l, lines d2 !! id = Some l → cl_count_pass_id l = pass_id →
              cl_sku l = cl_sku (alr_line r2) → id = alr_line_id r1)).
Proof.
  intros Hu. split; [intros r; by apply handle_line_unique|].
  split; [intros d' Hr; by eapply reachable_line_unique|].
  split.
  - intros user_id now new_id pass_id payload cp product line_id l
           Hp Hst Hb Hprod Hc Hsc Hl Hpass Hsku.
    pose proof (add_line_increments d user_id now new_id pass_id payload cp product
                  line_id l Hu Hp Hst Hb Hprod Hc Hsc Hl Hpass Hsku) as Hadd.
    simpl in Hadd. eexists _, _.
    split; [exact Hadd|]. simpl.
    repeat (split; [done|]).
    apply dom_insert_lookup_L. by eexists.
  - intros u1 n1 i1 u2 n2 i2 pass_id pl1 pl2 d1 r1 H1 Hnew Hb.
    destruct (add_line_again d u1 n1 i1 u2 n2 i2 pass_id pl1 pl2 d1 r1 H1 Hnew Hb)
      as (d2 & r2 & H2 & Hsku).
    destruct (add_line_then_same_sku _ _ _ _ _ _ _ _ _ _ _ _ _ _ H1 Hnew H2 Hsku)
      as (Hinc & Hid & Hprev & Hqty & _ & Hl & Hone).
    exists d2, r2. repeat (split; [done|]).
    intros id l ? ? Hs. apply (Hone id l); [done|done|congruence].
Qed.

Lemma sample_line_unique : line_unique Sample.data.
Proof.
  intros id1 id2 l1 l2 H1 H2 Hp Hs.
  apply (elem_of_list_to_map_2 (M := gmap string)) in H1, H2.
  repeat (apply elem_of_cons in H1 as [H1|H1];
          [injection H1 as -> ->;
           repeat (apply elem_of_cons in H2 as [H2|H2];
                   [injection H2 as -> ->; first [done|discriminate Hp]|]);
           by apply elem_of_nil in H2|]).
  by apply elem_of_nil in H1.
Qed.

(** C3 on the sample store: deleting a line, scanning the alternate
    identifier of "A" in the open pass, and scanning "K" twice. *)
Lemma C3_witness :
  line_unique (handle Sample.data (DeleteLine "l3"))
  ∧ (∃ d' r,
       add_line Sample.data 7 Sample.now "n1" "p3" (Sample.scan " CA " None None)
       = Ok (d', r)
       ∧ alr_incremented r = true
       ∧ alr_line_id r = "l3"
       ∧ alr_previous_qty r = Some 100
       ∧ cl_counted_qty (alr_line r) = 100 + 1
       ∧ lines d' = <["l3" := alr_line r]> (lines Sample.data)
       ∧ dom (lines d') = dom (lines Sample.data))
  ∧ (∃ d2 r2,
       add_line (handle Sample.data
                   (AddLine 7 Sample.now "n1" "p3" (Sample.scan "K" (Some 2) None)))
                8 Sample.now "n2" "p3" (Sample.scan "K" None None)
       = Ok (d2, r2)
       ∧ alr_incremented r2 = true
       ∧ alr_previous_qty r2 = Some 2
       ∧ lines d2 !! "n1" = Some (alr_line r2)
       ∧ cl_counted_qty (alr_line r2) = 2 + 1
       ∧ (∀ id l, lines d2 !! id = Some l → cl_count_pass_id l = "p3" →
            cl_sku l = cl_sku (alr_line r2) → id = "n1")).
Proof.
  destruct (C3_one_line_per_sku Sample.data sample_line_unique)
    as (Hstep & _ & Hinc & Htwice).
  split; [apply Hstep|]. split.
  - apply (Hinc 7 Sample.now "n1" "p3" (Sample.scan " CA " None None)
             (Sample.mk_pass (DateTime 100 400) None PInProgress)
             Sample.flower "l3" (Sample.mk_line "p3" 100));
      vm_compute; reflexivity.
  - apply (Htwice 7 Sample.now "n1" 8 Sample.now "n2" "p3"
             (Sample.scan "K" (Some 2) None) (Sample.scan "K" None None)
             (handle Sample.data
                (AddLine 7 Sample.now "n1" "p3" (Sample.scan "K" (Some 2) None)))
             {| alr_line_id := "n1";
                alr_line := created_line "p3" Sample.kush
                              (Sample.scan "K" (Some 2) None) Sample.now 7;
                alr_incremented := false;
                alr_previous_qty := None;
                alr_product := Some Sample.kush |});
      vm_compute; reflexivity.
Defined.

Lemma request_notes_empty payload :
  al_notes payload = None ∨ al_notes payload = Some "" →
  request_notes payload = None.
Proof. unfold request_notes. by intros [->| ->]. Qed.

(** C10: when a scan is answered with [incremented = true], exactly one
    existing line of the pass was rewritten; its barcode, package id,
    unit, confidence, SKU, product and pass are as they were stored, the
    request's values for them go nowhere, and its notes change only to the
    non-empty notes of the request.  No other line changes.  If the line
    had been created by an earlier scan of another identifier of the same
    SKU, it still carries the barcode of that first scan. *)
Theorem C10_increment_frame d user_id now new_id pass_id payload d' r :
  add_line d user_id now new_id pass_id payload = Ok (d', r) →
  alr_incremented r = true →
  (∃ old,
     lines d !! alr_line_id r = Some old
     ∧ cl_count_pass_id old = pass_id
     ∧ lines d' = <[alr_line_id r := alr_line r]> (lines d)
     ∧ (∀ id, id ≠ alr_line_id r → lines d' !! id = lines d !! id)
     ∧ cl_barcode (alr_line r) = cl_barcode old
     ∧ cl_package_id (alr_line r) = cl_package_id old
     ∧ cl_unit (alr_line r) = cl_unit old
     ∧ cl_confidence (alr_line r) = cl_confidence old
     ∧ cl_sku (alr_line r) = cl_sku old
     ∧ cl_product_id (alr_line r) = cl_product_id old
     ∧ cl_count_pass_id (alr_line r) = cl_count_pass_id old
     ∧ cl_counted_qty (alr_line r) = cl_counted_qty old + default 1 (al_counted_qty payload)
     ∧ cl_captured_at (alr_line r) = now
     ∧ cl_captured_by_user_id (alr_line r) = user_id
     ∧ (al_notes payload = None ∨ al_notes payload = Some "" →
        cl_notes (alr_line r) = cl_notes old)
     ∧ (cl_notes (alr_line r) ≠ cl_notes old →
        ∃ n, n ≠ "" ∧ cl_notes (alr_line r) = Some n
             ∧ Py.get_stripped (al_notes payload) "" = n))
  ∧ (∀ d0 u0 n0 i0 pl0 r0,
       add_line d0 u0 n0 i0 pass_id pl0 = Ok (d, r0) →
       alr_incremented r0 = false →
       cl_sku (alr_line r0) = cl_sku (alr_line r) →
       alr_line_id r = alr_line_id r0
       ∧ cl_barcode (alr_line r) = Some (Py.get_stripped (al_barcode pl0) "")).
Proof.
  intros Hadd Hinc. split.
  - apply add_line_Ok in Hadd
      as (cp & prod & _ & _ & _ & _ & _ & _ &
          [(lid & old & Hf & -> & ->)|(_ & _ & _ & ->)]); [|done].
    apply find_line_Some in Hf as (Hl & Hp & Hs). simpl.
    exists old. repeat (split; [done|]).
    split; [intros id Hne; by rewrite lookup_insert_ne|].
    repeat (split; [done|]). split.
    + intros Hn. by rewrite (request_notes_empty payload Hn).
    + unfold request_notes, Py.or_none.
      destruct (Py.truthy (Py.get_stripped (al_notes payload) "")) eqn:Ht;
        simpl; [|done].
      rewrite Ht. intros _. eexists. split; [|done].
      intros Hn. by rewrite Hn in Ht.
  - intros d0 u0 n0 i0 pl0 r0 H0 Hnew Hsku.
    destruct (add_line_then_same_sku _ _ _ _ _ _ _ _ _ _ _ _ _ _ H0 Hnew Hadd
                (eq_sym Hsku)) as (_ & Hid & _ & _ & Hb & _).
    done.
Qed.

(** C10 on the sample store: the alternate identifier "CA" scanned into
    the open pass, where "A" has a line. *)
Lemma C10_witness :
  (∃ old,
     lines Sample.data !! "l3" = Some old
     ∧ cl_count_pass_id old = "p3"
     ∧ cl_barcode old = Some "A"
     ∧ cl_package_id old = None
     ∧ cl_confidence old = "scanned")
  ∧ add_line Sample.data 7 Sample.now "n1" "p3" (Sample.scan "CA" (Some 4) (Some "  "))
    = Ok (set_lines Sample.data
            (<["l3" := increment_line (Sample.mk_line "p3" 100) 4 Sample.now 7 None]>
               (lines Sample.data)),
          {| alr_line_id := "l3";
             alr_line := increment_line (Sample.mk_line "p3" 100) 4 Sample.now 7 None;
             alr_incremented := true;
             alr_previous_qty := Some 100;
             alr_product := None |})
  ∧ cl_barcode (increment_line (Sample.mk_line "p3" 100) 4 Sample.now 7 None) = Some "A".
Proof.
  assert (add_line Sample.data 7 Sample.now "n1" "p3"
            (Sample.scan "CA" (Some 4) (Some "  "))
          = Ok (set_lines Sample.data
                  (<["l3" := increment_line (Sample.mk_line "p3" 100) 4 Sample.now 7 None]>
                     (lines Sample.data)),
                {| alr_line_id := "l3";
                   alr_line := increment_line (Sample.mk_line "p3" 100) 4 Sample.now 7 None;
                   alr_incremented := true;
                   alr_previous_qty := Some 100;
                   alr_product := None |})) as Hadd
    by (vm_compute; reflexivity).
  destruct (C10_increment_frame _ _ _ _ _ _ _ _ Hadd eq_refl)
    as [(old & Hold & Hp & _ & _ & Hb & Hpk & _ & Hc & _) _].
  simpl in *. split; [|split; [exact Hadd|reflexivity]].
  exists old. rewrite <- Hb, <- Hpk, <- Hc. done.
Defined.

(** *** Scope and lifecycle guards *)

Ltac bool_to_N :=
  repeat match goal with
  | H : _ = true |- _ =>
    first [apply orb_true_iff in H | apply andb_true_iff in H
          | apply negb_true_iff in H | apply N.leb_le in H | apply N.eqb_eq in H]
  | H : _ = false |- _ =>
    first [apply orb_false_iff in H | apply andb_false_iff in H
          | apply negb_false_iff in H | apply N.leb_gt in H | apply N.eqb_neq in H]
  | H : _ ∧ _ |- _ => destruct H
  | H : _ ∨ _ |- _ => destruct H
  end.

(** [lower] sends two characters to the same one exactly when they are
    the same letter. *)
Lemma lower_char_code c :
  Ascii.N_of_ascii (Py.lower_char c)
  = (let n := Ascii.N_of_ascii c in
     if ((65 <=? n) && (n <=? 90))
        || ((192 <=? n) && (n <=? 222) && negb (n =? 215))
     then n + 32 else n)%N.
Proof.
  unfold Py.lower_char. cbv zeta.
  pose proof (Ascii.N_ascii_bounded c) as Hb.
  destruct (_ || _)%N eqn:Hup; [|done].
  apply Ascii.N_ascii_embedding. bool_to_N; lia.
Qed.

Lemma lower_char_eq a b : Py.lower_char a = Py.lower_char b ↔ same_letter a b.
Proof.
  assert (∀ x y : ascii, x = y ↔ Ascii.N_of_ascii x = Ascii.N_of_ascii y) as Hinj.
  { intros x y. split; [by intros ->|]. intros Hxy.
    by rewrite <- (Ascii.ascii_N_embedding x), <- (Ascii.ascii_N_embedding y), Hxy. }
  unfold same_letter, capital_letter. rewrite !Hinj, !lower_char_code. cbv zeta.
  pose proof (Ascii.N_ascii_bounded a). pose proof (Ascii.N_ascii_bounded b).
  generalize dependent (Ascii.N_of_ascii a).
  generalize dependent (Ascii.N_of_ascii b). intros m Hm n Hn.
  destruct ((65 <=? n) && (n <=? 90)
            || (192 <=? n) && (n <=? 222) && negb (n =? 215))%N eqn:Hup1;
    destruct ((65 <=? m) && (m <=? 90)
              || (192 <=? m) && (m <=? 222) && negb (m =? 215))%N eqn:Hup2;
    bool_to_N; lia.
Qed.

Lemma lower_eq a s : Py.lower a = Py.lower s ↔ equal_ignoring_case a s.
Proof.
  revert s. induction a as [|c a IH]; intros [|c' s]; simpl; try done.
  rewrite <- IH, <- lower_char_eq. split; [by intros [= -> ->]|by intros [-> ->]].
Qed.

Lemma scope_conflict_Some scope actual s a :
  scope_conflict scope actual = Some (s, a) ↔ scope_differs scope actual s a.
Proof.
  unfold scope_conflict, scope_differs.
  destruct scope as [s'|], actual as [a'|]; try (split; [done|by intros (? & ? & _)]).
  rewrite <- lower_eq.
  destruct s' as [|c s'], a' as [|c' a']; simpl;
    try (split; [done|by intros (? & ? & ? & ? & _); simplify_eq]).
  case_bool_decide as Hd; split.
  - intros [= <- <-]. done.
  - intros (? & ? & _). by simplify_eq.
  - done.
  - intros (? & ? & _ & _ & ?). by simplify_eq.
Qed.

Lemma scope_conflict_None scope actual :
  scope_conflict scope actual = None ↔ scope_admits scope actual.
Proof.
  unfold scope_conflict, scope_admits.
  destruct scope as [s|], actual as [a|]; try done.
  rewrite <- lower_eq.
  destruct s as [|c s], a as [|c' a]; simpl; try (split; [auto|done]).
  case_bool_decide as Hd; split; try done.
  - intros [?|[?|?]]; first [done|by apply Hd].
  - intros _. right. right. first [exact Hd|by apply dec_stable].
Qed.

Lemma scope_conflict_absent scope actual :
  Py.otruthy actual = false → scope_conflict scope actual = None.
Proof.
  unfold scope_conflict. destruct scope as [s|], actual as [a|]; try done.
  simpl. intros ->. by rewrite andb_false_r.
Qed.

(** C7, as stated, fails: a product without a category is rejected by an
    open pass whose subcategory scope its subcategory does not match. *)
Lemma C7_counterexample :
  passes Sample.data !! "p3"
  = Some (Sample.mk_pass (DateTime 100 400) None PInProgress)
  ∧ find_product Sample.data "G" = Some Sample.gummy
  ∧ p_category Sample.gummy = None
  ∧ add_line Sample.data 7 Sample.now "n1" "p3" (Sample.scan "G" None None)
    = Err (ScopeMismatch "subcategory" "Dried Flower" "Gummies" "Gamma").
Proof. vm_compute. done. Qed.

(** C7, amended: in an open pass, a scan whose product has a category
    that is present and differs, case ignored, from the category scope of
    the pass fails with the category mismatch carrying the expected and
    the actual value; one whose subcategory is present and differs from
    the subcategory scope fails with a scope mismatch, the subcategory
    one unless the category check already rejected; in both cases the
    database is unchanged.  A scan is accepted when category and
    subcategory are each admitted by the scope: no scope, no value on the
    product, or the two equal when case is ignored.  A product without a
    category is never rejected by the category check, and is accepted
    when the subcategory is admitted. *)
Theorem C7_scope_enforced d user_id now new_id pass_id payload count_pass product :
  passes d !! pass_id = Some count_pass →
  cp_status count_pass = PInProgress →
  Py.truthy (request_barcode payload) = true →
  find_product d (request_barcode payload) = Some product →
  let call := add_line d user_id now new_id pass_id payload in
  (∀ scope cat,
     scope_differs (cp_category count_pass) (p_category product) scope cat →
     call = Err (ScopeMismatch "category" scope cat (p_name product))
     ∧ handle d (AddLine user_id now new_id pass_id payload) = d)
  ∧ (∀ scope sub,
       scope_differs (cp_subcategory count_pass) (p_subcategory product) scope sub →
       (∃ field expected got,
          call = Err (ScopeMismatch field expected got (p_name product)))
       ∧ (scope_admits (cp_category count_pass) (p_category product) →
          call = Err (ScopeMismatch "subcategory" scope sub (p_name product)))
       ∧ handle d (AddLine user_id now new_id pass_id payload) = d)
  ∧ (scope_admits (cp_category count_pass) (p_category product) →
     scope_admits (cp_subcategory count_pass) (p_subcategory product) →
     lines d !! new_id = None →
     ∃ d' r, call = Ok (d', r)
             ∧ cl_sku (alr_line r) = p_sku product
             ∧ lines d' !! alr_line_id r = Some (alr_line r))
  ∧ (Py.otruthy (p_category product) = false →
     (∀ expected got name, call ≠ Err (ScopeMismatch "category" expected got name))
     ∧ (scope_admits (cp_subcategory count_pass) (p_subcategory product) →
        lines d !! new_id = None →
        ∃ d' r, call = Ok (d', r))).
Proof.
  intros Hp Hst Hb Hprod call.
  assert (∀ e, call = Err e → handle d (AddLine user_id now new_id pass_id payload) = d)
    as Herr by (intros e He; simpl; fold call; by rewrite He).
  subst call. unfold add_line in *. rewrite Hp in *.
  rewrite decide_False in * by (by rewrite Hst; intros ?).
  rewrite Hb in *. simpl in *. rewrite Hprod in *.
  split; [|split; [|split]].
  - intros scope cat Hc%scope_conflict_Some. rewrite Hc in *. eauto.
  - intros scope sub Hsc%scope_conflict_Some.
    destruct (scope_conflict (cp_category count_pass) (p_category product))
      as [[e g]|] eqn:Hc.
    + split; [by eexists _, _, _|]. split; [|eauto].
      intros Hadm%scope_conflict_None. congruence.
    + rewrite Hsc in *. split; [by eexists _, _, _|]. split; [done|]. eauto.
  - intros Hc%scope_conflict_None Hsc%scope_conflict_None Hnew.
    rewrite Hc, Hsc, Hnew.
    destruct (find_line d pass_id (p_sku product)) as [[lid old]|] eqn:Hf.
    + eexists _, _. split; [done|]. simpl.
      apply find_line_Some in Hf as (_ & _ & Hsku).
      split; [done|]. by rewrite lookup_insert_eq.
    + eexists _, _. split; [done|]. simpl.
      split; [done|]. by rewrite lookup_insert_eq.
  - intros Hcat. rewrite (scope_conflict_absent _ _ Hcat) in *. split.
    + intros e g n.
      destruct (scope_conflict (cp_subcategory count_pass) (p_subcategory product))
        as [[? ?]|]; [done|].
      destruct (find_line d pass_id (p_sku product)) as [[? ?]|]; [done|].
      by destruct (lines d !! new_id).
    + intros Hsc%scope_conflict_None Hnew. rewrite Hsc, Hnew.
      destruct (find_line d pass_id (p_sku product)) as [[? ?]|]; by eexists _, _.
Qed.

(** C7 on the sample store: an "Edibles" product scanned into the open
    pass scoped to "Flower" and "Dried Flower" is refused, and the product
    filed under "FLOWER" and "dried flower" is accepted. *)
Lemma C7_witness :
  (add_line Sample.data 7 Sample.now "n1" "p3" (Sample.scan "B" None None)
   = Err (ScopeMismatch "category" "Flower" "Edibles" "Beta")
   ∧ handle Sample.data (AddLine 7 Sample.now "n1" "p3" (Sample.scan "B" None None))
     = Sample.data)
  ∧ ∃ d' r,
      add_line Sample.data 7 Sample.now "n1" "p3" (Sample.scan "K" None None)
      = Ok (d', r)
      ∧ cl_sku (alr_line r) = "K"
      ∧ lines d' !! alr_line_id r = Some (alr_line r).
Proof.
  split.
  - apply (C7_scope_enforced Sample.data 7 Sample.now "n1" "p3"
             (Sample.scan "B" None None)
             (Sample.mk_pass (DateTime 100 400) None PInProgress) Sample.edible);
      try (vm_compute; reflexivity).
    repeat (split; [done|]). rewrite <- lower_eq. vm_compute. discriminate.
  - apply (C7_scope_enforced Sample.data 7 Sample.now "n1" "p3"
             (Sample.scan "K" None None)
             (Sample.mk_pass (DateTime 100 400) None PInProgress) Sample.kush);
      try (vm_compute; reflexivity).
    + right. right. apply lower_eq. vm_compute. reflexivity.
    + right. right. apply lower_eq. vm_compute. reflexivity.
Defined.

(** Accents fold as letters do: "Édibles" and "éDIBLES", with U+00C9 and
    U+00E9, are equal when case is ignored, and the guard lets them pass. *)
Example scope_conflict_accents :
  let capital := String "201" "dibles" in
  let small := String "233" "DIBLES" in
  equal_ignoring_case small capital
  ∧ scope_conflict (Some capital) (Some small) = None
  ∧ scope_conflict (Some capital) (Some "Edibles") = Some (capital, "Edibles").
Proof.
  split; [apply lower_eq; vm_compute; reflexivity|].
  split; vm_compute; reflexivity.
Qed.

Lemma add_line_closed d user_id now new_id pass_id payload count_pass :
  passes d !! pass_id = Some count_pass →
  cp_status count_pass ≠ PInProgress →
  ∃ msg, add_line d user_id now new_id pass_id payload = Err (InvalidState msg).
Proof.
  intros Hp Hst. unfold add_line. rewrite Hp, decide_True by done. by eexists.
Qed.

Lemma update_line_closed d user_id now line_id payload line count_pass :
  lines d !! line_id = Some line →
  passes d !! cl_count_pass_id line = Some count_pass →
  cp_status count_pass ≠ PInProgress →
  ∃ msg, update_line d user_id now line_id payload = Err (InvalidState msg).
Proof.
  intros Hl Hp Hst. unfold update_line, owning_pass_status.
  rewrite Hl, Hp, decide_True by done. by eexists.
Qed.

Lemma delete_line_closed d line_id line count_pass :
  lines d !! line_id = Some line →
  passes d !! cl_count_pass_id line = Some count_pass →
  cp_status count_pass ≠ PInProgress →
  ∃ msg, delete_line d line_id = Err (InvalidState msg).
Proof.
  intros Hl Hp Hst. unfold delete_line, owning_pass_status.
  rewrite Hl, Hp, decide_True by done. by eexists.
Qed.

Lemma open_pass_counted d session_id pass_id count_pass :
  passes d !! pass_id = Some count_pass →
  cp_session_id count_pass = session_id →
  cp_status count_pass = PInProgress →
  (0 < length (passes_by d session_id PInProgress))%nat.
Proof.
  intros Hp Hs Hst.
  assert ((pass_id, count_pass) ∈ passes_by d session_id PInProgress) as Hin.
  { apply list_elem_of_filter. split; [done|]. by apply elem_of_map_to_list. }
  destruct (passes_by d session_id PInProgress); [by apply elem_of_nil in Hin|].
  simpl. lia.
Qed.

Lemma submit_session_blocked d session_id pass_id count_pass :
  passes d !! pass_id = Some count_pass →
  cp_session_id count_pass = session_id →
  cp_status count_pass = PInProgress →
  match sessions d !! session_id with
  | Some _ => ∃ msg, submit_session d session_id = Err (InvalidState msg)
  | None => submit_session d session_id = Err (NotFound "Session not found")
  end.
Proof.
  intros Hp Hs Hst. unfold submit_session.
  destruct (sessions d !! session_id); [|done].
  case_decide; [by eexists|].
  rewrite decide_True by (by eapply open_pass_counted). by eexists.
Qed.

Lemma submit_session_ready d session_id session :
  sessions d !! session_id = Some session →
  cs_status session = SInProgress →
  (∀ pass_id count_pass,
     passes d !! pass_id = Some count_pass →
     cp_session_id count_pass = session_id →
     cp_status count_pass = PSubmitted ∨ cp_status count_pass = PVoided) →
  submit_session d session_id
  = Ok (set_sessions d (<[session_id := with_session_status session SSubmitted]>
                          (sessions d)),
        with_session_status session SSubmitted).
Proof.
  intros Hs Hst Hall. unfold submit_session. rewrite Hs.
  rewrite decide_False by (by rewrite Hst; intros ?).
  destruct (passes_by d session_id PInProgress) as [|[pid p] ?] eqn:Hopen; [done|].
  exfalso.
  assert ((pid, p) ∈ passes_by d session_id PInProgress) as Hin
    by (rewrite Hopen; left).
  apply list_elem_of_filter in Hin as [[Hsess Hin_progress] Hin].
  apply elem_of_map_to_list in Hin. simpl in *.
  destruct (Hall pid p Hin Hsess); congruence.
Qed.

(** C8: [add_line], [update_line] and [delete_line] fail with
    [InvalidState] and change nothing when the owning pass is not
    [in_progress]; [submit_session] fails while a pass of the session is
    [in_progress], and succeeds on an [in_progress] session all of whose
    passes are submitted or voided. *)
Theorem C8_lifecycle_guards d :
  (∀ user_id now new_id pass_id payload count_pass,
     passes d !! pass_id = Some count_pass →
     cp_status count_pass ≠ PInProgress →
     (∃ msg, add_line d user_id now new_id pass_id payload = Err (InvalidState msg))
     ∧ handle d (AddLine user_id now new_id pass_id payload) = d)
  ∧ (∀ user_id now line_id payload line count_pass,
       lines d !! line_id = Some line →
       passes d !! cl_count_pass_id line = Some count_pass →
       cp_status count_pass ≠ PInProgress →
       (∃ msg, update_line d user_id now line_id payload = Err (InvalidState msg))
       ∧ handle d (UpdateLine user_id now line_id payload) = d)
  ∧ (∀ line_id line count_pass,
       lines d !! line_id = Some line →
       passes d !! cl_count_pass_id line = Some count_pass →
       cp_status count_pass ≠ PInProgress →
       (∃ msg, delete_line d line_id = Err (InvalidState msg))
       ∧ handle d (DeleteLine line_id) = d)
  ∧ (∀ session_id pass_id count_pass,
       passes d !! pass_id = Some count_pass →
       cp_session_id count_pass = session_id →
       cp_status count_pass = PInProgress →
       (∃ e, submit_session d session_id = Err e)
       ∧ (∀ session, sessions d !! session_id = Some session →
            ∃ msg, submit_session d session_id = Err (InvalidState msg))
       ∧ handle d (SubmitSession session_id) = d)
  ∧ (∀ session_id session,
       sessions d !! session_id = Some session →
       cs_status session = SInProgress →
       (∀ pass_id count_pass,
          passes d !! pass_id = Some count_pass →
          cp_session_id count_pass = session_id →
          cp_status count_pass = PSubmitted ∨ cp_status count_pass = PVoided) →
       submit_session d session_id
       = Ok (set_sessions d (<[session_id := with_session_status session SSubmitted]>
                               (sessions d)),
             with_session_status session SSubmitted)).
Proof.
  split; [|split; [|split; [|split]]].
  - intros user_id now new_id pass_id payload cp Hp Hst.
    destruct (add_line_closed d user_id now new_id pass_id payload cp Hp Hst)
      as [msg Hmsg].
    split; [by eexists|]. simpl. by rewrite Hmsg.
  - intros user_id now line_id payload line cp Hl Hp Hst.
    destruct (update_line_closed d user_id now line_id payload line cp Hl Hp Hst)
      as [msg Hmsg].
    split; [by eexists|]. simpl. by rewrite Hmsg.
  - intros line_id line cp Hl Hp Hst.
    destruct (delete_line_closed d line_id line cp Hl Hp Hst) as [msg Hmsg].
    split; [by eexists|]. simpl. by rewrite Hmsg.
  - intros session_id pass_id cp Hp Hs Hst.
    pose proof (submit_session_blocked d session_id pass_id cp Hp Hs Hst) as Hb.
    destruct (sessions d !! session_id) as [session|] eqn:Hsess.
    + destruct Hb as [msg Hmsg].
      split; [by eexists|]. split; [intros ? _; by eexists|].
      simpl. by rewrite Hmsg.
    + split; [by eexists|]. split; [done|]. simpl. by rewrite Hb.
  - apply submit_session_ready.
Qed.

(** C8 on the sample store: pass "p1" is submitted, "p4" voided, "p3"
    open; [Sample.unstamped] has no open pass. *)
Lemma C8_witness :
  ((∃ msg, add_line Sample.data 7 Sample.now "n1" "p1" (Sample.scan "A" None None)
           = Err (InvalidState msg))
   ∧ handle Sample.data (AddLine 7 Sample.now "n1" "p1" (Sample.scan "A" None None))
     = Sample.data)
  ∧ ((∃ msg, update_line Sample.data 7 Sample.now "l1"
               {| ul_counted_qty := Some 9; ul_notes := None |}
             = Err (InvalidState msg))
     ∧ handle Sample.data
         (UpdateLine 7 Sample.now "l1" {| ul_counted_qty := Some 9; ul_notes := None |})
       = Sample.data)
  ∧ ((∃ msg, delete_line Sample.data "l4" = Err (InvalidState msg))
     ∧ handle Sample.data (DeleteLine "l4") = Sample.data)
  ∧ ((∃ e, submit_session Sample.data "s1" = Err e)
     ∧ (∀ session, sessions Sample.data !! "s1" = Some session →
          ∃ msg, submit_session Sample.data "s1" = Err (InvalidState msg))
     ∧ handle Sample.data (SubmitSession "s1") = Sample.data)
  ∧ submit_session Sample.unstamped "s1"
    = Ok (set_sessions Sample.unstamped
            (<["s1" := with_session_status Sample.session SSubmitted]>
               (sessions Sample.unstamped)),
          with_session_status Sample.session SSubmitted).
Proof.
  destruct (C8_lifecycle_guards Sample.data) as (Hadd & Hupd & Hdel & Hsub & _).
  destruct (C8_lifecycle_guards Sample.unstamped) as (_ & _ & _ & _ & Hready).
  split; [|split; [|split; [|split]]].
  - apply (Hadd 7 Sample.now "n1" "p1" (Sample.scan "A" None None)
             (Sample.mk_pass (DateTime 100 0) (Some (DateTime 100 50)) PSubmitted));
      [vm_compute; reflexivity|discriminate].
  - apply (Hupd 7 Sample.now "l1" {| ul_counted_qty := Some 9; ul_notes := None |}
             (Sample.mk_line "p1" 5)
             (Sample.mk_pass (DateTime 100 0) (Some (DateTime 100 50)) PSubmitted));
      [vm_compute; reflexivity|vm_compute; reflexivity|discriminate].
  - apply (Hdel "l4" (Sample.mk_line "p4" 1000)
             (Sample.mk_pass (DateTime 100 500) None PVoided));
      [vm_compute; reflexivity|vm_compute; reflexivity|discriminate].
  - apply (Hsub "s1" "p3" (Sample.mk_pass (DateTime 100 400) None PInProgress));
      [vm_compute; reflexivity|reflexivity|reflexivity].
  - apply (Hready "s1" Sample.session); [vm_compute; reflexivity|reflexivity|].
    intros pass_id cp Hp _. simpl in Hp.
    apply lookup_singleton_Some in Hp as [_ <-]. by left.
Defined.

(** ** Sales sync *)

Lemma find_movement_is_Some ms store_id sku ref :
  is_Some (find_movement ms store_id sku ref) ↔
  ∃ m, m ∈ ms ∧ movement_key m = (store_id, sku, ref).
Proof.
  unfold find_movement, movement_key. rewrite head_is_Some. split.
  - intros Hne.
    destruct (filter _ ms) as [|m l] eqn:Hf; [done|].
    assert (m ∈ filter (λ m, mv_store_id m = store_id ∧ mv_sku m = sku
                             ∧ mv_source_ref m = ref) ms) as Hin
      by (rewrite Hf; left).
    apply list_elem_of_filter in Hin as [(? & ? & ?) Hin].
    exists m. split; [done|]. congruence.
  - intros (m & Hin & [= <- <- <-]) Hnil.
    assert (m ∈ filter (λ m', mv_store_id m' = mv_store_id m ∧ mv_sku m' = mv_sku m
                              ∧ mv_source_ref m' = mv_source_ref m) ms) as Hf
      by (by apply list_elem_of_filter).
    rewrite Hnil in Hf. by apply elem_of_nil in Hf.
Qed.

(** What a movement built from a sale looks like. *)
Lemma sale_to_movement_Some d sale store_id m :
  sale_to_movement d sale store_id = Ok (Some m) →
  mv_store_id m = store_id
  ∧ mv_source m = "cova_sync"
  ∧ mv_source_ref m
    = Some (sale_transaction_id sale +:+ ":" +:+ pretty (sale_line_number sale))
  ∧ dt_date (mv_occurred_at m) = sale_transaction_date sale
  ∧ (∃ q, sale_quantity sale = Some q ∧ mv_qty_delta m = - Z.abs q)
  ∧ sale_product_sku sale = Some (mv_sku m).
Proof.
  unfold sale_to_movement. intros Hm.
  destruct (sale_product_sku sale) as [sku|]; [|done].
  destruct (Py.truthy sku); [|done]. simpl in Hm.
  destruct (find_product d sku); [|done].
  destruct (sale_quantity sale) as [q|]; [|done].
  injection Hm as <-. simpl. repeat (split; [done|]). split; [by exists q|done].
Qed.

Lemma candidates_elem_of d store_id sales m :
  m ∈ candidates d store_id sales ↔
  ∃ sale, sale ∈ sales ∧ sale_to_movement d sale store_id = Ok (Some m).
Proof.
  unfold candidates. rewrite list_elem_of_omap. split.
  - intros (sale & Hin & Hm). exists sale. split; [done|].
    destruct (sale_to_movement d sale store_id) as [[m'|]|]; by simplify_eq.
  - intros (sale & Hin & Hm). exists sale. by rewrite Hm.
Qed.

Lemma sales_query_elem_of d from_date to_date ids sale :
  sale ∈ sales_query d from_date to_date ids →
  from_date ≤ sale_transaction_date sale ≤ to_date
  ∧ sale_cova_store_id sale ∈ ids ∧ sale ∈ cova_sales d.
Proof.
  unfold sales_query. rewrite stable_sort_elem_of, list_elem_of_filter. tauto.
Qed.

Section sync_loop.
Context (d : db) (store_id : Z).

Local Abbreviation run force := (foldl (sync_step d store_id force)).

Lemma sync_step_cons force acc sale sales :
  run force acc (sale :: sales) = run force (sync_step d store_id force acc sale) sales.
Proof. done. Qed.

(** The forced loop inserts every candidate. *)
Lemma sync_force_all sales ms stats :
  (run true (ms, stats) sales).1 = ms ++ candidates d store_id sales
  ∧ st_movements_created (run true (ms, stats) sales).2
    = (st_movements_created stats + length (candidates d store_id sales))%nat.
Proof.
  revert ms stats. induction sales as [|sale sales IH]; intros ms stats.
  - simpl. rewrite app_nil_r. split; [done|lia].
  - rewrite sync_step_cons. unfold sync_step at 2 4, candidates. csimpl.
    fold (candidates d store_id sales).
    destruct (sale_to_movement d sale store_id) as [[m|]|e]; simpl.
    + rewrite andb_false_r.
      destruct (IH (ms ++ [m]) (stats_created stats)) as [-> ->].
      simpl. rewrite <- app_assoc. split; [done|lia].
    + match goal with
      | |- context [foldl _ (ms, ?st) sales] =>
        by destruct (IH ms st) as [-> ->]
      end.
    + by destruct (IH ms (stats_error stats e)) as [-> ->].
Qed.

(** Movements that are already there are skipped. *)
Lemma sync_noforce_skips sales ms stats :
  (∀ m, m ∈ candidates d store_id sales →
        is_Some (find_movement ms store_id (mv_sku m) (mv_source_ref m))) →
  (run false (ms, stats) sales).1 = ms
  ∧ st_movements_created (run false (ms, stats) sales).2
    = st_movements_created stats.
Proof.
  revert stats. induction sales as [|sale sales IH]; intros stats Hall; [done|].
  rewrite sync_step_cons. unfold sync_step at 2 4.
  assert (∀ m, m ∈ candidates d store_id sales →
               is_Some (find_movement ms store_id (mv_sku m) (mv_source_ref m)))
    as Hrest.
  { intros m (s & Hs & Hm)%candidates_elem_of. apply Hall, candidates_elem_of.
    exists s. split; [by right|done]. }
  destruct (sale_to_movement d sale store_id) as [[m|]|e] eqn:Hm; simpl.
  - rewrite bool_decide_eq_true_2; simpl.
    + by destruct (IH (stats_skipped stats (st_products_not_found stats)) Hrest)
        as [-> ->].
    + apply Hall, candidates_elem_of. exists sale. split; [left|done].
  - match goal with
    | |- context [foldl _ (ms, ?st) sales] =>
      by destruct (IH st Hrest) as [-> ->]
    end.
  - by destruct (IH (stats_error stats e) Hrest) as [-> ->].
Qed.

(** After the loop every candidate has a movement with its key, and
    the loop only appends. *)
Lemma sync_noforce_covers sales ms stats :
  (∃ added, (run false (ms, stats) sales).1 = ms ++ added)
  ∧ ∀ m, m ∈ candidates d store_id sales →
         is_Some (find_movement (run false (ms, stats) sales).1 store_id
                    (mv_sku m) (mv_source_ref m)).
Proof.
  revert ms stats. induction sales as [|sale sales IH]; intros ms stats.
  - split; [exists []; by rewrite app_nil_r|]. by intros m ?%elem_of_nil.
  - rewrite sync_step_cons.
    destruct (sync_step d store_id false (ms, stats) sale) as [ms' stats'] eqn:Hstep.
    destruct (IH ms' stats') as [[added Hadded] Hcov].
    assert ((ms' = ms ∨ ∃ m, ms' = ms ++ [m])
            ∧ ∀ m, sale_to_movement d sale store_id = Ok (Some m) →
                   ∃ m', m' ∈ ms' ∧ movement_key m' = movement_key m)
      as [Hms' Hsale].
    { unfold sync_step in Hstep.
      destruct (sale_to_movement d sale store_id) as [[m|]|e] eqn:Hm;
        simpl in Hstep.
      - rewrite andb_true_r in Hstep. case_bool_decide as Hex.
        + injection Hstep as <- <-. split; [by left|].
          intros ? [= <-].
          apply find_movement_is_Some in Hex as (m' & ? & Hk).
          exists m'. split; [done|]. rewrite Hk. 
          apply sale_to_movement_Some in Hm as (<- & _). done.
        + injection Hstep as <- <-. split; [right; by eexists|].
          intros ? [= <-]. exists m. split; [|done].
          apply elem_of_app. right. left.
      - injection Hstep as <- <-. split; [by left|done].
      - injection Hstep as <- <-. split; [by left|done]. }
    split.
    + destruct Hms' as [->|[m ->]]; [by eexists|].
      exists (m :: added). rewrite Hadded. by rewrite <- app_assoc.
    + intros m (s & Hs & Hm)%candidates_elem_of.
      apply elem_of_cons in Hs as [->|Hs].
      * destruct (Hsale m Hm) as (m' & Hin & Hk).
        apply find_movement_is_Some. exists m'. split.
        -- rewrite Hadded. apply elem_of_app. by left.
        -- rewrite Hk. apply sale_to_movement_Some in Hm as (<- & _). done.
      * apply Hcov, candidates_elem_of. by exists s.
Qed.

(** Without duplicate keys and without clashes with the ledger, the
    plain loop inserts every candidate too. *)
Lemma sync_noforce_fresh sales ms stats :
  NoDup (movement_key <$> candidates d store_id sales) →
  (∀ m, m ∈ ms → movement_key m ∉ movement_key <$> candidates d store_id sales) →
  (run false (ms, stats) sales).1 = ms ++ candidates d store_id sales
  ∧ st_movements_created (run false (ms, stats) sales).2
    = (st_movements_created stats + length (candidates d store_id sales))%nat.
Proof.
  revert ms stats. induction sales as [|sale sales IH]; intros ms stats Hnd Hfresh.
  - simpl. rewrite app_nil_r. split; [done|lia].
  - rewrite sync_step_cons. unfold sync_step at 2 4.
    unfold candidates in Hnd, Hfresh |- *. csimpl in *.
    fold (candidates d store_id sales) in *.
    destruct (sale_to_movement d sale store_id) as [[m|]|e] eqn:Hm; simpl in *.
    + apply NoDup_cons in Hnd as [Hm_notin Hnd].
      rewrite bool_decide_eq_false_2; simpl.
      * destruct (IH (ms ++ [m]) (stats_created stats)) as [-> ->]; [done| |].
        -- intros m' [Hin|Hin%list_elem_of_singleton]%elem_of_app Hk.
           ++ apply (Hfresh m' Hin). by right.
           ++ subst m'. done.
        -- simpl. rewrite <- app_assoc. split; [done|lia].
      * intros (m' & Hin & Hk)%find_movement_is_Some.
        apply (Hfresh m' Hin). rewrite Hk.
        apply sale_to_movement_Some in Hm as (<- & _). left.
    + match goal with
      | |- context [foldl _ (ms, ?st) sales] =>
        by destruct (IH ms st Hnd Hfresh) as [-> ->]
      end.
    + by destruct (IH ms (stats_error stats e) Hnd Hfresh) as [-> ->].
Qed.
End sync_loop.

(** Every candidate of the batch lies in the range a forced re-sync
    deletes. *)
Lemma candidates_deletable d store_id from_date to_date ids m :
  m ∈ candidates d store_id (sales_query d from_date to_date ids) →
  resync_deletes store_id from_date to_date m.
Proof.
  intros (sale & Hin & Hm)%candidates_elem_of.
  apply sales_query_elem_of in Hin as (Hrange & _).
  apply sale_to_movement_Some in Hm as (Hs & Hsrc & _ & Hdate & _).
  unfold resync_deletes. by rewrite Hs, Hsrc, Hdate.
Qed.

(** C4, as stated, fails: when the feed lists the sale line T1:1 twice,
    the plain sync of an unsynced ledger creates one movement and the
    forced re-sync that follows leaves two. *)
Lemma C4_counterexample :
  let first := sync_sales_to_movements Sample.duplicated 101 1 (Some 100) (Some 100) false in
  let forced := sync_sales_to_movements first.1 101 1 (Some 100) (Some 100) true in
  st_movements_created first.2 = 1%nat
  ∧ length (movements first.1) = 4%nat
  ∧ st_movements_deleted forced.2 = Some 1%nat
  ∧ st_movements_created forced.2 = 2%nat
  ∧ length (movements forced.1) = 5%nat
  ∧ ¬ (movements forced.1 ≡ₚ movements first.1).
Proof.
  repeat (split; [vm_compute; reflexivity|]).
  intros Hp%Permutation_length. vm_compute in Hp. discriminate.
Qed.

Lemma filter_none {A} (P : A → Prop) `{∀ x, Decision (P x)} (l : list A) :
  (∀ x, x ∈ l → ¬ P x) → filter P l = [].
Proof.
  induction l as [|x l IH]; intros Hl; [done|].
  rewrite filter_cons, decide_False by (apply Hl; left).
  apply IH. intros y Hy. apply Hl. by right.
Qed.

Lemma filter_all {A} (P : A → Prop) `{∀ x, Decision (P x)} (l : list A) :
  (∀ x, x ∈ l → P x) → filter P l = l.
Proof.
  induction l as [|x l IH]; intros Hl; [done|].
  rewrite filter_cons, decide_True by (apply Hl; left).
  f_equal. apply IH. intros y Hy. apply Hl. by right.
Qed.

(** The loop leaves the count of deleted rows alone. *)
Lemma sync_loop_deleted d store_id force sales acc :
  st_movements_deleted (foldl (sync_step d store_id force) acc sales).2
  = st_movements_deleted acc.2.
Proof.
  revert acc. induction sales as [|sale sales IH]; intros acc; [done|].
  simpl. rewrite IH. unfold sync_step.
  destruct (sale_to_movement d sale store_id) as [[m|]|e]; simpl; [|done..].
  by destruct (_ && _).
Qed.

(** The sync as a function of the ledger: the rows kept, then the loop. *)
Lemma sync_movements d today store_id from_date to_date (force : bool) :
  let lo := default (today - 1) from_date in
  let hi := default today to_date in
  let sales := sales_query d lo hi (get_cova_store_ids store_id) in
  let kept := if force
              then filter (λ m, ¬ resync_deletes store_id lo hi m) (movements d)
              else movements d in
  ∃ stats,
    st_movements_created stats = 0%nat
    ∧ st_movements_deleted stats
      = (if force
         then Some (length (filter (resync_deletes store_id lo hi) (movements d)))
         else None)
    ∧ sync_sales_to_movements d today store_id from_date to_date force
      = (set_movements d (foldl (sync_step d store_id force) (kept, stats) sales).1,
         (foldl (sync_step d store_id force) (kept, stats) sales).2).
Proof. intros lo hi sales kept. eexists. split; [|split]; [| |reflexivity]; done. Qed.

(** C4, amended: a sync without [force_resync] that follows any sync of
    the same sales creates no movement and leaves the ledger as it is,
    because a candidate whose (store, sku, source_ref) exists is skipped,
    [source_ref] being the transaction id, a colon and the line number.
    A forced sync deletes the movements of the store, date range and
    source "cova_sync" and then inserts one movement per resolvable sale
    row, without looking for an existing key.  It leaves the ledger of the
    plain sync when no two resolvable sale rows share (sku, source_ref)
    and the ledger held neither such a key nor a synced movement of the
    range before. *)
Theorem C4_sync_dedup d today store_id from_date to_date :
  let sync force d0 := sync_sales_to_movements d0 today store_id from_date to_date force in
  let lo := default (today - 1) from_date in
  let hi := default today to_date in
  let cands :=
    candidates d store_id (sales_query d lo hi (get_cova_store_ids store_id)) in
  (∀ force,
     st_movements_created (sync false (sync force d).1).2 = 0%nat
     ∧ (sync false (sync force d).1).1 = (sync force d).1)
  ∧ (∀ ms stats sale m,
       sale_to_movement d sale store_id = Ok (Some m) →
       mv_source_ref m
       = Some (sale_transaction_id sale +:+ ":" +:+ pretty (sale_line_number sale))
       ∧ ((∃ m', m' ∈ ms ∧ movement_key m' = movement_key m) →
          sync_step d store_id false (ms, stats) sale
          = (ms, stats_skipped stats (st_products_not_found stats))))
  ∧ (movements (sync true d).1
     = filter (λ m, ¬ resync_deletes store_id lo hi m) (movements d) ++ cands
     ∧ st_movements_deleted (sync true d).2
       = Some (length (filter (resync_deletes store_id lo hi) (movements d)))
     ∧ st_movements_created (sync true d).2 = length cands)
  ∧ (NoDup (movement_key <$> cands) →
     (∀ m, m ∈ movements d →
           ¬ resync_deletes store_id lo hi m
           ∧ movement_key m ∉ movement_key <$> cands) →
     movements (sync false d).1 = movements d ++ cands
     ∧ movements (sync true (sync false d).1).1 = movements (sync false d).1).
Proof.
  intros sync lo hi cands. subst sync. cbn beta.
  assert (∀ (force : bool) d0, ∃ stats,
            st_movements_created stats = 0%nat
            ∧ st_movements_deleted stats
              = (if force
                 then Some (length (filter (resync_deletes store_id lo hi) (movements d0)))
                 else None)
            ∧ sync_sales_to_movements d0 today store_id from_date to_date force
              = (set_movements d0
                   (foldl (sync_step d0 store_id force)
                      (if force
                       then filter (λ m, ¬ resync_deletes store_id lo hi m) (movements d0)
                       else movements d0, stats)
                      (sales_query d0 lo hi (get_cova_store_ids store_id))).1,
                 (foldl (sync_step d0 store_id force)
                    (if force
                     then filter (λ m, ¬ resync_deletes store_id lo hi m) (movements d0)
                     else movements d0, stats)
                    (sales_query d0 lo hi (get_cova_store_ids store_id))).2))
    as Hsync by (intros; apply sync_movements).
  assert (∀ m, m ∈ cands → resync_deletes store_id lo hi m) as Hdel
    by (intros m; apply candidates_deletable).
  split; [|split; [|split]].
  - intros force.
    destruct (Hsync force d) as (st1 & _ & _ & E1). rewrite E1. cbn [fst snd].
    set (ms1 := (foldl _ _ _).1).
    destruct (Hsync false (set_movements d ms1)) as (st2 & Hc2 & _ & E2).
    rewrite E2. cbn [fst snd].
    change (sales_query (set_movements d ms1) lo hi (get_cova_store_ids store_id))
      with (sales_query d lo hi (get_cova_store_ids store_id)).
    change (sync_step (set_movements d ms1)) with (sync_step d).
    change (movements (set_movements d ms1)) with ms1.
    destruct (sync_noforce_skips d store_id
                (sales_query d lo hi (get_cova_store_ids store_id)) ms1 st2)
      as [-> ->]; [|done].
    intros m Hm. subst ms1. destruct force.
    + destruct (sync_force_all d store_id
                  (sales_query d lo hi (get_cova_store_ids store_id))
                  (filter (λ m, ¬ resync_deletes store_id lo hi m) (movements d)) st1)
        as [-> _].
      apply find_movement_is_Some. exists m. split.
      * apply elem_of_app. by right.
      * unfold movement_key. by destruct (Hdel m Hm) as [-> _].
    + by apply sync_noforce_covers.
  - intros ms stats sale m Hm.
    pose proof (sale_to_movement_Some _ _ _ _ Hm) as (Hstore & _ & Href & _).
    split; [done|]. intros (m' & Hin & Hk).
    unfold sync_step. rewrite Hm. simpl.
    rewrite bool_decide_eq_true_2; [done|].
    apply find_movement_is_Some. exists m'. split; [done|].
    rewrite Hk. unfold movement_key. by rewrite Hstore.
  - destruct (Hsync true d) as (st1 & Hc1 & Hd1 & E1). rewrite E1. cbn [fst snd].
    destruct (sync_force_all d store_id
                (sales_query d lo hi (get_cova_store_ids store_id))
                (filter (λ m, ¬ resync_deletes store_id lo hi m) (movements d)) st1)
      as [-> ->].
    rewrite Hc1, sync_loop_deleted. done.
  - intros Hnd Hfresh.
    destruct (Hsync false d) as (st1 & _ & _ & E1). rewrite E1. cbn [fst snd].
    destruct (sync_noforce_fresh d store_id
                (sales_query d lo hi (get_cova_store_ids store_id))
                (movements d) st1 Hnd) as [E _].
    { intros m Hm. by apply Hfresh. }
    rewrite E. fold cands. split; [done|].
    destruct (Hsync true (set_movements d (movements d ++ cands)))
      as (st2 & _ & _ & E2).
    rewrite E2. cbn [fst snd].
    change (sales_query (set_movements d (movements d ++ cands)) lo hi
              (get_cova_store_ids store_id))
      with (sales_query d lo hi (get_cova_store_ids store_id)).
    change (sync_step (set_movements d (movements d ++ cands))) with (sync_step d).
    change (movements (set_movements d (movements d ++ cands)))
      with (movements d ++ cands).
    destruct (sync_force_all d store_id
                (sales_query d lo hi (get_cova_store_ids store_id))
                (filter (λ m, ¬ resync_deletes store_id lo hi m)
                        (movements d ++ cands)) st2)
      as [-> _].
    fold cands. f_equal.
    rewrite filter_app.
    rewrite (filter_none _ cands) by (intros m Hm Hn; by apply Hn, Hdel).
    rewrite app_nil_r. cbn [movements set_movements]. f_equal.
    apply filter_all. intros m Hm. by apply Hfresh.
Qed.

(** C4 on the sample store, whose feed has two distinct sale lines. *)
Lemma C4_witness :
  let d := Sample.data in
  let sync force d0 := sync_sales_to_movements d0 101 1 (Some 100) (Some 100) force in
  let cands := candidates d 1 (sales_query d 100 100 (get_cova_store_ids 1)) in
  length cands = 2%nat
  ∧ movements (sync false d).1 = movements d ++ cands
  ∧ movements (sync true (sync false d).1).1 = movements (sync false d).1
  ∧ st_movements_created (sync false (sync false d).1).2 = 0%nat.
Proof.
  intros d sync cands.
  destruct (C4_sync_dedup Sample.data 101 1 (Some 100) (Some 100))
    as (Hsecond & _ & _ & Hsame).
  split; [vm_compute; reflexivity|].
  destruct Hsame as [H1 H2].
  - vm_compute. repeat constructor; intros Hin;
      repeat (apply elem_of_cons in Hin as [Hin|Hin]; [discriminate Hin|]);
      by apply elem_of_nil in Hin.
  - intros m Hm. vm_compute in Hm.
    repeat (apply elem_of_cons in Hm as [->|Hm];
            [split;
             [intros (_ & _ & Hsrc); discriminate Hsrc
             |vm_compute; intros Hin;
              repeat (apply elem_of_cons in Hin as [Hin|Hin]; [discriminate Hin|]);
              by apply elem_of_nil in Hin]|]).
    by apply elem_of_nil in Hm.
  - split; [exact H1|]. split; [exact H2|]. apply (Hsecond false).
Defined.

(** ** What a request does to the tables *)

(** Only [submit_pass], [void_pass] and [create_pass] write passes. *)
Lemma handle_passes d r :
  (∀ u n p, r ≠ SubmitPass u n p) → (∀ p, r ≠ VoidPass p) →
  (∀ u n i s pl, r ≠ CreatePass u n i s pl) →
  passes (handle d r) = passes d.
Proof.
  intros Hs Hv Hc.
  destruct r; simpl;
    try (exfalso; by eapply Hs); try (exfalso; by eapply Hv);
    try (exfalso; by eapply Hc); try done.
  - unfold create_location.
    destruct (clp_store_id payload); [|done].
    destruct (negb _); [done|]. by destruct (filter _ _).
  - unfold create_session.
    destruct (csp_store_id payload); [|done].
    repeat (case_decide; [done|]). by destruct (sessions d !! new_id).
  - unfold start_session.
    destruct (sessions d !! session_id); [|done]. by case_decide.
  - unfold submit_session.
    destruct (sessions d !! session_id); [|done].
    case_decide; [done|]. by case_decide.
  - by destruct (add_line d user_id now new_id pass_id payload) as [[? ?]|] eqn:Ha;
      [apply add_line_Ok in Ha
         as (? & ? & _ & _ & _ & _ & _ & _ & [(? & ? & _ & -> & _)|(_ & _ & -> & _)])|].
  - unfold update_line.
    destruct (lines d !! line_id) as [l|]; [|done].
    destruct (owning_pass_status d l); [|done]. by case_decide.
  - unfold delete_line.
    destruct (lines d !! line_id) as [l|]; [|done].
    destruct (owning_pass_status d l); [|done]. by case_decide.
Qed.

(** What becomes of a pass that exists. *)
Lemma handle_pass_old d r id p :
  passes d !! id = Some p →
  ∃ p', passes (handle d r) !! id = Some p'
        ∧ (p' = p
           ∨ (cp_status p = PInProgress
              ∧ ∃ now user_id, r = SubmitPass user_id now id
                  ∧ p' = with_pass_status p PSubmitted (Some now) (Some user_id))
           ∨ (cp_status p ≠ PVoided ∧ r = VoidPass id
              ∧ p' = with_pass_status p PVoided (cp_submitted_at p)
                       (cp_submitted_by_user_id p))).
Proof.
  intros Hp.
  destruct r;
    try (exists p; split; [|by left]; rewrite handle_passes; done).
  - (* create_pass *)
    exists p. split; [|by left]. simpl. unfold create_pass.
    destruct (sessions d !! session_id); [|done].
    case_decide; [done|].
    destruct (cpp_location_id payload); [|done].
    case_decide; [done|].
    destruct (locations d !! _); [|done].
    case_decide; [done|].
    destruct (passes d !! new_id) eqn:Hn; [done|]. simpl.
    rewrite lookup_insert_ne; [done|]. intros ->. congruence.
  - (* submit_pass *)
    simpl. unfold submit_pass.
    destruct (passes d !! pass_id) as [q|] eqn:Hq; [|exists p; split; [simpl; done|by left]].
    case_decide as Hst; [exists p; split; [simpl; done|by left]|]. simpl.
    destruct (decide (pass_id = id)) as [->|Hne].
    + rewrite lookup_insert_eq. simplify_eq. eexists. split; [done|].
      right. left. split; [done|]. by eexists _, _.
    + rewrite lookup_insert_ne by done. exists p. split; [done|by left].
  - (* void_pass *)
    simpl. unfold void_pass.
    destruct (passes d !! pass_id) as [q|] eqn:Hq; [|exists p; split; [simpl; done|by left]].
    case_decide as Hst; [exists p; split; [simpl; done|by left]|]. simpl.
    destruct (decide (pass_id = id)) as [->|Hne].
    + rewrite lookup_insert_eq. simplify_eq. eexists. split; [done|].
      right. right. done.
    + rewrite lookup_insert_ne by done. exists p. split; [done|by left].
Qed.

(** A pass that appears was opened by [create_pass], in a session that is
    in progress afterwards. *)
Lemma handle_pass_new d r id p' :
  passes d !! id = None → passes (handle d r) !! id = Some p' →
  cp_status p' = PInProgress ∧ cp_submitted_at p' = None
  ∧ ∃ s' location,
      sessions (handle d r) !! cp_session_id p' = Some s'
      ∧ cs_status s' = SInProgress
      ∧ locations d !! cp_location_id p' = Some location
      ∧ loc_store_id location = cs_store_id s'.
Proof.
  intros Hnone Hp'.
  destruct r;
    try (rewrite handle_passes in Hp' by done; congruence).
  - simpl in *. unfold create_pass in *.
    destruct (sessions d !! session_id) as [s|] eqn:Hs; [|simpl in *; congruence].
    case_decide as Hst; [simpl in *; congruence|].
    destruct (cpp_location_id payload) as [loc_id|]; [|simpl in *; congruence].
    case_decide; [simpl in *; congruence|].
    destruct (locations d !! loc_id) as [location|] eqn:Hloc; [|simpl in *; congruence].
    case_decide as Hstore; [simpl in *; congruence|].
    destruct (passes d !! new_id) eqn:Hn; [simpl in *; congruence|]. simpl in *.
    destruct (decide (new_id = id)) as [->|Hne];
      [|rewrite lookup_insert_ne in Hp' by done; congruence].
    rewrite lookup_insert_eq in Hp'. injection Hp' as <-. simpl.
    split; [done|]. split; [done|].
    rewrite lookup_insert_eq. eexists _, location. split; [done|].
    case_decide as Hd; simpl; [done|].
    split; [|done].
    destruct (cs_status s); try done; exfalso; apply Hst; done.
  - simpl in *. unfold submit_pass in *.
    destruct (passes d !! pass_id) as [q|] eqn:Hq; [|simpl in *; congruence].
    case_decide; simpl in *; [congruence|].
    destruct (decide (pass_id = id)) as [->|Hne]; [congruence|].
    rewrite lookup_insert_ne in Hp' by done. congruence.
  - simpl in *. unfold void_pass in *.
    destruct (passes d !! pass_id) as [q|] eqn:Hq; [|simpl in *; congruence].
    case_decide; simpl in *; [congruence|].
    destruct (decide (pass_id = id)) as [->|Hne]; [congruence|].
    rewrite lookup_insert_ne in Hp' by done. congruence.
Qed.

(** Only [create_session], [start_session], [submit_session] and
    [create_pass] write sessions. *)
Lemma handle_session_old d r id s :
  sessions d !! id = Some s →
  ∃ s', sessions (handle d r) !! id = Some s'
        ∧ (s' = s
           ∨ (cs_status s = SDraft ∧ s' = with_session_status s SInProgress)
           ∨ (cs_status s = SInProgress ∧ r = SubmitSession id
              ∧ passes_by d id PInProgress = []
              ∧ s' = with_session_status s SSubmitted)).
Proof.
  intros Hs. destruct r; simpl.
  - exists s. split; [|by left]. unfold create_location.
    destruct (clp_store_id payload); [|done].
    destruct (negb _); [done|]. by destruct (filter _ _).
  - exists s. split; [|by left]. unfold create_session.
    destruct (csp_store_id payload); [|done].
    repeat (case_decide; [done|]).
    destruct (sessions d !! new_id) eqn:Hn; [done|]. simpl.
    rewrite lookup_insert_ne; [done|]. intros ->. congruence.
  - unfold start_session.
    destruct (sessions d !! session_id) as [q|] eqn:Hq; [|exists s; split; [done|by left]].
    case_decide as Hst; [exists s; split; [done|by left]|]. simpl.
    destruct (decide (session_id = id)) as [->|Hne].
    + rewrite lookup_insert_eq. simplify_eq. eexists. split; [done|].
      right. left. done.
    + rewrite lookup_insert_ne by done. exists s. split; [done|by left].
  - unfold submit_session.
    destruct (sessions d !! session_id) as [q|] eqn:Hq; [|exists s; split; [done|by left]].
    case_decide as Hst; [exists s; split; [done|by left]|].
    case_decide as Hopen; [exists s; split; [done|by left]|]. simpl.
    destruct (decide (session_id = id)) as [->|Hne].
    + rewrite lookup_insert_eq. simplify_eq. eexists. split; [done|].
      right. right. repeat (split; [done|]). split; [|done].
      destruct (passes_by d id PInProgress); [done|]. simpl in Hopen. lia.
    + rewrite lookup_insert_ne by done. exists s. split; [done|by left].
  - unfold create_pass.
    destruct (sessions d !! session_id) as [q|] eqn:Hq; [|exists s; split; [done|by left]].
    case_decide as Hst; [exists s; split; [done|by left]|].
    destruct (cpp_location_id payload); [|exists s; split; [done|by left]].
    case_decide; [exists s; split; [done|by left]|].
    destruct (locations d !! _); [|exists s; split; [done|by left]].
    case_decide; [exists s; split; [done|by left]|].
    destruct (passes d !! new_id); [exists s; split; [done|by left]|]. simpl.
    destruct (decide (session_id = id)) as [->|Hne].
    + rewrite lookup_insert_eq. simplify_eq. eexists. split; [done|].
      case_decide; [right; left; done|by left].
    + rewrite lookup_insert_ne by done. exists s. split; [done|by left].
  - exists s. split; [|by left]. unfold submit_pass.
    destruct (passes d !! pass_id); [|done]. by case_decide.
  - exists s. split; [|by left]. unfold void_pass.
    destruct (passes d !! pass_id); [|done]. by case_decide.
  - exists s. split; [|by left].
    by destruct (add_line d user_id now new_id pass_id payload) as [[? ?]|] eqn:Ha;
      [apply add_line_Ok in Ha
         as (? & ? & _ & _ & _ & _ & _ & _ & [(? & ? & _ & -> & _)|(_ & _ & -> & _)])|].
  - exists s. split; [|by left]. unfold update_line.
    destruct (lines d !! line_id) as [l|]; [|done].
    destruct (owning_pass_status d l); [|done]. by case_decide.
  - exists s. split; [|by left]. unfold delete_line.
    destruct (lines d !! line_id) as [l|]; [|done].
    destruct (owning_pass_status d l); [|done]. by case_decide.
  - exists s. by split; [|left].
Qed.

(** *** Invariants kept by every request *)

Lemma handle_passes_stamped d r : passes_stamped d → passes_stamped (handle d r).
Proof.
  intros Hinv id p' Hp' Hst.
  destruct (passes d !! id) as [p|] eqn:Hp.
  - destruct (handle_pass_old d r id p Hp) as (q & Hq & Hcase).
    rewrite Hq in Hp'. injection Hp' as <-.
    destruct Hcase as [->|[(_ & now & u & _ & ->)|(_ & _ & ->)]]; simpl in *.
    + by eapply Hinv.
    + by eexists.
    + done.
  - destruct (handle_pass_new d r id p' Hp Hp') as (Hopen & _). congruence.
Qed.

Lemma handle_open_passes d r :
  open_passes_in_open_sessions d → open_passes_in_open_sessions (handle d r).
Proof.
  intros Hinv id p' Hp' Hst.
  destruct (passes d !! id) as [p|] eqn:Hp.
  - destruct (handle_pass_old d r id p Hp) as (q & Hq & Hcase).
    rewrite Hq in Hp'. injection Hp' as <-.
    destruct Hcase as [->|[(_ & now & u & _ & ->)|(_ & _ & ->)]];
      simpl in *; try done.
    destruct (Hinv id p Hp Hst) as (s & Hs & Hss).
    destruct (handle_session_old d r _ s Hs) as (s' & Hs' & Hcase).
    exists s'. split; [done|].
    destruct Hcase as [->|[(Hdraft & _)|(_ & _ & Hnone & _)]]; [done|congruence|].
    exfalso.
    assert ((id, p) ∈ passes_by d (cp_session_id p) PInProgress) as Hin.
    { apply list_elem_of_filter. split; [done|]. by apply elem_of_map_to_list. }
    rewrite Hnone in Hin. by apply elem_of_nil in Hin.
  - destruct (handle_pass_new d r id p' Hp Hp') as (_ & _ & s' & _ & Hs' & Hst' & _).
    by exists s'.
Qed.

Lemma handle_passes_have_session d r :
  passes_have_session d → passes_have_session (handle d r).
Proof.
  intros Hinv id p' Hp'.
  destruct (passes d !! id) as [p|] eqn:Hp.
  - destruct (handle_pass_old d r id p Hp) as (q & Hq & Hcase).
    rewrite Hq in Hp'. injection Hp' as <-.
    destruct (Hinv id p Hp) as [s Hs].
    destruct (handle_session_old d r _ s Hs) as (s' & Hs' & _).
    destruct Hcase as [->|[(_ & now & u & _ & ->)|(_ & _ & ->)]]; by eexists.
  - destruct (handle_pass_new d r id p' Hp Hp') as (_ & _ & s' & _ & Hs' & _).
    by eexists.
Qed.

Lemma handle_lines_have_pass d r : lines_have_pass d → lines_have_pass (handle d r).
Proof.
  intros Hinv id l Hl.
  assert (∀ pid, is_Some (passes d !! pid) → is_Some (passes (handle d r) !! pid))
    as Hkeep.
  { intros pid [p Hp]. destruct (handle_pass_old d r pid p Hp) as (q & Hq & _).
    by eexists. }
  destruct r;
    try (apply Hkeep; rewrite handle_lines in Hl by done; by apply Hinv in Hl);
    simpl in *.
  - destruct (add_line d user_id now new_id pass_id payload) as [[d' resp]|] eqn:Ha;
        simpl in *; [|by apply Hinv in Hl].
      apply add_line_Ok in Ha
        as (cp & prod & Hp & _ & _ & _ & _ & _ &
            [(lid & old & Hf & -> & _)|(_ & _ & -> & _)]); simpl in *.
      * apply find_line_Some in Hf as (Hold & _ & _).
        destruct (decide (lid = id)) as [->|Hne].
        -- rewrite lookup_insert_eq in Hl. injection Hl as <-. simpl.
           by apply Hinv in Hold.
        -- rewrite lookup_insert_ne in Hl by done. by apply Hinv in Hl.
      * destruct (decide (new_id = id)) as [->|Hne].
        -- rewrite lookup_insert_eq in Hl. injection Hl as <-. simpl. by eexists.
        -- rewrite lookup_insert_ne in Hl by done. by apply Hinv in Hl.
  - unfold update_line in *.
      destruct (lines d !! line_id) as [old|] eqn:Hold; [|by apply Hinv in Hl].
      destruct (owning_pass_status d old); [|by apply Hinv in Hl].
      case_decide; [by apply Hinv in Hl|]. simpl in *.
      destruct (decide (line_id = id)) as [->|Hne].
      * rewrite lookup_insert_eq in Hl. injection Hl as <-. simpl.
        by apply Hinv in Hold.
      * rewrite lookup_insert_ne in Hl by done. by apply Hinv in Hl.
  - unfold delete_line in *.
      destruct (lines d !! line_id) as [old|] eqn:Hold; [|by apply Hinv in Hl].
      destruct (owning_pass_status d old); [|by apply Hinv in Hl].
      case_decide; [by apply Hinv in Hl|]. simpl in *.
      apply lookup_delete_Some in Hl as [_ Hl]. by apply Hinv in Hl.
Qed.

(** *** Runs of requests *)

Lemma pass_step_trans a b c : pass_step a b → pass_step b c → pass_step a c.
Proof.
  unfold pass_step. intros H1 H2.
  destruct a, b, c; intuition congruence.
Qed.

Lemma reachable_passes_stamped d d' :
  passes_stamped d → reachable d d' → passes_stamped d'.
Proof. intros H0. induction 1; [done|]. by apply handle_passes_stamped. Qed.

Lemma reachable_open_passes d d' :
  open_passes_in_open_sessions d → reachable d d' → open_passes_in_open_sessions d'.
Proof. intros H0. induction 1; [done|]. by apply handle_open_passes. Qed.

Lemma reachable_lines_have_pass d d' :
  lines_have_pass d → reachable d d' → lines_have_pass d'.
Proof. intros H0. induction 1; [done|]. by apply handle_lines_have_pass. Qed.

(** X1: no run of requests deletes a pass or changes its session,
    location, category and subcategory scope, [started_at], starter,
    device or scan mode. *)
Theorem pass_window_fixed d d' id p :
  reachable d d' → passes d !! id = Some p →
  ∃ p', passes d' !! id = Some p'
        ∧ cp_session_id p' = cp_session_id p
        ∧ cp_location_id p' = cp_location_id p
        ∧ cp_category p' = cp_category p
        ∧ cp_subcategory p' = cp_subcategory p
        ∧ cp_started_at p' = cp_started_at p
        ∧ cp_started_by_user_id p' = cp_started_by_user_id p
        ∧ cp_device_id p' = cp_device_id p
        ∧ cp_scan_mode p' = cp_scan_mode p.
Proof.
  intros Hr. revert p. induction Hr as [|d1 r Hr IH]; intros p Hp; [by exists p|].
  destruct (IH p Hp) as (p1 & Hp1 & E1 & E2 & E3 & E4 & E5 & E6 & E7 & E8).
  destruct (handle_pass_old d1 r id p1 Hp1) as (p' & Hp' & Hcase).
  exists p'. split; [done|].
  rewrite <- E1, <- E2, <- E3, <- E4, <- E5, <- E6, <- E7, <- E8.
  by destruct Hcase as [->|[(_ & ? & ? & _ & ->)|(_ & _ & ->)]].
Qed.

(** X2: along any run the status of a pass only moves from in_progress
    to submitted or voided and from submitted to voided: a voided pass
    stays voided, no pass returns to in_progress, and the [submitted_at]
    of a submitted pass never changes. *)
Theorem pass_status_forward d d' id p :
  reachable d d' → passes d !! id = Some p →
  ∃ p', passes d' !! id = Some p'
        ∧ pass_step (cp_status p) (cp_status p')
        ∧ (cp_status p = PVoided → p' = p)
        ∧ (cp_status p ≠ PInProgress → cp_status p' ≠ PInProgress)
        ∧ (cp_status p = PSubmitted → cp_submitted_at p' = cp_submitted_at p).
Proof.
  intros Hr. revert p. induction Hr as [|d1 r Hr IH]; intros p Hp.
  { exists p. split; [done|]. split; [by left|]. done. }
  destruct (IH p Hp) as (p1 & Hp1 & Hstep & Hvoid & Hopen & Hsub).
  destruct (handle_pass_old d1 r id p1 Hp1) as (p' & Hp' & Hcase).
  exists p'. split; [done|].
  destruct Hcase as [->|[(Hin & ? & ? & _ & ->)|(Hnv & _ & ->)]]; simpl.
  - done.
  - split; [eapply pass_step_trans; [done|]; right; left; done|].
    split; [intros Hv; rewrite (Hvoid Hv) in Hin; congruence|].
    split; [done|].
    intros Hs. exfalso. by apply Hopen; [rewrite Hs|].
  - split.
    { eapply pass_step_trans; [done|].
      unfold pass_step. destruct (cp_status p1); intuition congruence. }
    split; [intros Hv; rewrite (Hvoid Hv) in Hnv; congruence|].
    split; [done|]. done.
Qed.

Lemma get_variance_stamped d sid nz session :
  passes_stamped d → sessions d !! sid = Some session →
  ∃ report, get_variance d sid nz = Ok report.
Proof.
  intros Hst Hs.
  assert (∃ deltas, movement_deltas d sid (cs_store_id session) = Ok deltas)
    as [deltas Hd].
  { destruct ((passes_by d sid PSubmitted).*2) as [|p ps] eqn:HL.
    - exists ∅. apply movement_deltas_no_pass. intros p Hp%submitted_pass_elem_of.
      rewrite HL in Hp. by apply elem_of_nil in Hp.
    - assert (submitted_pass d sid p) as Hp
        by (apply submitted_pass_elem_of; rewrite HL; left).
      destruct Hp as (id & Hp & Hsess & Hsub).
      destruct (Hst id p Hp Hsub) as [t Ht].
      destruct (movement_deltas_window d sid (cs_store_id session))
        as (deltas & _ & _ & Hd & _); [|by exists deltas].
      exists p, t. split; [by exists id|done]. }
  unfold get_variance. rewrite Hs, Hd. by eexists.
Qed.

(** X3: when every submitted pass carries its [submitted_at], this stays
    so along any run, and the variance view answers every request: with a
    report for a session that exists, with NotFound otherwise. *)
Theorem variance_never_raises d d' sid nz :
  passes_stamped d → reachable d d' →
  passes_stamped d'
  ∧ match sessions d' !! sid with
    | Some _ => ∃ report, get_variance d' sid nz = Ok report
    | None => get_variance d' sid nz = Err (NotFound "Session not found")
    end.
Proof.
  intros Hst Hr.
  pose proof (reachable_passes_stamped d d' Hst Hr) as Hst'.
  split; [done|].
  destruct (sessions d' !! sid) as [s|] eqn:Hs.
  - by eapply get_variance_stamped.
  - unfold get_variance. by rewrite Hs.
Qed.

(** X4: along any run a session is never deleted, keeps its store and
    creator, and its status only advances in draft, in_progress,
    submitted; no request closes or reconciles a session. *)
Theorem session_status_forward d d' id s :
  reachable d d' → sessions d !! id = Some s →
  ∃ s', sessions d' !! id = Some s'
        ∧ cs_store_id s' = cs_store_id s
        ∧ cs_created_by_user_id s' = cs_created_by_user_id s
        ∧ cs_notes s' = cs_notes s
        ∧ (session_rank (cs_status s) ≤ session_rank (cs_status s'))%nat
        ∧ (cs_status s' = cs_status s ∨ (session_rank (cs_status s') ≤ 2)%nat).
Proof.
  intros Hr. revert s. induction Hr as [|d1 r Hr IH]; intros s Hs.
  { exists s. repeat (split; [done|]). by left. }
  destruct (IH s Hs) as (s1 & Hs1 & E1 & E2 & E3 & Hrank & Hcap).
  destruct (handle_session_old d1 r id s1 Hs1) as (s' & Hs' & Hcase).
  exists s'. split; [done|]. rewrite <- E1, <- E2, <- E3.
  destruct Hcase as [->|[(Hd & ->)|(Hi & _ & _ & ->)]]; simpl.
  - done.
  - repeat (split; [done|]). rewrite Hd in Hrank. simpl in *.
    split; [lia|]. right. lia.
  - repeat (split; [done|]). rewrite Hi in Hrank. simpl in *.
    split; [lia|]. right. lia.
Qed.

(** X5: when every open pass belongs to a session in progress, this stays
    so along any run; in a session that is not in progress (submitted,
    for one) no line can be recorded, corrected or removed any more. *)
Theorem closed_session_frozen d d' session_id session :
  open_passes_in_open_sessions d → reachable d d' →
  sessions d' !! session_id = Some session →
  cs_status session ≠ SInProgress →
  ∀ pass_id count_pass,
    passes d' !! pass_id = Some count_pass →
    cp_session_id count_pass = session_id →
    (∀ user_id now new_id payload,
       ∃ msg, add_line d' user_id now new_id pass_id payload = Err (InvalidState msg))
    ∧ (∀ user_id now line_id payload line,
         lines d' !! line_id = Some line → cl_count_pass_id line = pass_id →
         ∃ msg, update_line d' user_id now line_id payload = Err (InvalidState msg))
    ∧ (∀ line_id line,
         lines d' !! line_id = Some line → cl_count_pass_id line = pass_id →
         ∃ msg, delete_line d' line_id = Err (InvalidState msg)).
Proof.
  intros Hinv Hr Hs Hst pass_id cp Hp Hsess.
  assert (cp_status cp ≠ PInProgress) as Hclosed.
  { intros Hopen.
    destruct (reachable_open_passes d d' Hinv Hr pass_id cp Hp Hopen)
      as (s & Hs' & Hin).
    rewrite Hsess, Hs in Hs'. injection Hs' as <-. done. }
  split; [|split].
  - intros. by eapply add_line_closed.
  - intros user_id now line_id payload line Hl <-. by eapply update_line_closed.
  - intros line_id line Hl <-. by eapply delete_line_closed.
Qed.

(** X6: when every line has its pass, this stays so along any run, and
    correcting or removing a line never raises: each call succeeds or is
    refused with NotFound or InvalidState. *)
Theorem line_views_never_raise d d' :
  lines_have_pass d → reachable d d' →
  lines_have_pass d'
  ∧ (∀ user_id now line_id payload exn,
       update_line d' user_id now line_id payload ≠ Err (ServerError exn))
  ∧ (∀ line_id exn, delete_line d' line_id ≠ Err (ServerError exn)).
Proof.
  intros Hinv Hr.
  pose proof (reachable_lines_have_pass d d' Hinv Hr) as Hinv'.
  split; [done|]. split.
  - intros user_id now line_id payload exn. unfold update_line, owning_pass_status.
    destruct (lines d' !! line_id) as [l|] eqn:Hl; [|done].
    destruct (Hinv' line_id l Hl) as [p ->]. by case_decide.
  - intros line_id exn. unfold delete_line, owning_pass_status.
    destruct (lines d' !! line_id) as [l|] eqn:Hl; [|done].
    destruct (Hinv' line_id l Hl) as [p ->]. by case_decide.
Qed.

(** *** The sample store satisfies the invariants *)

Ltac sample_rows H :=
  apply (elem_of_list_to_map_2 (M := gmap string)) in H;
  repeat (apply elem_of_cons in H as [H|H]; [injection H as -> ->|]);
  [..|by apply elem_of_nil in H].

Lemma sample_passes_stamped : passes_stamped Sample.data.
Proof.
  intros id p Hp Hst.
  sample_rows Hp; first [discriminate Hst|simpl; by eexists].
Qed.

Lemma sample_open_passes : open_passes_in_open_sessions Sample.data.
Proof.
  intros id p Hp Hst.
  sample_rows Hp; first [discriminate Hst|by exists Sample.session].
Qed.

Lemma sample_lines_have_pass : lines_have_pass Sample.data.
Proof. intros id l Hl. sample_rows Hl; vm_compute; by eexists. Qed.

Lemma sample_later_reachable : reachable Sample.data Sample.later.
Proof. apply reachable_step, reachable_step, reachable_start. Qed.

Lemma sample_closed_reachable : reachable Sample.data Sample.closed.
Proof. apply reachable_step, sample_later_reachable. Qed.



(** X1 on the sample store: pass "p3" after it was submitted. *)
Lemma pass_window_fixed_witness :
  ∃ p', passes Sample.later !! "p3" = Some p'
        ∧ cp_session_id p' = "s1"
        ∧ cp_location_id p' = 1
        ∧ cp_category p' = Some "Flower"
        ∧ cp_subcategory p' = Some "Dried Flower"
        ∧ cp_started_at p' = DateTime 100 400
        ∧ cp_started_by_user_id p' = 7
        ∧ cp_device_id p' = None
        ∧ cp_scan_mode p' = "scanner".
Proof.
  apply (pass_window_fixed Sample.data Sample.later "p3"
           (Sample.mk_pass (DateTime 100 400) None PInProgress)
           sample_later_reachable).
  vm_compute. reflexivity.
Defined.

(** X2 on the sample store: pass "p1", submitted at 100:50, after it was
    voided. *)
Lemma pass_status_forward_witness :
  ∃ p', passes Sample.later !! "p1" = Some p'
        ∧ pass_step PSubmitted (cp_status p')
        ∧ (PSubmitted = PVoided →
           p' = Sample.mk_pass (DateTime 100 0) (Some (DateTime 100 50)) PSubmitted)
        ∧ (PSubmitted ≠ PInProgress → cp_status p' ≠ PInProgress)
        ∧ (PSubmitted = PSubmitted → cp_submitted_at p' = Some (DateTime 100 50)).
Proof.
  apply (pass_status_forward Sample.data Sample.later "p1"
           (Sample.mk_pass (DateTime 100 0) (Some (DateTime 100 50)) PSubmitted)
           sample_later_reachable).
  vm_compute. reflexivity.
Defined.

(** X3 on the sample store after two more requests. *)
Lemma variance_never_raises_witness :
  passes_stamped Sample.later
  ∧ match sessions Sample.later !! "s1" with
    | Some _ => ∃ report, get_variance Sample.later "s1" true = Ok report
    | None => get_variance Sample.later "s1" true = Err (NotFound "Session not found")
    end.
Proof.
  exact (variance_never_raises Sample.data Sample.later "s1" true
           sample_passes_stamped sample_later_reachable).
Defined.

(** X4 on the sample store: session "s1" after it was submitted. *)
Lemma session_status_forward_witness :
  ∃ s', sessions Sample.closed !! "s1" = Some s'
        ∧ cs_store_id s' = 1
        ∧ cs_created_by_user_id s' = 7
        ∧ cs_notes s' = None
        ∧ (1 ≤ session_rank (cs_status s'))%nat
        ∧ (cs_status s' = SInProgress ∨ (session_rank (cs_status s') ≤ 2)%nat).
Proof.
  apply (session_status_forward Sample.data Sample.closed "s1" Sample.session
           sample_closed_reachable).
  vm_compute. reflexivity.
Defined.

(** X5 on the sample store: pass "p2" of the submitted session. *)
Lemma closed_session_frozen_witness :
  (∀ user_id now new_id payload,
     ∃ msg, add_line Sample.closed user_id now new_id "p2" payload
            = Err (InvalidState msg))
  ∧ (∀ user_id now line_id payload line,
       lines Sample.closed !! line_id = Some line → cl_count_pass_id line = "p2" →
       ∃ msg, update_line Sample.closed user_id now line_id payload
              = Err (InvalidState msg))
  ∧ (∀ line_id line,
       lines Sample.closed !! line_id = Some line → cl_count_pass_id line = "p2" →
       ∃ msg, delete_line Sample.closed line_id = Err (InvalidState msg)).
Proof.
  apply (closed_session_frozen Sample.data Sample.closed "s1"
           (with_session_status Sample.session SSubmitted)
           sample_open_passes sample_closed_reachable)
    with (count_pass := Sample.mk_pass (DateTime 100 200) (Some (DateTime 100 300))
                          PSubmitted).
  - vm_compute. reflexivity.
  - discriminate.
  - vm_compute. reflexivity.
  - reflexivity.
Defined.

(** X6 on the sample store after two more requests. *)
Lemma line_views_never_raise_witness :
  lines_have_pass Sample.later
  ∧ (∀ user_id now line_id payload exn,
       update_line Sample.later user_id now line_id payload ≠ Err (ServerError exn))
  ∧ (∀ line_id exn, delete_line Sample.later line_id ≠ Err (ServerError exn)).
Proof.
  exact (line_views_never_raise Sample.data Sample.later
           sample_lines_have_pass sample_later_reachable).
Defined.

(** ** Lines, passes and the counted quantities *)

Global Instance py_sum_Permutation : Proper ((≡ₚ) ==> (=)) Py.sum.
Proof.
  intros l1 l2 Hp. unfold Py.sum.
  induction Hp as [|x l1 l2 _ IH|x y l|l1 l2 l3 _ IH1 _ IH2]; simpl; lia.
Qed.

Lemma sum_filter_split {A} (f : A → Z) (P : A → Prop) `{∀ x, Decision (P x)} l :
  Py.sum (f <$> l)
  = Py.sum (f <$> filter P l) + Py.sum (f <$> filter (λ x, ¬ P x) l).
Proof.
  induction l as [|x l IH]; [done|].
  rewrite !filter_cons. destruct (decide (P x)).
  - rewrite decide_False by (by intros ?). rewrite !fmap_cons. simpl in *. lia.
  - rewrite decide_True by done. rewrite !fmap_cons. simpl in *. lia.
Qed.

(** A key of a grouped sum carries the sum of its rows. *)
Lemma group_sum_lookup rows k :
  Py.dict_of (group_sum rows) !! k
  = if decide (k ∈ rows.*1)
    then Some (Py.sum (snd <$> filter (λ r, r.1 = k) rows))
    else None.
Proof.
  rewrite dict_of_lookup. unfold group_sum.
  rewrite (filter_key_fmap_NoDup
             (λ k', Py.sum (snd <$> filter (λ r, r.1 = k') rows)))
    by apply NoDup_remove_dups.
  destruct (decide (k ∈ remove_dups rows.*1)) as [Hin|Hnotin];
    rewrite elem_of_remove_dups in *.
  - by rewrite decide_True.
  - by rewrite decide_False.
Qed.

(** The dict built from a grouped query does not depend on the order in
    which the database returns the rows. *)
Lemma group_sum_Permutation rows rows' :
  rows ≡ₚ rows' → Py.dict_of (group_sum rows) = Py.dict_of (group_sum rows').
Proof.
  intros Hp. apply map_eq. intros k. rewrite !group_sum_lookup.
  destruct (decide (k ∈ rows.*1)) as [Hin|Hnotin].
  - rewrite decide_True by (by rewrite <- Hp). by rewrite Hp.
  - rewrite decide_False by (by rewrite <- Hp). done.
Qed.

Section table_rows.
Context {A B : Type} (f : string * A → option B).

Lemma omap_rows_insert (m : gmap string A) i x :
  f (i, x) = None → (∀ y, m !! i = Some y → f (i, y) = None) →
  omap f (map_to_list (<[i:=x]> m)) ≡ₚ omap f (map_to_list m).
Proof.
  intros Hx Hold. rewrite <- insert_delete_eq.
  rewrite map_to_list_insert by apply lookup_delete_eq. csimpl. rewrite Hx.
  destruct (m !! i) as [y|] eqn:Hy.
  - rewrite <- (map_to_list_delete m i y Hy). csimpl. by rewrite (Hold y).
  - by rewrite delete_id.
Qed.

Lemma omap_rows_delete (m : gmap string A) i :
  (∀ y, m !! i = Some y → f (i, y) = None) →
  omap f (map_to_list (delete i m)) ≡ₚ omap f (map_to_list m).
Proof.
  intros Hold. destruct (m !! i) as [y|] eqn:Hy.
  - rewrite <- (map_to_list_delete m i y Hy). csimpl. by rewrite (Hold y).
  - by rewrite delete_id.
Qed.
End table_rows.

(** A line of a pass that is not submitted is no row of the counted query. *)
Lemma counted_row_unsubmitted d sid id l p :
  passes d !! cl_count_pass_id l = Some p → cp_status p ≠ PSubmitted →
  counted_row d sid (id, l) = None.
Proof.
  intros Hp Hst. unfold counted_row. simpl. rewrite Hp.
  rewrite bool_decide_eq_false_2; [done|]. by intros [_ ?].
Qed.

Lemma get_variance_set_lines d (x : gmap string count_line) sid nz :
  counted_by_sku (set_lines d x) sid = counted_by_sku d sid →
  get_variance (set_lines d x) sid nz = get_variance d sid nz.
Proof.
  intros Hc. unfold get_variance. rewrite Hc. reflexivity.
Qed.

(** X7: recording, correcting or removing a line never changes a variance
    report: the views write lines of open passes only, and a report counts
    the lines of submitted passes. *)
Theorem line_requests_keep_variance d r sid nz :
  line_request r → get_variance (handle d r) sid nz = get_variance d sid nz.
Proof.
  intros Hline. unfold line_request in Hline. destruct r; try done; simpl.
  - destruct (add_line d user_id now new_id pass_id payload) as [[d' resp]|] eqn:Ha;
      [|done].
    apply add_line_Ok in Ha
      as (cp & prod & Hp & Hst & _ & _ & _ & _ &
          [(lid & old & Hf & -> & _)|(_ & Hfresh & -> & _)]); simpl;
      apply get_variance_set_lines; unfold counted_by_sku, counted_rows;
      apply group_sum_Permutation; simpl.
    + apply find_line_Some in Hf as (Hold & Hpass & _).
      apply omap_rows_insert.
      * eapply counted_row_unsubmitted; [simpl; by rewrite Hpass|congruence].
      * intros y Hy. rewrite Hold in Hy. injection Hy as <-.
        eapply counted_row_unsubmitted; [by rewrite Hpass|congruence].
    + apply omap_rows_insert.
      * eapply counted_row_unsubmitted; [done|congruence].
      * intros y Hy. congruence.
  - unfold update_line, owning_pass_status.
    destruct (lines d !! line_id) as [old|] eqn:Hold; [|done].
    destruct (passes d !! cl_count_pass_id old) as [p|] eqn:Hp; [|done].
    case_decide as Hst; [done|]. simpl.
    apply get_variance_set_lines. unfold counted_by_sku, counted_rows.
    apply group_sum_Permutation. simpl. apply omap_rows_insert.
    + eapply counted_row_unsubmitted; [done|]. simpl. congruence.
    + intros y Hy. simplify_eq. eapply counted_row_unsubmitted; [done|congruence].
  - unfold delete_line, owning_pass_status.
    destruct (lines d !! line_id) as [old|] eqn:Hold; [|done].
    destruct (passes d !! cl_count_pass_id old) as [p|] eqn:Hp; [|done].
    case_decide as Hst; [done|]. simpl.
    apply get_variance_set_lines. unfold counted_by_sku, counted_rows.
    apply group_sum_Permutation. simpl. apply omap_rows_delete.
    intros y Hy. simplify_eq. eapply counted_row_unsubmitted; [done|congruence].
Qed.

(** X7 on the sample store: a scan into the open pass. *)
Lemma line_requests_keep_variance_witness :
  get_variance
    (handle Sample.data (AddLine 7 Sample.now "n1" "p3" (Sample.scan "A" (Some 40) None)))
    "s1" false
  = get_variance Sample.data "s1" false.
Proof. by apply line_requests_keep_variance. Defined.

(** The lines of one pass carrying a SKU. *)
Lemma submitted_lines_set_passes d (x : gmap string count_pass) sid sku
    (Q : count_line → Prop) `{∀ l, Decision (Q l)} :
  (∀ l, in_submitted_pass (set_passes d x) sid l ↔ Q l) →
  submitted_lines (set_passes d x) sid sku
  = filter (λ l, cl_sku l = sku ∧ Q l) (map_to_list (lines d)).*2.
Proof.
  intros HQ. unfold submitted_lines. simpl.
  apply list_filter_iff. intros l. by rewrite HQ.
Qed.

(** X8: voiding a pass takes exactly its lines out of the count: for
    every session and SKU the counted lines afterwards are the counted
    lines before without those of the voided pass, and the counted
    quantity drops by their sum. *)
Theorem void_pass_uncounts d pass_id d' p' :
  void_pass d pass_id = Ok (d', p') →
  ∀ sid sku,
    submitted_lines d' sid sku
    = filter (λ l, cl_count_pass_id l ≠ pass_id) (submitted_lines d sid sku)
    ∧ default 0 (counted_by_sku d' sid !! sku)
      = default 0 (counted_by_sku d sid !! sku)
        - Py.sum (cl_counted_qty <$>
                    filter (λ l, cl_count_pass_id l = pass_id)
                           (submitted_lines d sid sku)).
Proof.
  unfold void_pass. intros Hv sid sku.
  destruct (passes d !! pass_id) as [p|] eqn:Hp; [|done].
  case_decide as Hst; [done|]. injection Hv as <- <-.
  assert (submitted_lines
            (set_passes d (<[pass_id := with_pass_status p PVoided (cp_submitted_at p)
                                          (cp_submitted_by_user_id p)]> (passes d)))
            sid sku
          = filter (λ l, cl_count_pass_id l ≠ pass_id) (submitted_lines d sid sku))
    as Hlines.
  { unfold submitted_lines at 2. rewrite list_filter_filter.
    rewrite (submitted_lines_set_passes d _ sid sku
               (λ l, in_submitted_pass d sid l ∧ cl_count_pass_id l ≠ pass_id)).
    { apply list_filter_iff. intros l. tauto. }
    intros l. unfold in_submitted_pass. simpl.
    destruct (decide (cl_count_pass_id l = pass_id)) as [Heq|Hne].
    - rewrite Heq, lookup_insert_eq. split.
      + intros (q & [= <-] & _ & Hq). done.
      + intros [_ ?]. done.
    - rewrite lookup_insert_ne by done. tauto. }
  split.
  - rewrite Hlines. apply list_filter_iff. intros l. tauto.
  - rewrite !counted_by_sku_get, Hlines.
    rewrite (sum_filter_split cl_counted_qty (λ l, cl_count_pass_id l = pass_id)
               (submitted_lines d sid sku)).
    lia.
Qed.

(** X8 on the sample store: voiding "p1" leaves the 3 units of "p2". *)
Lemma void_pass_uncounts_witness :
  submitted_lines (handle Sample.data (VoidPass "p1")) "s1" "A"
  = filter (λ l, cl_count_pass_id l ≠ "p1") (submitted_lines Sample.data "s1" "A")
  ∧ default 0 (counted_by_sku (handle Sample.data (VoidPass "p1")) "s1" !! "A")
    = default 0 (counted_by_sku Sample.data "s1" !! "A")
      - Py.sum (cl_counted_qty <$>
                  filter (λ l, cl_count_pass_id l = "p1")
                         (submitted_lines Sample.data "s1" "A")).
Proof.
  apply (void_pass_uncounts Sample.data "p1" _
           (with_pass_status
              (Sample.mk_pass (DateTime 100 0) (Some (DateTime 100 50)) PSubmitted)
              PVoided (Some (DateTime 100 50)) None)).
  vm_compute. reflexivity.
Defined.

(** X9: submitting a pass brings exactly its lines into the count of its
    session: the counted quantity of every SKU grows by the sum over the
    lines of the pass for that SKU, and no other session changes. *)
Theorem submit_pass_counts d user_id now pass_id d' p' :
  submit_pass d user_id now pass_id = Ok (d', p') →
  ∀ sid sku,
    default 0 (counted_by_sku d' sid !! sku)
    = default 0 (counted_by_sku d sid !! sku)
      + (if decide (cp_session_id p' = sid)
         then Py.sum (cl_counted_qty <$>
                        filter (λ l, cl_sku l = sku ∧ cl_count_pass_id l = pass_id)
                               (map_to_list (lines d)).*2)
         else 0).
Proof.
  unfold submit_pass. intros Hs sid sku.
  destruct (passes d !! pass_id) as [p|] eqn:Hp; [|done].
  case_decide as Hst; [done|].
  injection Hs as <- <-. simpl.
  rewrite !counted_by_sku_get.
  rewrite (submitted_lines_set_passes d _ sid sku
             (λ l, in_submitted_pass d sid l
                   ∨ (cl_count_pass_id l = pass_id ∧ cp_session_id p = sid))).
  2:{ intros l. unfold in_submitted_pass. simpl.
      destruct (decide (cl_count_pass_id l = pass_id)) as [Heq|Hne].
      - rewrite Heq, lookup_insert_eq, Hp. split.
        + intros (q & [= <-] & Hsess & _). right. done.
        + intros [(q & [= <-] & _ & Hq)|[_ Hsess]]; [congruence|].
          eexists. done.
      - rewrite lookup_insert_ne by done. tauto. }
  rewrite (sum_filter_split cl_counted_qty (λ l, cl_count_pass_id l = pass_id)).
  rewrite !list_filter_filter.
  rewrite (list_filter_iff
             (λ l, ¬ cl_count_pass_id l = pass_id
                   ∧ cl_sku l = sku
                     ∧ (in_submitted_pass d sid l
                        ∨ cl_count_pass_id l = pass_id ∧ cp_session_id p = sid))
             (λ l, cl_sku l = sku ∧ in_submitted_pass d sid l)).
  2:{ intros l. split; [tauto|].
      intros [Hsku Hin]. split; [|by auto].
      intros Hpid. destruct Hin as (q & Hq & _ & Hsub).
      rewrite Hpid, Hp in Hq. congruence. }
  fold (submitted_lines d sid sku).
  destruct (decide (cp_session_id p = sid)) as [Hsid|Hsid].
  - rewrite (list_filter_iff
               (λ l, cl_count_pass_id l = pass_id
                     ∧ cl_sku l = sku
                       ∧ (in_submitted_pass d sid l
                          ∨ cl_count_pass_id l = pass_id ∧ cp_session_id p = sid))
               (λ l, cl_sku l = sku ∧ cl_count_pass_id l = pass_id))
      by (intros l; tauto).
    lia.
  - rewrite (filter_none _ (map_to_list (lines d)).*2); [simpl; lia|].
    intros l _ (Hpid & _ & [(q & Hq & _ & Hsub)|[_ ?]]); [|done].
    rewrite Hpid, Hp in Hq. congruence.
Qed.

(** X9 on the sample store: submitting "p3" adds its 100 units of "A". *)
Lemma submit_pass_counts_witness :
  default 0 (counted_by_sku (handle Sample.data (SubmitPass 8 Sample.now "p3")) "s1" !! "A")
  = default 0 (counted_by_sku Sample.data "s1" !! "A")
    + (if decide ("s1" = "s1")
       then Py.sum (cl_counted_qty <$>
                      filter (λ l, cl_sku l = "A" ∧ cl_count_pass_id l = "p3")
                             (map_to_list (lines Sample.data)).*2)
       else 0).
Proof.
  apply (submit_pass_counts Sample.data 8 Sample.now "p3" _
           (with_pass_status (Sample.mk_pass (DateTime 100 400) None PInProgress)
              PSubmitted (Some Sample.now) (Some 8))).
  vm_compute. reflexivity.
Defined.

(** ** The filter and the totals of a report *)

Section sort_filter.
Context {A : Type} (leb : A → A → bool).
Hypothesis leb_total : ∀ a b, leb a b = false → leb b a = true.
Hypothesis leb_trans : ∀ a b c, leb a b = true → leb b c = true → leb a c = true.
Context (P : A → Prop) `{∀ x, Decision (P x)}.

Lemma stable_sort_sorted l :
  StronglySorted (λ a b, leb a b = true) (Py.stable_sort leb l).
Proof.
  eapply StronglySorted_mono;
    [|apply (stable_sort_stably leb leb_total leb_trans (λ _ _, True))].
  - by intros a b [? _].
  - induction l; constructor; [done|]. by apply Forall_true.
Qed.



End sort_filter.





(** X11: a session none of whose passes is submitted still gets a
    report: it lists the SKUs of the store's inventory rows, each with
    nothing counted, no movement and a variance of minus its baseline. *)
Theorem unsubmitted_session_report d sid nz session :
  sessions d !! sid = Some session →
  (∀ p, ¬ submitted_pass d sid p) →
  ∃ report,
    get_variance d sid nz = Ok report
    ∧ ∀ item, item ∈ vr_items report →
        vi_counted_qty item = 0
        ∧ vi_movement_delta item = 0
        ∧ vi_expected_qty item = vi_baseline_qty item
        ∧ vi_variance item = - vi_baseline_qty item
        ∧ has_inventory_row d (cs_store_id session) (vi_sku item).
Proof.
  intros Hs Hno.
  pose proof (movement_deltas_no_pass d sid (cs_store_id session) Hno) as Hd.
  destruct (get_variance d sid nz) as [report|e] eqn:Hget.
  2:{ unfold get_variance in Hget. by rewrite Hs, Hd in Hget. }
  exists report. split; [done|]. intros item Hin.
  destruct (get_variance_item _ _ _ _ _ Hget Hin)
    as (s' & deltas & Hs' & Hd' & Hsku & _ & Hc & Hb & Hm & He & Hv).
  rewrite Hs in Hs'. injection Hs' as <-.
  rewrite Hd in Hd'. injection Hd' as <-.
  assert (submitted_lines d sid (vi_sku item) = []) as Hnone.
  { apply filter_none. intros l _ [_ (p & Hp & Hsess & Hsub)].
    apply (Hno p). by eexists. }
  rewrite counted_by_sku_get, Hnone in Hc. rewrite lookup_empty in Hm.
  simpl in *. repeat split; try lia.
  apply elem_of_union in Hsku as [Hc'|Hb'].
  - apply counted_by_sku_dom in Hc' as [l Hl]. rewrite Hnone in Hl.
    by apply elem_of_nil in Hl.
  - by apply baseline_by_sku_dom.
Qed.

(** X11 on the sample store: a second session, without passes. *)
Lemma unsubmitted_session_report_witness :
  ∃ report,
    get_variance (handle Sample.data
                    (CreateSession 7 Sample.now "s2"
                       {| csp_store_id := Some 1; csp_notes := None |}))
                 "s2" false = Ok report
    ∧ ∀ item, item ∈ vr_items report →
        vi_counted_qty item = 0
        ∧ vi_movement_delta item = 0
        ∧ vi_expected_qty item = vi_baseline_qty item
        ∧ vi_variance item = - vi_baseline_qty item
        ∧ has_inventory_row
            (handle Sample.data
               (CreateSession 7 Sample.now "s2"
                  {| csp_store_id := Some 1; csp_notes := None |}))
            1 (vi_sku item).
Proof.
  apply (unsubmitted_session_report _ "s2" false
           {| cs_store_id := 1; cs_created_by_user_id := 7; cs_status := SDraft;
              cs_expected_snapshot_at := Some Sample.now; cs_notes := None |}).
  - vm_compute. reflexivity.
  - intros p (id & Hp & Hsess & _). simpl in Hp.
    sample_rows Hp; discriminate Hsess.
Defined.

(** ** Correcting, removing and totalling lines *)

(** X12: a correction replaces, it does not add: the line takes the
    quantity of the request (keeps its own when the request has none), is
    marked "corrected" and restamped, keeps its pass, product, SKU,
    barcode, package id and unit, and no other line changes.  The same
    body sent again, at whatever time and by whatever user, is accepted
    and only restamps the line: quantity, notes and all other fields stay
    as the first correction left them. *)
Theorem update_line_replaces d user_id now line_id payload d' line' :
  update_line d user_id now line_id payload = Ok (d', line') →
  ∃ old,
    lines d !! line_id = Some old
    ∧ lines d' = <[line_id := line']> (lines d)
    ∧ cl_counted_qty line' = default (cl_counted_qty old) (ul_counted_qty payload)
    ∧ cl_confidence line' = "corrected"
    ∧ cl_captured_at line' = now
    ∧ cl_captured_by_user_id line' = user_id
    ∧ (ul_notes payload = None → cl_notes line' = cl_notes old)
    ∧ cl_count_pass_id line' = cl_count_pass_id old
    ∧ cl_product_id line' = cl_product_id old
    ∧ cl_sku line' = cl_sku old
    ∧ cl_barcode line' = cl_barcode old
    ∧ cl_package_id line' = cl_package_id old
    ∧ cl_unit line' = cl_unit old
    ∧ ∀ user_id' now',
        ∃ d'' line'',
          update_line d' user_id' now' line_id payload = Ok (d'', line'')
          ∧ lines d'' = <[line_id := line'']> (lines d)
          ∧ cl_captured_at line'' = now'
          ∧ cl_captured_by_user_id line'' = user_id'
          ∧ cl_counted_qty line'' = cl_counted_qty line'
          ∧ cl_notes line'' = cl_notes line'
          ∧ cl_confidence line'' = cl_confidence line'
          ∧ cl_count_pass_id line'' = cl_count_pass_id line'
          ∧ cl_product_id line'' = cl_product_id line'
          ∧ cl_sku line'' = cl_sku line'
          ∧ cl_barcode line'' = cl_barcode line'
          ∧ cl_package_id line'' = cl_package_id line'
          ∧ cl_unit line'' = cl_unit line'.
Proof.
  unfold update_line, owning_pass_status. intros Hu.
  destruct (lines d !! line_id) as [old|] eqn:Hold; [|done].
  destruct (passes d !! cl_count_pass_id old) as [p|] eqn:Hp; [|done].
  case_decide as Hst; [done|]. injection Hu as <- <-.
  exists old. repeat (split; [done|]).
  split; [intros Hn; simpl; by rewrite Hn|]. repeat (split; [done|]).
  intros user_id' now'. simpl. rewrite lookup_insert_eq. simpl. rewrite Hp.
  rewrite decide_False by (intros Hn; apply Hn, Hst).
  eexists _, _. split; [reflexivity|]. simpl.
  split; [by rewrite insert_insert_eq|].
  repeat (split; [done|]).
  split; [by destruct (ul_counted_qty payload)|].
  split; [by destruct (ul_notes payload)|done].
Qed.

(** X12 on the sample store: line "l3" of the open pass set to 7. *)
Lemma update_line_replaces_witness :
  ∃ old,
    lines Sample.data !! "l3" = Some old
    ∧ cl_counted_qty old = 100
    ∧ cl_counted_qty
        (correct_line old {| ul_counted_qty := Some 7; ul_notes := None |}
           Sample.now 8) = 7.
Proof.
  destruct (update_line_replaces Sample.data 8 Sample.now "l3"
              {| ul_counted_qty := Some 7; ul_notes := None |}
              (set_lines Sample.data
                 (<["l3" := correct_line (Sample.mk_line "p3" 100)
                              {| ul_counted_qty := Some 7; ul_notes := None |}
                              Sample.now 8]> (lines Sample.data)))
              (correct_line (Sample.mk_line "p3" 100)
                 {| ul_counted_qty := Some 7; ul_notes := None |} Sample.now 8))
    as (old & Hold & _).
  { vm_compute. reflexivity. }
  exists old. split; [done|].
  assert (Some old = Some (Sample.mk_line "p3" 100)) as Heq
    by (rewrite <- Hold; vm_compute; reflexivity).
  injection Heq as ->. done.
Defined.

(** X13: after a line is removed, the next scan of its SKU in the pass
    starts a new line at the quantity of the request: nothing of the
    removed count is carried over. *)
Theorem delete_then_rescan d line_id line d1 removed user_id now new_id payload d2 r :
  line_unique d →
  lines d !! line_id = Some line →
  delete_line d line_id = Ok (d1, removed) →
  add_line d1 user_id now new_id (cl_count_pass_id line) payload = Ok (d2, r) →
  cl_sku (alr_line r) = cl_sku line →
  lines d1 = delete line_id (lines d)
  ∧ alr_incremented r = false
  ∧ alr_line_id r = new_id
  ∧ alr_previous_qty r = None
  ∧ cl_counted_qty (alr_line r) = default 1 (al_counted_qty payload).
Proof.
  intros Hu Hl Hdel Hadd Hsku. unfold delete_line in Hdel. rewrite Hl in Hdel.
  destruct (owning_pass_status d line) as [st|]; [|done].
  case_decide; [done|]. injection Hdel as <- <-.
  split; [done|].
  apply add_line_Ok in Hadd
    as (cp & prod & _ & _ & _ & _ & _ & _ &
        [(lid & old & Hf & _ & ->)|(_ & _ & _ & ->)]); [|done].
  exfalso. simpl in Hsku.
  apply find_line_Some in Hf as (Hold & Hpass & _). simpl in Hold.
  apply lookup_delete_Some in Hold as [Hne Hold].
  apply Hne. by eapply Hu.
Qed.

(** X13 on the sample store: line "l3" removed, then "A" scanned again. *)
Lemma delete_then_rescan_witness :
  lines (handle Sample.data (DeleteLine "l3")) = delete "l3" (lines Sample.data)
  ∧ false = false
  ∧ "n1" = "n1"
  ∧ (None : option Z) = None
  ∧ cl_counted_qty
      (created_line "p3" Sample.flower (Sample.scan "A" (Some 2) None) Sample.now 7)
    = default 1 (Some 2).
Proof.
  apply (delete_then_rescan Sample.data "l3" (Sample.mk_line "p3" 100)
           (handle Sample.data (DeleteLine "l3")) true 7 Sample.now "n1"
           (Sample.scan "A" (Some 2) None)
           (set_lines (handle Sample.data (DeleteLine "l3"))
              (<["n1" := created_line "p3" Sample.flower
                           (Sample.scan "A" (Some 2) None) Sample.now 7]>
                 (lines (handle Sample.data (DeleteLine "l3")))))
           {| alr_line_id := "n1";
              alr_line := created_line "p3" Sample.flower
                            (Sample.scan "A" (Some 2) None) Sample.now 7;
              alr_incremented := false;
              alr_previous_qty := None;
              alr_product := Some Sample.flower |}
           sample_line_unique);
    vm_compute; reflexivity.
Defined.

(** The rows of a pass after a line was written. *)
Lemma pass_lines_insert d pass_id i x :
  pass_lines (set_lines d (<[i:=x]> (lines d))) pass_id
  ≡ₚ (if decide (cl_count_pass_id x = pass_id) then [(i, x)] else [])
     ++ pass_lines (set_lines d (delete i (lines d))) pass_id.
Proof.
  unfold pass_lines. simpl. rewrite <- insert_delete_eq.
  rewrite map_to_list_insert by apply lookup_delete_eq.
  rewrite filter_cons. simpl. by destruct (decide (cl_count_pass_id x = pass_id)).
Qed.

Lemma pass_lines_delete d pass_id i :
  pass_lines d pass_id
  ≡ₚ match lines d !! i with
     | Some y => if decide (cl_count_pass_id y = pass_id) then [(i, y)] else []
     | None => []
     end ++ pass_lines (set_lines d (delete i (lines d))) pass_id.
Proof.
  unfold pass_lines. simpl. destruct (lines d !! i) as [y|] eqn:Hy.
  - rewrite <- (map_to_list_delete (lines d) i y Hy) at 1.
    rewrite filter_cons. simpl. by destruct (decide (cl_count_pass_id y = pass_id)).
  - by rewrite delete_id.
Qed.

(** X14: the totals a pass is serialized with follow the scans: a
    successful scan raises [total_counted] of its pass by the quantity of
    the request and [line_count] by one when a line was created, by
    nothing when a line was incremented; the totals of every other pass
    stay as they are. *)
Theorem add_line_totals d user_id now new_id pass_id payload d' r :
  add_line d user_id now new_id pass_id payload = Ok (d', r) →
  ∀ pid p,
    ps_total_counted (serialize_pass d' pid p)
    = ps_total_counted (serialize_pass d pid p)
      + (if decide (pid = pass_id) then default 1 (al_counted_qty payload) else 0)
    ∧ ps_line_count (serialize_pass d' pid p)
      = (ps_line_count (serialize_pass d pid p)
         + (if decide (pid = pass_id)
            then (if alr_incremented r then 0 else 1) else 0))%nat.
Proof.
  intros Hadd pid p. unfold serialize_pass. simpl.
  apply add_line_Ok in Hadd
    as (cp & prod & _ & _ & _ & _ & _ & _ &
        [(lid & old & Hf & -> & ->)|(Hf & Hfresh & -> & ->)]).
  - apply find_line_Some in Hf as (Hold & Hpass & _).
    rewrite (pass_lines_insert d pid lid), (pass_lines_delete d pid lid), Hold.
    simpl. rewrite Hpass.
    destruct (decide (pid = pass_id)) as [->|Hne].
    + rewrite !decide_True by done. rewrite !fmap_app, !sum_app, !length_app.
      simpl. unfold request_qty. split; lia.
    + rewrite !decide_False by done. simpl. split; lia.
  - rewrite (pass_lines_insert d pid new_id), (pass_lines_delete d pid new_id), Hfresh.
    simpl.
    destruct (decide (pid = pass_id)) as [->|Hne].
    + rewrite !decide_True by done. rewrite !fmap_app, !sum_app, !length_app.
      simpl. unfold request_qty. split; lia.
    + rewrite !decide_False by done. simpl. split; lia.
Qed.

(** X14 on the sample store: 4 more units of "A" in the open pass. *)
Lemma add_line_totals_witness :
  ps_total_counted
    (serialize_pass
       (handle Sample.data (AddLine 7 Sample.now "n1" "p3" (Sample.scan "CA" (Some 4) None)))
       "p3" (Sample.mk_pass (DateTime 100 400) None PInProgress))
  = 100 + 4.
Proof.
  destruct (add_line_totals Sample.data 7 Sample.now "n1" "p3"
              (Sample.scan "CA" (Some 4) None)
              (handle Sample.data
                 (AddLine 7 Sample.now "n1" "p3" (Sample.scan "CA" (Some 4) None)))
              {| alr_line_id := "l3";
                 alr_line := increment_line (Sample.mk_line "p3" 100) 4 Sample.now 7 None;
                 alr_incremented := true;
                 alr_previous_qty := Some 100;
                 alr_product := None |}
              ltac:(vm_compute; reflexivity)
              "p3" (Sample.mk_pass (DateTime 100 400) None PInProgress))
    as [Htotal _].
  rewrite Htotal. vm_compute. reflexivity.
Defined.

(** ** The sales sync: accounting, inserted rows, kept rows *)

(** The rest of what a movement built from a sale looks like. *)
Lemma sale_to_movement_row d sale store_id m :
  sale_to_movement d sale store_id = Ok (Some m) →
  mv_movement_type m = "sale"
  ∧ mv_qty_delta m ≤ 0
  ∧ Py.truthy (mv_sku m) = true
  ∧ mv_occurred_at m
    = DT.combine (sale_transaction_date sale) (sale_transaction_time sale)
  ∧ ∃ product, find_product d (mv_sku m) = Some product
               ∧ mv_product_id m = p_id product.
Proof.
  unfold sale_to_movement. intros Hm.
  destruct (sale_product_sku sale) as [sku|]; [|done].
  destruct (Py.truthy sku) eqn:Ht; [|done]. simpl in Hm.
  destruct (find_product d sku) as [product|] eqn:Hp; [|done].
  destruct (sale_quantity sale) as [q|]; [|done].
  injection Hm as <-. simpl. split; [done|]. split; [lia|].
  repeat (split; [done|]). by exists product.
Qed.

(** When a sale gives no movement and no error. *)
Lemma sale_to_movement_None d sale store_id :
  sale_to_movement d sale store_id = Ok None ↔
  match sale_product_sku sale with
  | None => True
  | Some sku => Py.truthy sku = false ∨ find_product d sku = None
  end.
Proof.
  unfold sale_to_movement.
  destruct (sale_product_sku sale) as [sku|]; [|done].
  destruct (Py.truthy sku); simpl; [|by split; [left|]].
  destruct (find_product d sku); [|by split; [right|]].
  destruct (sale_quantity sale); split; intros Hx; try done;
    by destruct Hx.
Qed.

Section sync_counts.
Context (d : db) (store_id : Z) (force : bool).

Local Abbreviation loop := (foldl (sync_step d store_id force)).

(** Every sale of the batch is counted once, as created, skipped or
    failed, and the loop appends one candidate per created movement. *)
Lemma sync_loop_accounting sales ms stats :
  (st_movements_created (loop (ms, stats) sales).2
   + st_movements_skipped (loop (ms, stats) sales).2
   + length (st_errors (loop (ms, stats) sales).2)
   = st_movements_created stats + st_movements_skipped stats
     + length (st_errors stats) + length sales)%nat
  ∧ st_sales_found (loop (ms, stats) sales).2 = st_sales_found stats
  ∧ ∃ added,
      (loop (ms, stats) sales).1 = ms ++ added
      ∧ sublist added (candidates d store_id sales)
      ∧ st_movements_created (loop (ms, stats) sales).2
        = (st_movements_created stats + length added)%nat.
Proof.
  revert ms stats. induction sales as [|sale sales IH]; intros ms stats.
  - simpl. split; [lia|]. split; [done|]. exists []. rewrite app_nil_r.
    split; [done|]. split; [done|]. simpl. lia.
  - simpl foldl. unfold sync_step at 2 4 6 8 10 12, candidates. csimpl.
    fold (candidates d store_id sales).
    destruct (sale_to_movement d sale store_id) as [[m|]|e]; simpl.
    + destruct (bool_decide _ && negb force).
      * destruct (IH ms (stats_skipped stats (st_products_not_found stats)))
          as (Hn & Hf & added & -> & Hsub & Hc).
        simpl in *. split; [lia|]. split; [done|]. exists added.
        split; [done|]. split; [by apply sublist_cons|done].
      * destruct (IH (ms ++ [m]) (stats_created stats))
          as (Hn & Hf & added & -> & Hsub & Hc).
        simpl in *. split; [lia|]. split; [done|]. exists (m :: added).
        rewrite <- app_assoc. split; [done|].
        split; [by apply sublist_skip|simpl; lia].
    + match goal with
      | |- context [foldl _ (ms, ?st) sales] =>
        destruct (IH ms st) as (Hn & Hf & added & -> & Hsub & Hc)
      end.
      simpl in *. split; [lia|]. split; [done|]. by exists added.
    + destruct (IH ms (stats_error stats e))
        as (Hn & Hf & added & -> & Hsub & Hc).
      simpl in *. rewrite length_app in Hn. simpl in Hn.
      split; [lia|]. split; [done|]. by exists added.
Qed.

(** The SKUs reported as not found: those already listed, then the
    non-empty SKUs of the batch that no product carries, each once. *)
Lemma sync_loop_not_found sales ms stats :
  NoDup (st_products_not_found stats) →
  NoDup (st_products_not_found (loop (ms, stats) sales).2)
  ∧ ∀ sku, sku ∈ st_products_not_found (loop (ms, stats) sales).2 ↔
      sku ∈ st_products_not_found stats
      ∨ (Py.truthy sku = true ∧ find_product d sku = None
         ∧ ∃ sale, sale ∈ sales ∧ sale_product_sku sale = Some sku).
Proof.
  revert ms stats. induction sales as [|sale sales IH]; intros ms stats Hnd.
  - simpl. split; [done|]. intros sku. split; [by left|].
    intros [?|(_ & _ & s & []%elem_of_nil & _)]. done.
  - simpl foldl. unfold sync_step at 2 4.
    destruct (sale_to_movement d sale store_id) as [[m|]|e] eqn:Hm; simpl.
    + assert (sale_product_sku sale = Some (mv_sku m)
              ∧ ∃ p, find_product d (mv_sku m) = Some p) as [Hsku [p Hp]].
      { split; [by apply sale_to_movement_Some in Hm as (_ & _ & _ & _ & _ & ?)|].
        apply sale_to_movement_row in Hm as (_ & _ & _ & _ & p & ? & _). by exists p. }
      assert (∀ ms' st',
        st_products_not_found st' = st_products_not_found stats →
        NoDup (st_products_not_found (loop (ms', st') sales).2)
        ∧ ∀ sku, sku ∈ st_products_not_found (loop (ms', st') sales).2 ↔
            sku ∈ st_products_not_found stats
            ∨ (Py.truthy sku = true ∧ find_product d sku = None
               ∧ ∃ s, s ∈ sale :: sales ∧ sale_product_sku s = Some sku))
        as Hboth.
      { intros ms' st' Heq. destruct (IH ms' st') as [Hnd' Hiff].
        { by rewrite Heq. }
        split; [done|]. intros sku. rewrite Hiff, Heq. split.
        - intros [?|(? & ? & s & ? & ?)]; [by left|right].
          repeat (split; [done|]). exists s. split; [by right|done].
        - intros [?|(? & Hnone & s & Hin & Hs)]; [by left|right].
          repeat (split; [done|]). exists s. split; [|done].
          apply elem_of_cons in Hin as [->|?]; [|done]. congruence. }
      destruct (bool_decide _ && negb force); by apply Hboth.
    + apply sale_to_movement_None in Hm.
      match goal with
      | |- context [foldl _ (ms, stats_skipped stats ?nf) sales] =>
        set (listed := nf) in *
      end.
      assert (NoDup listed
              ∧ ∀ sku, sku ∈ listed ↔
                  sku ∈ st_products_not_found stats
                  ∨ (Py.truthy sku = true ∧ find_product d sku = None
                     ∧ sale_product_sku sale = Some sku)) as [Hnd1 Hiff1].
      { subst listed. destruct (sale_product_sku sale) as [sku0|].
        - destruct (Py.truthy sku0) eqn:Ht; simpl.
          + destruct Hm as [?|Hnone]; [done|]. case_bool_decide as Hnew.
            * split.
              -- apply NoDup_app. split; [done|]. split; [|apply NoDup_singleton].
                 by intros x Hx ->%list_elem_of_singleton.
              -- intros sku. rewrite elem_of_app, list_elem_of_singleton.
                 split; [intros [?| ->]; [by left|by right]|].
                 intros [?|(_ & _ & [= ->])]; [by left|by right].
            * split; [done|]. intros sku. split; [by left|].
              by intros [?|(_ & _ & [= ->])].
          + split; [done|]. intros sku. split; [by left|].
            intros [?|(? & _ & [= ->])]; [done|congruence].
        - split; [done|]. intros sku. split; [by left|].
          by intros [?|(_ & _ & ?)]. }
      destruct (IH ms (stats_skipped stats listed) Hnd1) as [Hnd' Hiff].
      split; [done|]. intros sku. rewrite Hiff. simpl. rewrite Hiff1. split.
      * intros [[?|(? & ? & ?)]|(? & ? & s & ? & ?)]; [by left|right..].
        -- repeat (split; [done|]). exists sale. split; [left|done].
        -- repeat (split; [done|]). exists s. split; [by right|done].
      * intros [?|(? & ? & s & Hin & ?)]; [by left; left|].
        apply elem_of_cons in Hin as [->|?].
        -- left. by right.
        -- right. repeat (split; [done|]). by exists s.
    + destruct (IH ms (stats_error stats e) Hnd) as [Hnd' Hiff].
      split; [done|]. intros sku. rewrite Hiff. simpl. split.
      * intros [?|(? & ? & s & ? & ?)]; [by left|right].
        repeat (split; [done|]). exists s. split; [by right|done].
      * intros [?|(? & Hnone & s & Hin & Hs)]; [by left|right].
        repeat (split; [done|]). exists s. split; [|done].
        apply elem_of_cons in Hin as [->|?]; [|done].
        exfalso. unfold sale_to_movement in Hm. rewrite Hs in Hm.
        destruct (Py.truthy sku); [|done]. simpl in Hm. by rewrite Hnone in Hm.
Qed.
End sync_counts.

Lemma filter_length_split {A} (P : A → Prop) `{∀ x, Decision (P x)} (l : list A) :
  (length (filter P l) + length (filter (λ x, ¬ P x) l) = length l)%nat.
Proof.
  rewrite <- length_app. apply Permutation_length, filter_app_complement.
Qed.

(** X15: the counters of a sync add up: every sale row of the date range
    is counted exactly once, as a movement created, as a row skipped or
    as an error; the ledger grows by the movements created, less the rows
    a forced re-sync deleted first (none without [force_resync]); and
    nothing but the ledger changes. *)
Theorem sync_accounting d today store_id from_date to_date (force : bool) :
  let out := sync_sales_to_movements d today store_id from_date to_date force in
  let sales := sales_query d (default (today - 1) from_date) (default today to_date)
                 (get_cova_store_ids store_id) in
  st_sales_found out.2 = length sales
  ∧ (st_movements_created out.2 + st_movements_skipped out.2
     + length (st_errors out.2) = st_sales_found out.2)%nat
  ∧ (length (movements out.1) + default 0%nat (st_movements_deleted out.2)
     = length (movements d) + st_movements_created out.2)%nat
  ∧ (is_Some (st_movements_deleted out.2) ↔ force = true)
  ∧ set_movements out.1 (movements d) = d.
Proof.
  intros out sales. subst out. unfold sync_sales_to_movements. cbv zeta.
  fold sales. cbn [fst snd].
  change (movements (set_movements d ?x)) with x.
  match goal with
  | |- context [foldl _ (?k, ?st) sales] =>
    set (kept := k) in *; set (stats := st) in *
  end.
  destruct (sync_loop_accounting d store_id force sales kept stats)
    as (Hn & Hf & added & Hms & _ & Hcr).
  pose proof (sync_loop_deleted d store_id force sales (kept, stats)) as Hdel.
  rewrite Hms, Hf, length_app, Hdel. simpl in Hn |- *.
  split; [done|]. split; [lia|]. rewrite Hcr. simpl.
  split; [|split].
  - subst kept. destruct force; simpl; [|lia].
    pose proof (filter_length_split (resync_deletes store_id
      (default (today - 1) from_date) (default today to_date)) (movements d)).
    lia.
  - destruct force; split; done.
  - by destruct d.
Qed.

(** The ledger after a sync: the rows kept, then rows built from sales of
    the batch, as many as the run reports created. *)
Lemma sync_ledger d today store_id from_date to_date (force : bool) :
  let out := sync_sales_to_movements d today store_id from_date to_date force in
  let lo := default (today - 1) from_date in
  let hi := default today to_date in
  ∃ added,
    movements out.1
    = (if force
       then filter (λ m, ¬ resync_deletes store_id lo hi m) (movements d)
       else movements d) ++ added
    ∧ length added = st_movements_created out.2
    ∧ sublist added
        (candidates d store_id (sales_query d lo hi (get_cova_store_ids store_id))).
Proof.
  intros out lo hi. subst out. unfold sync_sales_to_movements. cbv zeta.
  fold lo hi. cbn [fst snd].
  change (movements (set_movements d ?x)) with x.
  match goal with
  | |- context [foldl _ (?k, ?st) ?sales] =>
    destruct (sync_loop_accounting d store_id force sales k st)
      as (_ & _ & added & Hms & Hsub & Hcr)
  end.
  exists added. rewrite Hms, Hcr. simpl. by destruct force.
Qed.

(** X16: what a sync writes.  Without [force_resync] the ledger is only
    appended to; with it the rows of the store, the source "cova_sync"
    and the date range go first.  Every row then added is a "sale" of the
    store with source "cova_sync", a quantity that is not positive, a
    date inside the range, the id of the product that carries its SKU,
    and the reference "transaction:line" of a row of [cova_sales] sold
    under one of the store's Cova ids. *)
Theorem sync_inserts_sales d today store_id from_date to_date (force : bool) :
  let out := sync_sales_to_movements d today store_id from_date to_date force in
  let lo := default (today - 1) from_date in
  let hi := default today to_date in
  ∃ added,
    movements out.1
    = (if force
       then filter (λ m, ¬ resync_deletes store_id lo hi m) (movements d)
       else movements d) ++ added
    ∧ length added = st_movements_created out.2
    ∧ ∀ m, m ∈ added →
        mv_store_id m = store_id
        ∧ mv_movement_type m = "sale"
        ∧ mv_source m = "cova_sync"
        ∧ mv_qty_delta m ≤ 0
        ∧ lo ≤ dt_date (mv_occurred_at m) ≤ hi
        ∧ (∃ product, find_product d (mv_sku m) = Some product
                      ∧ mv_product_id m = p_id product)
        ∧ ∃ sale q,
            sale ∈ cova_sales d
            ∧ sale_cova_store_id sale ∈ get_cova_store_ids store_id
            ∧ sale_product_sku sale = Some (mv_sku m)
            ∧ sale_quantity sale = Some q
            ∧ mv_qty_delta m = - Z.abs q
            ∧ mv_source_ref m = Some (source_ref_of sale)
            ∧ mv_occurred_at m
              = DT.combine (sale_transaction_date sale) (sale_transaction_time sale).
Proof.
  intros out lo hi.
  destruct (sync_ledger d today store_id from_date to_date force)
    as (added & Hms & Hlen & Hsub).
  exists added. split; [done|]. split; [done|]. intros m Hin.
  apply (elem_of_sublist _ _ _ Hin) in Hsub as Hin'. clear Hin. rename Hin' into Hin.
  apply candidates_elem_of in Hin as (sale & Hsale & Hm).
  apply sales_query_elem_of in Hsale as (Hrange & Hid & Hsale).
  pose proof (sale_to_movement_row _ _ _ _ Hm) as (Hty & Hq & _ & Hat & Hprod).
  apply sale_to_movement_Some in Hm as (Hs & Hsrc & Href & Hdate & (q & Hsq & Hmq) & Hsku).
  repeat (split; [done|]). split; [by rewrite Hdate|]. split; [done|].
  by exists sale, q.
Qed.

(** What the sync does to the rows a predicate selects outside the store. *)
Lemma sync_frame d today store_id from_date to_date (force : bool)
    (P : movement → Prop) `{∀ m, Decision (P m)} :
  (∀ m, P m → mv_store_id m ≠ store_id) →
  filter P (movements
              (sync_sales_to_movements d today store_id from_date to_date force).1)
  = filter P (movements d).
Proof.
  intros HP.
  destruct (sync_ledger d today store_id from_date to_date force)
    as (added & Hms & _ & Hsub).
  cbv zeta in Hms. rewrite Hms, filter_app.
  rewrite (filter_none P added), app_nil_r.
  - destruct force; [|done]. rewrite list_filter_filter.
    apply list_filter_iff. intros m. split; [tauto|].
    intros Hm. split; [done|]. intros (? & _). by eapply HP.
  - intros m Hin Hm.
    apply (elem_of_sublist _ _ _ Hin) in Hsub as Hin'. clear Hin. rename Hin' into Hin.
    apply candidates_elem_of in Hin as (sale & _ & Hsale).
    apply sale_to_movement_Some in Hsale as (Hs & _). by eapply HP.
Qed.

(** X17: a sync of one store, forced or not, leaves the movements of
    every other store in place and in order, and with them the sync
    status of those stores. *)
Theorem sync_other_store_untouched d today store_id from_date to_date force
    other day :
  other ≠ store_id →
  let out := sync_sales_to_movements d today store_id from_date to_date force in
  filter (λ m, mv_store_id m = other) (movements out.1)
  = filter (λ m, mv_store_id m = other) (movements d)
  ∧ get_sync_status out.1 day other = get_sync_status d day other.
Proof.
  intros Hne out. subst out. split.
  - apply sync_frame. by intros m ->.
  - unfold get_sync_status.
    rewrite !(sync_frame d today store_id from_date to_date force); [done|..];
      intros m (-> & _); done.
Qed.

(** X17 on the sample store: store 1 is synced by force, store 2 asked. *)
Lemma sync_other_store_untouched_witness :
  let out := sync_sales_to_movements Sample.data 101 1 (Some 100) (Some 100) true in
  filter (λ m, mv_store_id m = 2) (movements out.1)
  = filter (λ m, mv_store_id m = 2) (movements Sample.data)
  ∧ get_sync_status out.1 101 2 = get_sync_status Sample.data 101 2.
Proof.
  apply (sync_other_store_untouched Sample.data 101 1 (Some 100) (Some 100) true 2 101).
  lia.
Defined.

(** X18: the SKUs a sync reports as not found are, each once, the
    non-empty SKUs of the sale rows of the batch that no product carries
    as [sku] or [cova_sku]. *)
Theorem sync_not_found d today store_id from_date to_date (force : bool) :
  let out := sync_sales_to_movements d today store_id from_date to_date force in
  let sales := sales_query d (default (today - 1) from_date) (default today to_date)
                 (get_cova_store_ids store_id) in
  NoDup (st_products_not_found out.2)
  ∧ ∀ sku, sku ∈ st_products_not_found out.2 ↔
      Py.truthy sku = true ∧ find_product d sku = None
      ∧ ∃ sale, sale ∈ sales ∧ sale_product_sku sale = Some sku.
Proof.
  intros out sales. subst out. unfold sync_sales_to_movements. cbv zeta.
  fold sales. cbn [fst snd].
  match goal with
  | |- context [foldl _ (?k, ?st) sales] =>
    destruct (sync_loop_not_found d store_id force sales k st) as [Hnd Hiff]
  end.
  { apply NoDup_nil_2. }
  split; [done|]. intros sku. rewrite Hiff. simpl. split.
  - by intros [?%elem_of_nil|?].
  - by right.
Qed.

(** ** Cova store ids and the sync status *)









Lemma dt_desc_total {A} (f : A → datetime) a b :
  DT.leb (f b) (f a) = false → DT.leb (f a) (f b) = true.
Proof. unfold DT.leb, DT.ltb. lia. Qed.

Lemma dt_desc_trans {A} (f : A → datetime) a b c :
  DT.leb (f b) (f a) = true → DT.leb (f c) (f b) = true →
  DT.leb (f c) (f a) = true.
Proof. intros H1 H2. by apply (dt_le_trans (f c) (f b) (f a)). Qed.

(** The head of a descending sort is a greatest row. *)
Lemma head_sorted_desc (rows : list movement) m :
  head (Py.stable_sort (λ a b, DT.leb (mv_occurred_at b) (mv_occurred_at a)) rows)
  = Some m →
  m ∈ rows ∧ ∀ m', m' ∈ rows → dt_le (mv_occurred_at m') (mv_occurred_at m).
Proof.
  intros Hhead.
  pose proof (stable_sort_sorted
                (λ a b, DT.leb (mv_occurred_at b) (mv_occurred_at a))
                (dt_desc_total mv_occurred_at) (dt_desc_trans mv_occurred_at)
                rows) as Hsorted.
  pose proof (stable_sort_elem_of
                (λ a b, DT.leb (mv_occurred_at b) (mv_occurred_at a)) rows) as Hel.
  destruct (Py.stable_sort _ rows) as [|x l]; [done|].
  injection Hhead as ->. split; [apply Hel; left|].
  intros m' [->|Hin]%Hel%elem_of_cons; [apply dt_le_refl|].
  apply StronglySorted_inv in Hsorted as [_ Hall].
  rewrite Forall_forall in Hall. by apply Hall.
Qed.

(** X20: the sync status of a store.  [synced] says whether the ledger
    holds a "cova_sync" movement of the store; [latest_movement_at] is
    then the time of such a movement that none of them exceeds, and is
    absent otherwise; today's count never exceeds their number. *)
Theorem sync_status_latest d today store_id :
  let st := get_sync_status d today store_id in
  let rows := filter (λ m, mv_store_id m = store_id ∧ mv_source m = "cova_sync")
                     (movements d) in
  sst_store_id st = store_id
  ∧ (sst_synced st = true ↔ ∃ m, m ∈ rows)
  ∧ (sst_latest_movement_at st = None ↔ rows = [])
  ∧ (∀ t, sst_latest_movement_at st = Some t →
       (∃ m, m ∈ rows ∧ mv_occurred_at m = t)
       ∧ ∀ m, m ∈ rows → dt_le (mv_occurred_at m) t)
  ∧ (sst_today_movement_count st ≤ length rows)%nat
  ∧ (sst_today_movement_count st
     = length (filter (λ m, dt_date (mv_occurred_at m) = today) rows)).
Proof.
  intros st rows. subst st. unfold get_sync_status. simpl. fold rows.
  pose proof (head_sorted_desc rows) as Hhead.
  pose proof (stable_sort_perm
                (λ a b, DT.leb (mv_occurred_at b) (mv_occurred_at a)) rows) as Hperm.
  assert (filter (λ m, mv_store_id m = store_id ∧ mv_source m = "cova_sync"
                       ∧ dt_date (mv_occurred_at m) = today) (movements d)
          = filter (λ m, dt_date (mv_occurred_at m) = today) rows) as ->.
  { subst rows. rewrite list_filter_filter. apply list_filter_iff. tauto. }
  destruct (Py.stable_sort _ rows) as [|x l] eqn:Hs; simpl.
  - apply Permutation_nil_l in Hperm. rewrite <- Hperm. simpl.
    split; [done|]. split.
    { split; [done|]. by intros (m & ?%elem_of_nil). }
    repeat (split; [done|]). done.
  - destruct (Hhead x eq_refl) as [Hin Hmax].
    split; [done|]. split.
    { split; [by exists x|done]. }
    split.
    { split; [done|]. intros Hnil. rewrite Hnil in Hin.
      by apply elem_of_nil in Hin. }
    split.
    { intros t [= <-]. split; [by exists x|done]. }
    split; [apply length_filter|done].
Qed.

(** X21: once a sync has created a movement, the status of the store
    reports it as synced, with a latest movement not before the first day
    of the synced range. *)
Theorem sync_then_status d today store_id from_date to_date force day :
  let out := sync_sales_to_movements d today store_id from_date to_date force in
  st_movements_created out.2 ≠ 0%nat →
  sst_synced (get_sync_status out.1 day store_id) = true
  ∧ ∃ t, sst_latest_movement_at (get_sync_status out.1 day store_id) = Some t
         ∧ default (today - 1) from_date ≤ dt_date t.
Proof.
  intros out Hcreated.
  destruct (sync_ledger d today store_id from_date to_date force)
    as (added & Hms & Hlen & Hsub).
  cbv zeta in Hms, Hlen, Hsub. fold out in Hms, Hlen.
  destruct added as [|m added]; [by rewrite <- Hlen in Hcreated|].
  assert (m ∈ candidates d store_id
                (sales_query d (default (today - 1) from_date)
                   (default today to_date) (get_cova_store_ids store_id)))
    as (sale & Hsale & Hm)%candidates_elem_of
    by (eapply elem_of_sublist; [left|done]).
  apply sales_query_elem_of in Hsale as (Hrange & _).
  apply sale_to_movement_Some in Hm as (Hs & Hsrc & _ & Hdate & _).
  assert (m ∈ filter (λ m, mv_store_id m = store_id ∧ mv_source m = "cova_sync")
                     (movements out.1)) as Hin.
  { apply list_elem_of_filter. split; [done|].
    rewrite Hms. apply elem_of_app. right. left. }
  unfold get_sync_status. cbn [sst_synced sst_latest_movement_at].
  destruct (head (Py.stable_sort
                    (λ a b, DT.leb (mv_occurred_at b) (mv_occurred_at a))
                    (filter (λ m, mv_store_id m = store_id
                                  ∧ mv_source m = "cova_sync")
                            (movements out.1)))) as [x|] eqn:Hhead.
  - apply head_sorted_desc in Hhead as [_ Hmax]. simpl.
    split; [done|]. exists (mv_occurred_at x). split; [done|].
    apply Hmax, dt_le_spec in Hin. lia.
  - exfalso. apply head_None in Hhead.
    apply (stable_sort_elem_of
             (λ a b, DT.leb (mv_occurred_at b) (mv_occurred_at a))) in Hin.
    rewrite Hhead in Hin. by apply elem_of_nil in Hin.
Qed.

(** X21 on the sample store. *)
Lemma sync_then_status_witness :
  let out := sync_sales_to_movements Sample.data 101 1 (Some 100) (Some 100) false in
  sst_synced (get_sync_status out.1 101 1) = true
  ∧ ∃ t, sst_latest_movement_at (get_sync_status out.1 101 1) = Some t
         ∧ default (101 - 1) (Some 100) ≤ dt_date t.
Proof.
  apply (sync_then_status Sample.data 101 1 (Some 100) (Some 100) false 101).
  vm_compute. discriminate.
Defined.

(** ** Locations *)

(** Only [create_location] writes locations. *)
Lemma handle_locations d r :
  (∀ p, r ≠ CreateLocation p) → locations (handle d r) = locations d.
Proof.
  intros Hc.
  destruct r; simpl; try (exfalso; by eapply Hc); try done.
  - unfold create_session.
    destruct (csp_store_id payload); [|done].
    repeat (case_decide; [done|]). by destruct (sessions d !! new_id).
  - unfold start_session.
    destruct (sessions d !! session_id); [|done]. by case_decide.
  - unfold submit_session.
    destruct (sessions d !! session_id); [|done].
    case_decide; [done|]. by case_decide.
  - unfold create_pass. repeat (case_match; simpl; try done).
  - unfold submit_pass. repeat (case_match; simpl; try done).
  - unfold void_pass. repeat (case_match; simpl; try done).
  - by destruct (add_line d user_id now new_id pass_id payload) as [[? ?]|] eqn:Ha;
      [apply add_line_Ok in Ha
         as (? & ? & _ & _ & _ & _ & _ & _ & [(? & ? & _ & -> & _)|(_ & _ & -> & _)])|].
  - unfold update_line.
    destruct (lines d !! line_id) as [l|]; [|done].
    destruct (owning_pass_status d l); [|done]. by case_decide.
  - unfold delete_line.
    destruct (lines d !! line_id) as [l|]; [|done].
    destruct (owning_pass_status d l); [|done]. by case_decide.
Qed.

(** The autoincrement key is above every key in use. *)
Lemma next_location_id_fresh d : locations d !! next_location_id d = None.
Proof.
  unfold next_location_id.
  assert (∀ k, is_Some (locations d !! k) →
               k ≤ map_fold (λ k _ acc, Z.max k acc) 0 (locations d)) as Hmax.
  { apply (map_fold_weak_ind
             (λ acc m, ∀ k, is_Some (m !! k) → k ≤ acc)).
    - intros k [? Hk]. by rewrite lookup_empty in Hk.
    - intros i x m acc Hi IH k Hk.
      destruct (decide (k = i)) as [->|Hne]; [lia|].
      rewrite lookup_insert_ne in Hk by done. specialize (IH k Hk). lia. }
  destruct (locations d !! _) eqn:Hl; [|done].
  specialize (Hmax _ (mk_is_Some _ _ Hl)). lia.
Qed.

Lemma create_location_Ok d payload d' id loc :
  create_location d payload = Ok (d', (id, loc)) →
  ∃ sid,
    clp_store_id payload = Some sid ∧ sid ≠ 0
    ∧ loc_store_id loc = sid
    ∧ loc_code loc = Py.upper (Py.get_stripped (clp_code payload) "")
    ∧ Py.truthy (loc_code loc) = true
    ∧ loc_name loc = Py.get_stripped (clp_name payload) ""
    ∧ Py.truthy (loc_name loc) = true
    ∧ loc_is_active loc = true
    ∧ (∀ k l, locations d !! k = Some l →
              ¬ (loc_store_id l = sid ∧ loc_code l = loc_code loc))
    ∧ id = next_location_id d
    ∧ d' = set_locations d (<[id := loc]> (locations d)).
Proof.
  unfold create_location. intros Hc.
  destruct (clp_store_id payload) as [sid|]; [|done].
  destruct (bool_decide (sid ≠ 0)) eqn:Hsid; [|done].
  destruct (Py.truthy (Py.upper _)) eqn:Hcode; [|done].
  destruct (Py.truthy (Py.get_stripped (clp_name payload) "")) eqn:Hname; [|done].
  simpl in Hc.
  destruct (filter _ (map_to_list (locations d))) as [|? ?] eqn:Hf; [|done].
  injection Hc as <- <- <-. exists sid. simpl.
  apply bool_decide_eq_true in Hsid.
  repeat (split; [done|]). split; [|done].
  intros k l Hk Hdup.
  assert ((k, l) ∈ filter (λ r, loc_store_id r.2 = sid
                               ∧ loc_code r.2
                                 = Py.upper (Py.get_stripped (clp_code payload) ""))
                          (map_to_list (locations d))) as Hin
    by (apply list_elem_of_filter; split; [done|by apply elem_of_map_to_list]).
  rewrite Hf in Hin. by apply elem_of_nil in Hin.
Qed.



(** What every request does to the locations. *)
Lemma handle_location_code_unique d r :
  location_code_unique d → location_code_unique (handle d r).
Proof.
  intros Hu.
  destruct r as [p| | | | | | | | | |];
    try (unfold location_code_unique; by rewrite handle_locations).
  simpl. destruct (create_location d p) as [[d' [id loc]]|] eqn:Hc; [|done].
  simpl.
  apply create_location_Ok in Hc
    as (sid & _ & _ & Hstore & _ & _ & _ & _ & _ & Hnew & -> & ->).
  intros id1 id2 l1 l2. simpl. rewrite !lookup_insert_Some.
  intros [[<- <-]|[? H1]] [[<- <-]|[? H2]] Hs Hcd; try done.
  - exfalso. apply (Hnew _ _ H2). by rewrite <- Hs, <- Hcd.
  - exfalso. apply (Hnew _ _ H1). by rewrite Hs, Hcd.
  - by eapply Hu.
Qed.

(** X23: codes stay unique: when no two locations of a store share a
    code, no run of requests makes two of them share one. *)
Theorem location_codes_stay_unique d d' :
  location_code_unique d → reachable d d' → location_code_unique d'.
Proof. intros H0. induction 1; [done|]. by apply handle_location_code_unique. Qed.


(** X23 on the sample store, which has no location yet: the same shelf
    requested twice. *)
Lemma location_codes_stay_unique_witness :
  location_code_unique
    (handle
       (handle Sample.data
          (CreateLocation {| clp_store_id := Some 1; clp_code := Some "shelf-a";
                             clp_name := Some "Shelf A"; clp_description := None |}))
       (CreateLocation {| clp_store_id := Some 1; clp_code := Some " SHELF-A";
                          clp_name := Some "Shelf"; clp_description := None |})).
Proof.
  apply (location_codes_stay_unique Sample.data).
  - intros id1 id2 l1 l2 Hl. vm_compute in Hl. discriminate.
  - apply reachable_step, reachable_step, reachable_start.
Defined.

(** ** Referential integrity and scope along runs *)

(** No request writes the stores, the catalog, the inventory or the
    sales feed. *)
Lemma handle_static d r :
  stores (handle d r) = stores d
  ∧ products (handle d r) = products d
  ∧ inventory_items (handle d r) = inventory_items d
  ∧ cova_sales (handle d r) = cova_sales d.
Proof.
  destruct r; simpl; try done.
  - unfold create_location. repeat (case_match; simpl; try done).
  - unfold create_session. repeat (case_match; simpl; try done).
  - unfold start_session. repeat (case_match; simpl; try done).
  - unfold submit_session. repeat (case_match; simpl; try done).
  - unfold create_pass. repeat (case_match; simpl; try done).
  - unfold submit_pass. repeat (case_match; simpl; try done).
  - unfold void_pass. repeat (case_match; simpl; try done).
  - by destruct (add_line d user_id now new_id pass_id payload) as [[? ?]|] eqn:Ha;
      [apply add_line_Ok in Ha
         as (? & ? & _ & _ & _ & _ & _ & _ & [(? & ? & _ & -> & _)|(_ & _ & -> & _)])|].
  - unfold update_line, owning_pass_status. repeat (case_match; simpl; try done).
  - unfold delete_line, owning_pass_status. repeat (case_match; simpl; try done).
Qed.

(** X24: the stores, the product catalog, the inventory rows and the
    Cova sales feed are read only: no run of requests changes them, so a
    code resolves to the same product and a SKU keeps its baseline. *)
Theorem catalog_read_only d d' :
  reachable d d' →
  stores d' = stores d
  ∧ products d' = products d
  ∧ inventory_items d' = inventory_items d
  ∧ cova_sales d' = cova_sales d
  ∧ (∀ code, find_product d' code = find_product d code)
  ∧ (∀ store_id, baseline_by_sku d' store_id = baseline_by_sku d store_id).
Proof.
  intros Hr.
  assert (stores d' = stores d ∧ products d' = products d
          ∧ inventory_items d' = inventory_items d
          ∧ cova_sales d' = cova_sales d) as (Hs & Hp & Hi & Hc).
  { induction Hr as [|d1 r _ (IH1 & IH2 & IH3 & IH4)]; [done|].
    destruct (handle_static d1 r) as (-> & -> & -> & ->). done. }
  repeat (split; [done|]). split.
  - intros code. unfold find_product. by rewrite Hp.
  - intros store_id. unfold baseline_by_sku, baseline_rows. by rewrite Hp, Hi.
Qed.

(** X24 on the sample store, two passes and a session later. *)
Lemma catalog_read_only_witness :
  stores Sample.closed = stores Sample.data
  ∧ products Sample.closed = products Sample.data
  ∧ inventory_items Sample.closed = inventory_items Sample.data
  ∧ cova_sales Sample.closed = cova_sales Sample.data
  ∧ (∀ code, find_product Sample.closed code = find_product Sample.data code)
  ∧ (∀ store_id, baseline_by_sku Sample.closed store_id
                 = baseline_by_sku Sample.data store_id).
Proof.
  apply (catalog_read_only Sample.data Sample.closed).
  apply reachable_step, reachable_step, reachable_step, reachable_start.
Defined.

(** A location stays where it is. *)
Lemma handle_location_old d r k l :
  locations d !! k = Some l → locations (handle d r) !! k = Some l.
Proof.
  intros Hk. destruct r as [p| | | | | | | | | |];
    try (by rewrite handle_locations).
  simpl. destruct (create_location d p) as [[d' [id loc]]|] eqn:Hc; [|done].
  apply create_location_Ok in Hc as (_ & _ & _ & _ & _ & _ & _ & _ & _ & _ & -> & ->).
  simpl. rewrite lookup_insert_ne; [done|].
  intros <-. by rewrite next_location_id_fresh in Hk.
Qed.

(** Only [create_session] adds a session, for a store that exists. *)
Lemma handle_session_new d r id s' :
  sessions d !! id = None → sessions (handle d r) !! id = Some s' →
  cs_store_id s' ∈ stores d.
Proof.
  intros Hnone Hs'. destruct r; simpl in Hs'.
  - unfold create_location in Hs'.
    repeat (case_match; simpl in Hs'; try congruence).
  - unfold create_session in Hs'.
    destruct (csp_store_id payload) as [sid|]; [|simpl in Hs'; congruence].
    repeat (case_decide; [simpl in Hs'; congruence|]).
    destruct (sessions d !! new_id); simpl in Hs'; [congruence|].
    apply lookup_insert_Some in Hs' as [[_ <-]|[_ ?]]; [|congruence]. done.
  - unfold start_session in Hs'.
    destruct (sessions d !! session_id) eqn:Hq; [|simpl in Hs'; congruence].
    case_decide; simpl in Hs'; [congruence|].
    apply lookup_insert_Some in Hs' as [[<- _]|[_ ?]]; congruence.
  - unfold submit_session in Hs'.
    destruct (sessions d !! session_id) eqn:Hq; [|simpl in Hs'; congruence].
    repeat (case_match; simpl in Hs'; try congruence).
    apply lookup_insert_Some in Hs' as [[<- _]|[_ ?]]; congruence.
  - unfold create_pass in Hs'.
    destruct (sessions d !! session_id) eqn:Hq; [|simpl in Hs'; congruence].
    repeat (case_match; simpl in Hs'; try congruence);
      apply lookup_insert_Some in Hs' as [[<- _]|[_ ?]]; congruence.
  - unfold submit_pass in Hs'. repeat (case_match; simpl in Hs'; try congruence).
  - unfold void_pass in Hs'. repeat (case_match; simpl in Hs'; try congruence).
  - destruct (add_line d user_id now new_id pass_id payload) as [[? ?]|] eqn:Ha;
      [|simpl in Hs'; congruence].
    apply add_line_Ok in Ha
      as (? & ? & _ & _ & _ & _ & _ & _ & [(? & ? & _ & -> & _)|(_ & _ & -> & _)]);
      simpl in Hs'; congruence.
  - unfold update_line, owning_pass_status in Hs'.
    repeat (case_match; simpl in Hs'; try congruence).
  - unfold delete_line, owning_pass_status in Hs'.
    repeat (case_match; simpl in Hs'; try congruence).
  - congruence.
Qed.

Lemma handle_sessions_have_store d r :
  sessions_have_store d → sessions_have_store (handle d r).
Proof.
  intros Hinv id s' Hs'. destruct (handle_static d r) as (-> & _).
  destruct (sessions d !! id) as [s|] eqn:Hs.
  - destruct (handle_session_old d r id s Hs) as (q & Hq & Hcase).
    rewrite Hq in Hs'. injection Hs' as <-. apply Hinv in Hs.
    by destruct Hcase as [->|[(_ & ->)|(_ & _ & _ & ->)]].
  - by eapply handle_session_new.
Qed.

Lemma handle_passes_in_store d r :
  passes_in_store d → passes_in_store (handle d r).
Proof.
  intros Hinv id p' Hp'.
  destruct (passes d !! id) as [p|] eqn:Hp.
  - destruct (handle_pass_old d r id p Hp) as (q & Hq & Hcase).
    rewrite Hq in Hp'. injection Hp' as <-.
    destruct (Hinv id p Hp) as (s & location & Hs & Hloc & Hstore).
    destruct (handle_session_old d r _ s Hs) as (s' & Hs' & Hscase).
    apply (handle_location_old d r) in Hloc.
    exists s', location.
    assert (cs_store_id s' = cs_store_id s) as ->
      by (by destruct Hscase as [->|[(_ & ->)|(_ & _ & _ & ->)]]).
    by destruct Hcase as [->|[(_ & now & u & _ & ->)|(_ & _ & ->)]].
  - destruct (handle_pass_new d r id p' Hp Hp')
      as (_ & _ & s' & location & Hs' & _ & Hloc & Hstore).
    apply (handle_location_old d r) in Hloc. by exists s', location.
Qed.

(** X25: references stay valid.  When every session belongs to a store
    that exists and every pass counts a location of the store of its
    session, the same holds after any run of requests. *)
Theorem references_stay_valid d d' :
  sessions_have_store d → passes_in_store d → reachable d d' →
  sessions_have_store d' ∧ passes_in_store d'.
Proof.
  intros Hs Hp. induction 1 as [|d1 r _ [IHs IHp]]; [done|].
  split; [by apply handle_sessions_have_store|by apply handle_passes_in_store].
Qed.

(** X25 on the sample store: from the bare store to a first count. *)
Lemma references_stay_valid_witness :
  sessions_have_store Sample.opened ∧ passes_in_store Sample.opened.
Proof.
  apply (references_stay_valid Sample.bare Sample.opened).
  - intros id s Hs. vm_compute in Hs. discriminate.
  - intros id p Hp. vm_compute in Hp. discriminate.
  - do 4 apply reachable_step. apply reachable_start.
Defined.

Lemma find_product_elem_of d code product :
  find_product d code = Some product → product ∈ products d.
Proof.
  unfold find_product. intros Hh.
  destruct (filter _ (products d)) as [|x l] eqn:Hf; [done|].
  injection Hh as ->.
  assert (product ∈ filter (λ p, p_sku p = code ∨ p_cova_sku p = Some code)
                           (products d)) as Hin by (rewrite Hf; left).
  by apply list_elem_of_filter in Hin as [_ ?].
Qed.

Lemma handle_lines_in_scope d r :
  lines_have_pass d → lines_in_scope d → lines_in_scope (handle d r).
Proof.
  intros Hhp Hinv id l p' Hl Hp'.
  destruct (handle_static d r) as (_ & -> & _).
  assert (∀ l0 p0, passes d !! cl_count_pass_id l0 = Some p0 →
            passes (handle d r) !! cl_count_pass_id l0 = Some p' →
            cp_category p' = cp_category p0
            ∧ cp_subcategory p' = cp_subcategory p0) as Hscope.
  { intros l0 p0 Hp0 Hq.
    destruct (handle_pass_old d r _ p0 Hp0) as (q & Hq' & Hcase).
    rewrite Hq' in Hq. injection Hq as <-.
    by destruct Hcase as [->|[(_ & now & u & _ & ->)|(_ & _ & ->)]]. }
  assert (∀ id0 l0, lines d !! id0 = Some l0 →
            cl_count_pass_id l0 = cl_count_pass_id l →
            cl_product_id l0 = cl_product_id l → cl_sku l0 = cl_sku l →
            ∃ prod, prod ∈ products d
              ∧ p_id prod = cl_product_id l ∧ p_sku prod = cl_sku l
              ∧ scope_conflict (cp_category p') (p_category prod) = None
              ∧ scope_conflict (cp_subcategory p') (p_subcategory prod) = None)
    as Hold.
  { intros id0 l0 Hl0 Hpass Hpid Hsku.
    destruct (Hhp id0 l0 Hl0) as [p0 Hp0].
    rewrite <- Hpass in Hp'.
    destruct (Hscope l0 p0 Hp0 Hp') as [-> ->].
    rewrite <- Hpid, <- Hsku. by eapply Hinv. }
  destruct r;
    try (rewrite handle_lines in Hl by done; by eapply Hold).
  - simpl in Hl, Hp'.
    destruct (add_line d user_id now new_id pass_id payload) as [[d' resp]|] eqn:Ha;
      simpl in *; [|by eapply Hold].
    apply add_line_Ok in Ha
      as (cp & prod & Hp & _ & _ & Hprod & Hc & Hsc &
          [(lid & old & Hf & -> & _)|(_ & _ & -> & _)]); simpl in *.
    + apply find_line_Some in Hf as (Hlo & _ & _).
      apply lookup_insert_Some in Hl as [[<- <-]|[_ Hl]]; by eapply Hold.
    + apply lookup_insert_Some in Hl as [[<- <-]|[_ Hl]]; [|by eapply Hold].
      simpl in *. rewrite Hp in Hp'. injection Hp' as <-.
      exists prod. split; [by eapply find_product_elem_of|done].
  - simpl in Hl, Hp'. unfold update_line in *.
    destruct (lines d !! line_id) as [l0|] eqn:Hl0; simpl in *; [|by eapply Hold].
    destruct (owning_pass_status d l0); simpl in *; [|by eapply Hold].
    case_decide; simpl in *; [by eapply Hold|].
    apply lookup_insert_Some in Hl as [[<- <-]|[_ Hl]]; by eapply Hold.
  - simpl in Hl, Hp'. unfold delete_line in *.
    destruct (lines d !! line_id) as [l0|] eqn:Hl0; simpl in *; [|by eapply Hold].
    destruct (owning_pass_status d l0); simpl in *; [|by eapply Hold].
    case_decide; simpl in *; [by eapply Hold|].
    apply lookup_delete_Some in Hl as [_ Hl]. by eapply Hold.
Qed.

(** X26: lines stay inside the scope of their pass.  When every line has
    its pass and names a catalog product that the category and
    subcategory scope of the pass admits, the same holds after any run of
    requests: no scan, correction, or change of a pass puts a product
    into a pass whose scope excludes it. *)
Theorem lines_stay_in_scope d d' :
  lines_have_pass d → lines_in_scope d → reachable d d' →
  lines_have_pass d' ∧ lines_in_scope d'.
Proof.
  intros Hhp Hs. induction 1 as [|d1 r _ [IHp IHs]]; [done|].
  split; [by apply handle_lines_have_pass|by apply handle_lines_in_scope].
Qed.

(** X26 on the sample store: from the bare store to a first count. *)
Lemma lines_stay_in_scope_witness :
  lines_have_pass Sample.opened ∧ lines_in_scope Sample.opened.
Proof.
  apply (lines_stay_in_scope Sample.bare Sample.opened).
  - intros id l Hl. vm_compute in Hl. discriminate.
  - intros id l p Hl. vm_compute in Hl. discriminate.
  - do 4 apply reachable_step. apply reachable_start.
Defined.

(** ** The pass counts of a session *)

Lemma session_passes_insert d session_id i x :
  session_passes (set_passes d (<[i:=x]> (passes d))) session_id
  ≡ₚ (if decide (cp_session_id x = session_id) then [(i, x)] else [])
     ++ session_passes (set_passes d (delete i (passes d))) session_id.
Proof.
  unfold session_passes. simpl. rewrite <- insert_delete_eq.
  rewrite map_to_list_insert by apply lookup_delete_eq.
  rewrite filter_cons. simpl. by destruct (decide (cp_session_id x = session_id)).
Qed.

Lemma session_passes_delete d session_id i y :
  passes d !! i = Some y →
  session_passes d session_id
  ≡ₚ (if decide (cp_session_id y = session_id) then [(i, y)] else [])
     ++ session_passes (set_passes d (delete i (passes d))) session_id.
Proof.
  intros Hy. unfold session_passes. simpl.
  rewrite <- (map_to_list_delete (passes d) i y Hy) at 1.
  rewrite filter_cons. simpl. by destruct (decide (cp_session_id y = session_id)).
Qed.

(** X27: the pass counts a session is serialized with.  Submitting a
    pass leaves [pass_count] of every session as it is and raises
    [submitted_pass_count] of the session of the pass, and of no other,
    by one; the submitted passes never outnumber the passes. *)
Theorem submit_pass_session_counts d user_id now pass_id d' p' :
  submit_pass d user_id now pass_id = Ok (d', p') →
  ∀ sid s,
    ss_pass_count (serialize_session d' sid s)
    = ss_pass_count (serialize_session d sid s)
    ∧ ss_submitted_pass_count (serialize_session d' sid s)
      = (ss_submitted_pass_count (serialize_session d sid s)
         + if decide (cp_session_id p' = sid) then 1 else 0)%nat
    ∧ (ss_submitted_pass_count (serialize_session d' sid s)
       ≤ ss_pass_count (serialize_session d' sid s))%nat.
Proof.
  unfold submit_pass. intros Hs sid s.
  destruct (passes d !! pass_id) as [p|] eqn:Hp; [|done].
  case_decide as Hst; [done|]. injection Hs as <- <-.
  unfold serialize_session. simpl.
  split; [|split]; [| |apply length_filter].
  - rewrite (session_passes_insert d sid pass_id),
      (session_passes_delete d sid pass_id p Hp). simpl.
    by destruct (decide (cp_session_id p = sid)).
  - rewrite (session_passes_insert d sid pass_id),
      (session_passes_delete d sid pass_id p Hp). simpl.
    rewrite !filter_app, !length_app.
    destruct (decide (cp_session_id p = sid)); [|simpl; lia].
    rewrite !filter_cons, !filter_nil. simpl.
    rewrite decide_False by (by rewrite Hst). simpl. lia.
Qed.

(** X27 on the sample store: the open pass "p3" is submitted. *)
Lemma submit_pass_session_counts_witness :
  ss_submitted_pass_count
    (serialize_session (handle Sample.data (SubmitPass 8 Sample.now "p3")) "s1"
       Sample.session) = 3%nat.
Proof.
  destruct (submit_pass_session_counts Sample.data 8 Sample.now "p3"
              (handle Sample.data (SubmitPass 8 Sample.now "p3"))
              (with_pass_status (Sample.mk_pass (DateTime 100 400) None PInProgress)
                 PSubmitted (Some Sample.now) (Some 8))
              ltac:(vm_compute; reflexivity) "s1" Sample.session)
    as (_ & Hsub & _).
  rewrite Hsub. vm_compute. reflexivity.
Defined.
